(** * MModel execution handlers

    A shallow embedding of [mmodel/handler.py]: the shared driver
    [TopologicalHandler.__call__] and the three execution strategies
    [PlainHandler] (retain all), [MemHandler] (counted eviction) and
    [H5Handler] (values persisted in an HDF5 group).

    Python dictionaries keyed by names are finite maps [gmap string _];
    a dictionary whose iteration order is observed is a list of items.
    Exceptions are values of [exn] and fallible code returns [result]. *)

From stdpp Require Import base gmap list strings sorting pretty.
From Stdlib Require Import ZArith.

Local Open Scope Z_scope.
Set Warnings "-register-all,-clear-no-such-hyp".

(** ** Python values and exceptions *)

Inductive value : Type :=
| VNone
| VInt (z : Z)
| VStr (s : string)
| VTuple (vs : list value).

(** [KeyError] and [TypeError] are raised by the interpreter itself
    (a missing dictionary key, iterating a non-iterable); [Raised] is any
    exception a node callable or the storage library raises, with its
    class name and message; [RaisedBase] is one whose class derives from
    [BaseException] without deriving from [Exception]; [Chained msg e]
    is [raise Exception(msg) from e]. *)
Inductive exn : Type :=
| KeyError (key : string)
| TypeError (msg : string)
| Raised (kind msg : string)
| RaisedBase (kind msg : string)
| Chained (msg : string) (cause : exn).

Inductive result (A : Type) : Type :=
| Ok (a : A)
| Raise (e : exn).
Arguments Ok {A} a.
Arguments Raise {A} e.

Definition rbind {A B} (r : result A) (k : A → result B) : result B :=
  match r with
  | Ok a => k a
  | Raise e => Raise e
  end.

Notation "x ←! r ; k" := (rbind r (λ x, k))
  (at level 20, r at level 100, k at level 200, right associativity,
   format "x  ←!  r ;  '/' k").

Definition is_ok {A} (r : result A) : bool :=
  match r with Ok _ => true | Raise _ => false end.

(** [type(e).__name__] and [str(e)]. *)
Definition exn_type_name (e : exn) : string :=
  match e with
  | KeyError _ => "KeyError"
  | TypeError _ => "TypeError"
  | Raised kind _ => kind
  | RaisedBase kind _ => kind
  | Chained _ _ => "Exception"
  end.

Definition exn_str (e : exn) : string :=
  match e with
  | KeyError key => "'" +:+ key +:+ "'"
  | TypeError msg => msg
  | Raised _ msg => msg
  | RaisedBase _ msg => msg
  | Chained msg _ => msg
  end.

(** The built-in classes that derive from [BaseException] without
    deriving from [Exception]. *)
Definition base_only : list string :=
  ["BaseException"; "BaseExceptionGroup"; "GeneratorExit";
   "KeyboardInterrupt"; "SystemExit"].

(** [isinstance(e, Exception)], what [except Exception] tests.  The
    class of a [Raised] is known by its name only, and is outside
    [Exception] when the name is one of [base_only]. *)
Definition is_Exception (e : exn) : bool :=
  match e with
  | KeyError _ | TypeError _ | Chained _ _ => true
  | Raised kind _ => bool_decide (kind ∉ base_only)
  | RaisedBase _ _ => false
  end.

(** The elements Python's iteration protocol yields for a value;
    numbers and [None] are not iterable. *)
Fixpoint chars (s : string) : list value :=
  match s with
  | EmptyString => []
  | String c s' => VStr (String c EmptyString) :: chars s'
  end.

Definition py_iter (v : value) : result (list value) :=
  match v with
  | VTuple vs => Ok vs
  | VStr s => Ok (chars s)
  | VNone => Raise (TypeError "'NoneType' object is not iterable")
  | VInt _ => Raise (TypeError "'int' object is not iterable")
  end.

(** ** Dictionaries *)

(** [d[key]] *)
Definition getitem (d : gmap string value) (key : string) : result value :=
  match d !! key with
  | Some v => Ok v
  | None => Raise (KeyError key)
  end.

(** [{key: d[key] for key in parameters}] *)
Fixpoint dict_comp (d : gmap string value) (parameters : list string)
  : result (gmap string value) :=
  match parameters with
  | [] => Ok ∅
  | key :: rest =>
      v ←! getitem d key;
      kw ←! dict_comp d rest;
      Ok (<[key := v]> kw)
  end.

(** Items of a Python dictionary in insertion order: assigning to a key
    already present keeps its position and replaces its value. *)
Fixpoint setitem (key : string) (v : value) (items : list (string * value))
  : list (string * value) :=
  match items with
  | [] => [(key, v)]
  | (k, v') :: rest =>
      if decide (key = k) then (key, v) :: rest
      else (k, v') :: setitem key v rest
  end.

(** [dict(pairs)] *)
Definition py_dict (pairs : list (string * value)) : list (string * value) :=
  foldl (λ items kv, setitem kv.1 kv.2 items) [] pairs.

(** [value_dict.update(items)] *)
Definition dict_update (d : gmap string value) (items : list (string * value))
  : gmap string value :=
  foldl (λ m kv, <[kv.1 := kv.2]> m) d items.

(** ** Nodes *)

Definition node : Type := string.

(** A node's attribute dictionary: [node_attr["obj"]],
    [node_attr["sig"].parameters] and [node_attr["returns"]].  A pure
    callable is a function of its keyword arguments. *)
Record node_attr : Type := {
  obj : gmap string value → result value;
  parameters : list string;
  node_returns : list string;
}.

(** The four lines shared by every [run_node]:
    [if len(returns) == 1: value_dict[returns[0]] = func_output
     else: value_dict.update(dict(zip(returns, func_output)))] *)
Definition store_output (rts : list string) (func_output : value)
    (value_dict : gmap string value) : result (gmap string value) :=
  match rts with
  | [r] => Ok (<[r := func_output]> value_dict)
  | _ =>
      vs ←! py_iter func_output;
      Ok (dict_update value_dict (py_dict (zip rts vs)))
  end.

(** The dictionary [H5Handler.run_node] hands to [write]:
    [{returns[0]: func_output}] or [dict(zip(returns, func_output))]. *)
Definition output_items (rts : list string) (func_output : value)
  : result (list (string * value)) :=
  match rts with
  | [r] => Ok [(r, func_output)]
  | _ => vs ←! py_iter func_output; Ok (py_dict (zip rts vs))
  end.

(** [sorted] on a list of names: ascending in the code-point order of
    [str]. *)
Definition str_le (a b : string) : Prop := String.leb a b = true.

Global Instance str_le_dec : RelDecision str_le.
Proof. intros a b. unfold str_le. apply _. Defined.

Global Instance str_le_total : Total str_le.
Proof.
  intros a b. unfold str_le, String.leb.
  rewrite (String.compare_antisym b a).
  destruct (String.compare a b); simpl; auto.
Qed.

Definition sorted (l : list string) : list string := merge_sort str_le l.

(** ** Construction *)

(** The helpers of [mmodel.utility] are not part of the handler module:
    construction is stated over any implementation of them, each of
    which may raise on a given graph.  [model_signature] yields the names
    of the external inputs, [model_returns] the outputs the graph
    declares, [graph_topological_sort] the plan. *)

Record TopologicalHandler (graph : Type) : Type := {
  __signature__ : list string;
  returns : list string;
  order : list (node * node_attr);
  handler_graph : graph;
}.
Arguments __signature__ {graph} _.
Arguments returns {graph} _.
Arguments order {graph} _.
Arguments handler_graph {graph} _.

Record MemHandler (graph : Type) : Type := {
  mem_base : TopologicalHandler graph;
  counter : gmap string Z;
}.
Arguments mem_base {graph} _.
Arguments counter {graph} _.

(** [id(self)] is the identity the interpreter gave the handler object. *)
Record H5Handler (graph : Type) : Type := {
  h5_base : TopologicalHandler graph;
  h5_filename : string;
  self_id : Z;
}.
Arguments h5_base {graph} _.
Arguments h5_filename {graph} _.
Arguments self_id {graph} _.

Section Construction.
Context {graph : Type}.
Variable model_signature : graph → result (list string).
Variable model_returns : graph → result (list string).
Variable graph_topological_sort : graph → result (list (node * node_attr)).
Variable graph_copy : graph → result graph.
Variable param_counter : graph → list string → result (gmap string Z).

(** [TopologicalHandler.__init__] *)
Definition TopologicalHandler_init (g : graph) (additional_returns : list string)
  : result (TopologicalHandler graph) :=
  sg ←! model_signature g;
  rts ←! model_returns g;
  ord ←! graph_topological_sort g;
  cp ←! graph_copy g;
  Ok {| __signature__ := sg;
        returns := sorted (rts ++ additional_returns);
        order := ord;
        handler_graph := cp |}.

(** [PlainHandler] inherits the constructor. *)
Definition PlainHandler_init := TopologicalHandler_init.

(** [MemHandler.__init__] *)
Definition MemHandler_init (g : graph) (additional_returns : list string)
  : result (MemHandler graph) :=
  base ←! TopologicalHandler_init g additional_returns;
  cnt ←! param_counter g additional_returns;
  Ok {| mem_base := base; counter := cnt |}.

(** [H5Handler.__init__]; [exe_count] starts at [0] and lives in the
    mutable state of the handler, see [h5_state] below. *)
Definition H5Handler_init (ident : Z) (g : graph)
    (additional_returns : list string) (filename : string)
  : result (H5Handler graph) :=
  base ←! TopologicalHandler_init g additional_returns;
  Ok {| h5_base := base; h5_filename := filename; self_id := ident |}.

End Construction.

(** A requested output is producible when a node of the plan returns it
    or it is one of the external inputs. *)
Definition produces (x : string) (na : node * node_attr) : bool :=
  bool_decide (x ∈ node_returns na.2).

Definition producible (sg : list string) (ord : list (node * node_attr))
    (x : string) : bool :=
  bool_decide (x ∈ sg) || existsb (produces x) ord.

(** ** Retain-All: [PlainHandler] *)

(** [PlainHandler.initiate]: the keyword arguments are the dictionary. *)
Definition PlainHandler_initiate (kwargs : list (string * value))
  : gmap string value :=
  dict_update ∅ kwargs.

(** [PlainHandler.run_node] *)
Definition PlainHandler_run_node (value_dict : gmap string value)
    (n : node) (attr : node_attr) : result (gmap string value) :=
  kwargs ←! dict_comp value_dict (parameters attr);
  func_output ←! obj attr kwargs;
  store_output (node_returns attr) func_output value_dict.

(** [tuple(value_dict[rt] for rt in returns)] *)
Fixpoint getitems (value_dict : gmap string value) (rts : list string)
  : result (list value) :=
  match rts with
  | [] => Ok []
  | rt :: rest =>
      v ←! getitem value_dict rt;
      vs ←! getitems value_dict rest;
      Ok (v :: vs)
  end.

(** [PlainHandler.finish] *)
Definition PlainHandler_finish (value_dict : gmap string value)
    (rts : list string) : result value :=
  match rts with
  | [r] => getitem value_dict r
  | _ => vs ←! getitems value_dict rts; Ok (VTuple vs)
  end.

(** The text an f-string renders for the tuple [(node, node_attr)]; it
    contains the interpreter's rendering of the callable and is left to
    the caller of the model. *)
Definition node_message (fmt : node → node_attr → string)
    (n : node) (attr : node_attr) : string :=
  "Exception occurred for node " +:+ fmt n attr.

(** [PlainHandler.raise_node_exception] *)
Definition PlainHandler_raise_node_exception
    (fmt : node → node_attr → string) (value_dict : gmap string value)
    (n : node) (attr : node_attr) (e : exn) : result (gmap string value) :=
  Raise (Chained (node_message fmt n attr) e).

(** ** Counted-Eviction: [MemHandler] *)

(** [for key in parameters: count[key] -= 1; if count[key] == 0: del value_dict[key]] *)
Fixpoint evict (params : list string) (value_dict : gmap string value)
    (count : gmap string Z) : result (gmap string value * gmap string Z) :=
  match params with
  | [] => Ok (value_dict, count)
  | key :: rest =>
      match count !! key with
      | None => Raise (KeyError key)
      | Some c =>
          let count' := <[key := c - 1]> count in
          if decide (c - 1 = 0) then
            match value_dict !! key with
            | None => Raise (KeyError key)
            | Some _ => evict rest (delete key value_dict) count'
            end
          else evict rest value_dict count'
      end
  end.

(** [MemHandler.initiate]: the dictionary and a copy of the counter. *)
Definition MemHandler_initiate {graph} (self : MemHandler graph)
    (kwargs : list (string * value)) : gmap string value * gmap string Z :=
  (dict_update ∅ kwargs, counter self).

(** [MemHandler.run_node] *)
Definition MemHandler_run_node (data_instance : gmap string value * gmap string Z)
    (n : node) (attr : node_attr)
  : result (gmap string value * gmap string Z) :=
  let '(value_dict, count) := data_instance in
  kwargs ←! dict_comp value_dict (parameters attr);
  func_output ←! obj attr kwargs;
  value_dict' ←! store_output (node_returns attr) func_output value_dict;
  evict (parameters attr) value_dict' count.

(** [MemHandler.raise_node_exception] *)
Definition MemHandler_raise_node_exception
    (fmt : node → node_attr → string)
    (data_instance : gmap string value * gmap string Z)
    (n : node) (attr : node_attr) (e : exn)
  : result (gmap string value * gmap string Z) :=
  Raise (Chained (node_message fmt n attr) e).

(** [MemHandler.finish] *)
Definition MemHandler_finish (data_instance : gmap string value * gmap string Z)
    (rts : list string) : result value :=
  let value_dict := data_instance.1 in
  match rts with
  | [r] => getitem value_dict r
  | _ => vs ←! getitems value_dict rts; Ok (VTuple vs)
  end.

(** ** The shared driver: [TopologicalHandler.__call__] *)

(** The four abstract methods.  [W] is the state outside the data
    instance that a method may change (the handler's own attributes, the
    storage library); [D] is the data instance.  A method that mutates
    the data instance returns the new one; when [run_node] raises, the
    in-memory data instance is handed to [raise_node_exception] as it
    was before the node ran ([PlainHandler] and [MemHandler] never read
    it there), while changes to [W] are kept.  [except Exception] hands
    over an exception that is an instance of [Exception]; any other
    leaves the loop, and the call, as it is. *)
Record methods (W D : Type) : Type := {
  initiate : list (string * value) → W → result D * W;
  run_node : D → node → node_attr → W → result D * W;
  raise_node_exception : D → node → node_attr → exn → W → result D * W;
  finish : D → list string → W → result value * W;
}.
Arguments initiate {W D} _.
Arguments run_node {W D} _.
Arguments raise_node_exception {W D} _.
Arguments finish {W D} _.

Section Driver.
Context {W D : Type} (m : methods W D).

(** [for node, node_attr in self.order: try: ... except Exception as e: ...] *)
Fixpoint run_order (ord : list (node * node_attr)) (data_instance : D) (w : W)
  : result D * W :=
  match ord with
  | [] => (Ok data_instance, w)
  | (n, attr) :: rest =>
      match run_node m data_instance n attr w with
      | (Ok d', w') => run_order rest d' w'
      | (Raise e, w') =>
          if is_Exception e then
            match raise_node_exception m data_instance n attr e w' with
            | (Ok d', w'') => run_order rest d' w''
            | (Raise e', w'') => (Raise e', w'')
            end
          else (Raise e, w')
      end
  end.

(** [__call__] *)
Definition call (ord : list (node * node_attr)) (rts : list string)
    (kwargs : list (string * value)) (w : W) : result value * W :=
  match initiate m kwargs w with
  | (Raise e, w1) => (Raise e, w1)
  | (Ok data_instance, w1) =>
      match run_order ord data_instance w1 with
      | (Raise e, w2) => (Raise e, w2)
      | (Ok data_instance', w2) => finish m data_instance' rts w2
      end
  end.
End Driver.

Definition pure_method {A} (r : result A) : unit → result A * unit :=
  λ w, (r, w).

Definition PlainHandler_methods (fmt : node → node_attr → string)
  : methods unit (gmap string value) := {|
  initiate kwargs := pure_method (Ok (PlainHandler_initiate kwargs));
  run_node d n attr := pure_method (PlainHandler_run_node d n attr);
  raise_node_exception d n attr e :=
    pure_method (PlainHandler_raise_node_exception fmt d n attr e);
  finish d rts := pure_method (PlainHandler_finish d rts);
|}.

Definition MemHandler_methods {graph} (fmt : node → node_attr → string)
    (self : MemHandler graph)
  : methods unit (gmap string value * gmap string Z) := {|
  initiate kwargs := pure_method (Ok (MemHandler_initiate self kwargs));
  run_node d n attr := pure_method (MemHandler_run_node d n attr);
  raise_node_exception d n attr e :=
    pure_method (MemHandler_raise_node_exception fmt d n attr e);
  finish d rts := pure_method (MemHandler_finish d rts);
|}.

Definition PlainHandler_call {graph} (fmt : node → node_attr → string)
    (self : TopologicalHandler graph) (kwargs : list (string * value))
  : result value :=
  (call (PlainHandler_methods fmt) (order self) (returns self) kwargs ()).1.

Definition MemHandler_call {graph} (fmt : node → node_attr → string)
    (self : MemHandler graph) (kwargs : list (string * value))
  : result value :=
  (call (MemHandler_methods fmt self) (order (mem_base self))
        (returns (mem_base self)) kwargs ()).1.

(** ** Durable-Persisted: [H5Handler] *)

(** The calls the handler makes into [h5py], in the order it makes them. *)
Inductive h5_event : Type :=
| EvFile (filename mode : string)
| EvCreateGroup (filename group : string)
| EvCreateDataset (group key : string) (data : value)
| EvRead (group key : string)
| EvSetAttr (group key text : string)
| EvClose (filename : string).

(** [h5py] is an external library: the handler is stated over any
    implementation of the six operations it uses, acting on a state [H]
    of the library (the files and the open handles).  A group is named
    by its path in the file.  Each of the operations may raise. *)
Class H5Backend (H : Type) : Type := {
  h5py_File : string → string → H → result H;
  h5py_create_group : string → string → H → result H;
  h5py_create_dataset : string → string → value → H → result H;
  h5py_getitem : string → string → H → result value;
  h5py_attrs_setitem : string → string → string → H → result H;
  h5py_close : string → H → result H;
}.

(** What a call may change outside its data instance: the handler's
    [exe_count], the library's state, and the record of the calls made. *)
Record h5_state (H : Type) : Type := {
  exe_count : Z;
  h5 : H;
  trace : list h5_event;
}.
Arguments exe_count {H} _.
Arguments h5 {H} _.
Arguments trace {H} _.

(** [self.exe_count = 0] in [H5Handler.__init__]. *)
Definition h5_state_init {H} (lib : H) : h5_state H :=
  {| exe_count := 0; h5 := lib; trace := [] |}.

Section H5.
Context {H : Type} `{H5Backend H}.
Context {graph : Type}.
Variable fmt : node → node_attr → string.

Definition log (ev : h5_event) (st : h5_state H) : h5_state H :=
  {| exe_count := exe_count st; h5 := h5 st; trace := trace st ++ [ev] |}.

Definition set_h5 (lib : H) (st : h5_state H) : h5_state H :=
  {| exe_count := exe_count st; h5 := lib; trace := trace st |}.

(** A fallible library call, recorded before it runs. *)
Definition lib_call (ev : h5_event) (op : H → result H) (st : h5_state H)
  : result unit * h5_state H :=
  let st1 := log ev st in
  match op (h5 st1) with
  | Ok lib => (Ok (), set_h5 lib st1)
  | Raise e => (Raise e, st1)
  end.

(** [H5Handler.write]: [for k, v in value_dict.items(): group.create_dataset(k, data=v)] *)
Fixpoint H5Handler_write (items : list (string * value)) (group : string)
    (st : h5_state H) : result unit * h5_state H :=
  match items with
  | [] => (Ok (), st)
  | (k, v) :: rest =>
      match lib_call (EvCreateDataset group k v)
                     (h5py_create_dataset group k v) st with
      | (Ok _, st1) => H5Handler_write rest group st1
      | (Raise e, st1) => (Raise e, st1)
      end
  end.

(** [H5Handler.read]: [group[key][()]] *)
Definition H5Handler_read (key group : string) (st : h5_state H)
  : result value * h5_state H :=
  let st1 := log (EvRead group key) st in
  (h5py_getitem group key (h5 st1), st1).

(** [f"{id(self)}_{self.exe_count}"] *)
Definition exe_group_name (ident count : Z) : string :=
  pretty ident +:+ "_" +:+ pretty count.

(** [H5Handler.initiate] *)
Definition H5Handler_initiate (self : H5Handler graph)
    (kwargs : list (string * value)) (st : h5_state H)
  : result (string * string) * h5_state H :=
  let st0 := {| exe_count := exe_count st + 1; h5 := h5 st;
                trace := trace st |} in
  let f := h5_filename self in
  match lib_call (EvFile f "a") (h5py_File f "a") st0 with
  | (Raise e, st1) => (Raise e, st1)
  | (Ok _, st1) =>
      let exe_group := exe_group_name (self_id self) (exe_count st1) in
      match lib_call (EvCreateGroup f exe_group)
                     (h5py_create_group f exe_group) st1 with
      | (Raise e, st2) => (Raise e, st2)
      | (Ok _, st2) =>
          match H5Handler_write kwargs exe_group st2 with
          | (Raise e, st3) => (Raise e, st3)
          | (Ok _, st3) => (Ok (f, exe_group), st3)
          end
      end
  end.

(** [{key: self.read(key, exe_group) for key in parameters}] *)
Fixpoint read_comp (params : list string) (group : string) (st : h5_state H)
  : result (gmap string value) * h5_state H :=
  match params with
  | [] => (Ok ∅, st)
  | key :: rest =>
      match H5Handler_read key group st with
      | (Raise e, st1) => (Raise e, st1)
      | (Ok v, st1) =>
          match read_comp rest group st1 with
          | (Raise e, st2) => (Raise e, st2)
          | (Ok kw, st2) => (Ok (<[key := v]> kw), st2)
          end
      end
  end.

(** [H5Handler.run_node] *)
Definition H5Handler_run_node (data_instance : string * string)
    (n : node) (attr : node_attr) (st : h5_state H)
  : result (string * string) * h5_state H :=
  let exe_group := data_instance.2 in
  match read_comp (parameters attr) exe_group st with
  | (Raise e, st1) => (Raise e, st1)
  | (Ok kwargs, st1) =>
      match obj attr kwargs with
      | Raise e => (Raise e, st1)
      | Ok func_output =>
          match output_items (node_returns attr) func_output with
          | Raise e => (Raise e, st1)
          | Ok items =>
              match H5Handler_write items exe_group st1 with
              | (Raise e, st2) => (Raise e, st2)
              | (Ok _, st2) => (Ok data_instance, st2)
              end
          end
      end
  end.

(** [tuple(self.read(rt, exe_group) for rt in returns)] *)
Fixpoint read_all (rts : list string) (group : string) (st : h5_state H)
  : result (list value) * h5_state H :=
  match rts with
  | [] => (Ok [], st)
  | rt :: rest =>
      match H5Handler_read rt group st with
      | (Raise e, st1) => (Raise e, st1)
      | (Ok v, st1) =>
          match read_all rest group st1 with
          | (Raise e, st2) => (Raise e, st2)
          | (Ok vs, st2) => (Ok (v :: vs), st2)
          end
      end
  end.

(** [f.close()] *)
Definition H5Handler_close (f : string) (st : h5_state H)
  : result unit * h5_state H :=
  lib_call (EvClose f) (h5py_close f) st.

(** [H5Handler.finish] *)
Definition H5Handler_finish (data_instance : string * string)
    (rts : list string) (st : h5_state H) : result value * h5_state H :=
  let '(f, exe_group) := data_instance in
  let read_result :=
    match rts with
    | [r] => H5Handler_read r exe_group st
    | _ =>
        match read_all rts exe_group st with
        | (Raise e, st1) => (Raise e, st1)
        | (Ok vs, st1) => (Ok (VTuple vs), st1)
        end
    end in
  match read_result with
  | (Raise e, st1) => (Raise e, st1)
  | (Ok rt, st1) =>
      match H5Handler_close f st1 with
      | (Raise e, st2) => (Raise e, st2)
      | (Ok _, st2) => (Ok rt, st2)
      end
  end.

(** [f"{type(e).__name__} occurred for node {node, node_attr}: {e}"] *)
Definition note_message (n : node) (attr : node_attr) (e : exn) : string :=
  exn_type_name e +:+ " occurred for node " +:+ fmt n attr +:+ ": "
    +:+ exn_str e.

(** [H5Handler.raise_node_exception]: an exception of the assignment
    to [attrs] or of [close] leaves the method in place of the wrapping
    one, and the statements after it are not run. *)
Definition H5Handler_raise_node_exception (data_instance : string * string)
    (n : node) (attr : node_attr) (e : exn) (st : h5_state H)
  : result (string * string) * h5_state H :=
  let '(f, exe_group) := data_instance in
  let msg := note_message n attr e in
  match lib_call (EvSetAttr exe_group "note" msg)
                 (h5py_attrs_setitem exe_group "note" msg) st with
  | (Raise e', st1) => (Raise e', st1)
  | (Ok _, st1) =>
      match H5Handler_close f st1 with
      | (Raise e', st2) => (Raise e', st2)
      | (Ok _, st2) => (Raise (Chained (node_message fmt n attr) e), st2)
      end
  end.

Definition H5Handler_methods (self : H5Handler graph)
  : methods (h5_state H) (string * string) := {|
  initiate := H5Handler_initiate self;
  run_node := H5Handler_run_node;
  raise_node_exception := H5Handler_raise_node_exception;
  finish := H5Handler_finish;
|}.

Definition H5Handler_call (self : H5Handler graph)
    (kwargs : list (string * value)) (st : h5_state H)
  : result value * h5_state H :=
  call (H5Handler_methods self) (order (h5_base self))
       (returns (h5_base self)) kwargs st.
End H5.

(** ** The usage counter *)

Fixpoint occurrences (key : string) (l : list string) : Z :=
  match l with
  | [] => 0
  | x :: rest => (if decide (key = x) then 1 else 0) + occurrences key rest
  end.

(** Every parameter reference of the plan, in plan order. *)
Definition all_parameters (ord : list (node * node_attr)) : list string :=
  flat_map (λ na, parameters na.2) ord.

Definition references (key : string) (ord : list (node * node_attr)) : Z :=
  occurrences key (all_parameters ord).

Definition requested (key : string) (rts : list string) : Z :=
  if decide (key ∈ rts) then 1 else 0.

Definition incr (key : string) (count : gmap string Z) : gmap string Z :=
  <[key := default 0 (count !! key) + 1]> count.

(** Modelled from the spec: [param_counter] of [mmodel.utility] is not
    part of the handler module.  The usage counter maps a value name to
    the "number of node-parameter references to this value across the
    whole plan, plus 1 if it is a requested output", and holds only
    names whose count is at least 1. *)
Definition usage_count (ord : list (node * node_attr)) (rts : list string)
  : gmap string Z :=
  foldr incr (foldr incr ∅ (all_parameters ord)) (remove_dups rts).

(** The plan respects dependency order by names: no node returns a name
    that a node earlier in the plan takes as a parameter. *)
Fixpoint dependency_ordered (ord : list (node * node_attr)) : Prop :=
  match ord with
  | [] => True
  | (n, attr) :: rest =>
      (∀ key, key ∈ parameters attr → key ∉ flat_map (λ na, node_returns na.2) rest)
      ∧ dependency_ordered rest
  end.

(** ** A keyed store as backend *)

(** A store in which every write succeeds and a read returns what was
    last written under the name; used to instantiate [H5Backend]. *)
Record keyed_file : Type := {
  groups : gmap string (gmap string value);
  attrs : gmap string (gmap string string);
  open_handles : list string;
}.

Definition keyed_empty : keyed_file :=
  {| groups := ∅; attrs := ∅; open_handles := [] |}.

Definition keyed_create_dataset (group key : string) (data : value)
    (s : keyed_file) : result keyed_file :=
  match groups s !! group with
  | None => Raise (KeyError group)
  | Some d =>
      Ok {| groups := <[group := <[key := data]> d]> (groups s);
            attrs := attrs s; open_handles := open_handles s |}
  end.

Definition keyed_getitem (group key : string) (s : keyed_file) : result value :=
  match groups s !! group with
  | None => Raise (KeyError group)
  | Some d => getitem d key
  end.

Global Instance keyed_backend : H5Backend keyed_file := {|
  h5py_File filename mode s :=
    Ok {| groups := groups s; attrs := attrs s;
          open_handles := filename :: open_handles s |};
  h5py_create_group filename group s :=
    Ok {| groups := <[group := ∅]> (groups s); attrs := attrs s;
          open_handles := open_handles s |};
  h5py_create_dataset := keyed_create_dataset;
  h5py_getitem := keyed_getitem;
  h5py_attrs_setitem group key text s :=
    Ok {| groups := groups s;
          attrs := <[group := <[key := text]> (default ∅ (attrs s !! group))]> (attrs s);
          open_handles := open_handles s |};
  h5py_close filename s :=
    Ok {| groups := groups s; attrs := attrs s;
          open_handles := filter (λ f, f ≠ filename) (open_handles s) |};
|}.

(** Modelled from the spec: the storage library is not part of the
    repository, and of it the spec says "for every value written into a
    group, reading it back by name yields a value equal to the original".
    [write_once_store view storable] says so of the writes a store
    accepts, over a view of the datasets each group holds: a group that
    has been created is empty; a write under a name the group does not
    hold, of a value that is [storable], succeeds and is what later reads
    of the name return; a read of a name never written raises
    [KeyError]; closing succeeds.  It says nothing of opening a file, of
    whether a group can be created, of a write under a name the group
    holds, of a value that is not [storable], or of attributes. *)
Definition write_once_store {H} `{H5Backend H}
    (view : H → string → option (gmap string value))
    (storable : value → Prop) : Prop :=
  (∀ f g lib lib', h5py_create_group f g lib = Ok lib' → view lib' g = Some ∅)
  ∧ (∀ g key v lib d, view lib g = Some d → d !! key = None → storable v →
       ∃ lib', h5py_create_dataset g key v lib = Ok lib'
               ∧ view lib' g = Some (<[key := v]> d))
  ∧ (∀ g key lib d, view lib g = Some d →
       h5py_getitem g key lib = getitem d key)
  ∧ (∀ f lib, is_ok (h5py_close f lib) = true).

(** The names a call writes into its group: the keyword arguments, then
    the return names of the nodes in plan order. *)
Definition written_names (kwargs : list (string * value))
    (ord : list (node * node_attr)) : list string :=
  kwargs.*1 ++ flat_map (λ na, node_returns na.2) ord.

(** Every value the node hands to [write] is [storable]. *)
Definition storable_outputs (storable : value → Prop) (attr : node_attr)
  : Prop :=
  ∀ kwargs func_output items,
    obj attr kwargs = Ok func_output →
    output_items (node_returns attr) func_output = Ok items →
    Forall (λ kv, storable kv.2) items.

(** ** The example of the documentation: [add(a, b) -> c], [multiply(c, d) -> e] *)

Definition binop (f : Z → Z → Z) (x y : string) (kwargs : gmap string value)
  : result value :=
  match kwargs !! x, kwargs !! y with
  | Some (VInt u), Some (VInt v) => Ok (VInt (f u v))
  | _, _ => Raise (TypeError "unsupported operand type(s)")
  end.

Definition add_attr : node_attr :=
  {| obj := binop Z.add "a" "b"; parameters := ["a"; "b"];
     node_returns := ["c"] |}.

Definition multiply_attr : node_attr :=
  {| obj := binop Z.mul "c" "d"; parameters := ["c"; "d"];
     node_returns := ["e"] |}.

Definition example_order : list (node * node_attr) :=
  [("add", add_attr); ("multiply", multiply_attr)].

Definition example_inputs : list (string * value) :=
  [("a", VInt 2); ("b", VInt 3); ("d", VInt 10)].

Definition example_fmt (n : node) (attr : node_attr) : string :=
  "('" +:+ n +:+ "', {...})".

Definition example_handler : TopologicalHandler unit :=
  {| __signature__ := ["a"; "b"; "d"]; returns := ["e"];
     order := example_order; handler_graph := () |}.

Definition example_mem : MemHandler unit :=
  {| mem_base := example_handler;
     counter := usage_count example_order ["e"] |}.

Definition example_h5 : H5Handler unit :=
  {| h5_base := example_handler; h5_filename := "model.h5"; self_id := 140 |}.

(** ** Notions used in the statements *)

(** The value [finish] returns for the requested names [rts], read
    through [lookup]: the single value, or the tuple in the order of
    [rts]. *)
Definition requested_values (lookup : string → option value)
    (rts : list string) (v : value) : Prop :=
  (∀ r, rts = [r] → lookup r = Some v)
  ∧ ((1 < length rts)%nat →
       ∃ vs, v = VTuple vs ∧ Forall2 (λ r x, lookup r = Some x) rts vs).

Definition dataset_event (group : string) (kv : string * value) : h5_event :=
  EvCreateDataset group kv.1 kv.2.

(** Whether the handle on [f] is open after the library calls [tr]. *)
Definition handle_open (f : string) (tr : list h5_event) : bool :=
  foldl (λ b ev,
           match ev with
           | EvFile f' _ => if decide (f' = f) then true else b
           | EvClose f' => if decide (f' = f) then false else b
           | _ => b
           end) false tr.

(** The state of the handler after a sequence of calls. *)
Definition H5Handler_calls {H : Type} `{H5Backend H} {graph : Type}
    (fmt : node → node_attr → string) (self : H5Handler graph)
    (calls : list (list (string * value))) (st : h5_state H) : h5_state H :=
  foldl (λ s kwargs, (H5Handler_call fmt self kwargs s).2) st calls.

(** What a read of [key] in [group] returns, as an option. *)
Definition stored {H : Type} `{H5Backend H} (lib : H) (group key : string)
  : option value :=
  match h5py_getitem group key lib with
  | Ok v => Some v
  | Raise _ => None
  end.

Definition keyed_view (s : keyed_file) (group : string)
  : option (gmap string value) :=
  groups s !! group.

(** The plan [add(a, b) -> c], [divide(c, d) -> e], whose second node
    raises [ZeroDivisionError] when [d] is [0]. *)
Definition divide_attr : node_attr :=
  {| obj kwargs :=
       match kwargs !! "c", kwargs !! "d" with
       | Some (VInt u), Some (VInt v) =>
           if decide (v = 0)
           then Raise (Raised "ZeroDivisionError"
                         "integer division or modulo by zero")
           else Ok (VInt (u `div` v))
       | _, _ => Raise (TypeError "unsupported operand type(s)")
       end;
     parameters := ["c"; "d"]; node_returns := ["e"] |}.

Definition divide_handler : TopologicalHandler unit :=
  {| __signature__ := ["a"; "b"; "d"]; returns := ["e"];
     order := [("add", add_attr); ("divide", divide_attr)];
     handler_graph := () |}.

Definition divide_h5 : H5Handler unit :=
  {| h5_base := divide_handler; h5_filename := "model.h5"; self_id := 140 |}.

Definition zero_inputs : list (string * value) :=
  [("a", VInt 2); ("b", VInt 3); ("d", VInt 0)].

(** The plan [add(a, b) -> c], [stop(c) -> e], whose second node leaves
    the interpreter: [sys.exit()] raises [SystemExit], which is not an
    [Exception]. *)
Definition stop_attr : node_attr :=
  {| obj kwargs := Raise (RaisedBase "SystemExit" "");
     parameters := ["c"]; node_returns := ["e"] |}.

Definition stop_handler : TopologicalHandler unit :=
  {| __signature__ := ["a"; "b"]; returns := ["e"];
     order := [("add", add_attr); ("stop", stop_attr)];
     handler_graph := () |}.

Definition stop_mem : MemHandler unit :=
  {| mem_base := stop_handler;
     counter := usage_count (order stop_handler) (returns stop_handler) |}.

Definition stop_h5 : H5Handler unit :=
  {| h5_base := stop_handler; h5_filename := "model.h5"; self_id := 140 |}.

Definition stop_inputs : list (string * value) :=
  [("a", VInt 2); ("b", VInt 3)].

(** The documentation's inputs with a keyword argument under the name
    the node [add] returns. *)
Definition shadowing_inputs : list (string * value) :=
  [("a", VInt 2); ("b", VInt 3); ("d", VInt 10); ("c", VInt 99)].

(** A node that returns under the name of its parameter. *)
Definition bump_attr : node_attr :=
  {| obj kwargs :=
       match kwargs !! "x" with
       | Some (VInt u) => Ok (VInt (u + 1))
       | _ => Raise (TypeError "unsupported operand type(s)")
       end;
     parameters := ["x"]; node_returns := ["x"] |}.

(** ** Notions used in the further properties *)

(** The library call [ev] is not [close]. *)
Definition not_close (ev : h5_event) : Prop :=
  match ev with
  | EvClose _ => False
  | _ => True
  end.

(** The example handler asked for an output that no node returns. *)
Definition missing_output_h5 : H5Handler unit :=
  {| h5_base := {| __signature__ := ["a"; "b"; "d"]; returns := ["zzz"];
                   order := example_order; handler_graph := () |};
     h5_filename := "model.h5"; self_id := 140 |}.

(** A node with two return names whose callable returns one value only. *)
Definition short_attr : node_attr :=
  {| obj kwargs := Ok (VTuple [VInt 7]);
     parameters := ["a"]; node_returns := ["q"; "r"] |}.

(** A node without return names whose callable returns [None]. *)
Definition silent_attr : node_attr :=
  {| obj kwargs := Ok VNone; parameters := ["a"]; node_returns := [] |}.

(** A backend that refuses a group or a dataset whose name exists. *)
Definition once_create_group (filename group : string) (s : keyed_file)
  : result keyed_file :=
  match groups s !! group with
  | Some _ => Raise (Raised "ValueError" "name already exists")
  | None =>
      Ok {| groups := <[group := ∅]> (groups s); attrs := attrs s;
            open_handles := open_handles s |}
  end.

Definition once_create_dataset (group key : string) (data : value)
    (s : keyed_file) : result keyed_file :=
  match groups s !! group with
  | None => Raise (KeyError group)
  | Some d =>
      match d !! key with
      | Some _ => Raise (Raised "ValueError" "name already exists")
      | None =>
          Ok {| groups := <[group := <[key := data]> d]> (groups s);
                attrs := attrs s; open_handles := open_handles s |}
      end
  end.

Definition once_backend : H5Backend keyed_file := {|
  h5py_File := h5py_File (H5Backend := keyed_backend);
  h5py_create_group := once_create_group;
  h5py_create_dataset := once_create_dataset;
  h5py_getitem := keyed_getitem;
  h5py_attrs_setitem := h5py_attrs_setitem (H5Backend := keyed_backend);
  h5py_close := h5py_close (H5Backend := keyed_backend);
|}.

(** A backend that refuses every attribute. *)
Definition noteless_backend : H5Backend keyed_file := {|
  h5py_File := h5py_File (H5Backend := keyed_backend);
  h5py_create_group := once_create_group;
  h5py_create_dataset := once_create_dataset;
  h5py_getitem := keyed_getitem;
  h5py_attrs_setitem group key text s :=
    Raise (Raised "OSError" "unable to create attribute");
  h5py_close := h5py_close (H5Backend := keyed_backend);
|}.

(** * Properties *)

(** ** Basic facts about [result] and dictionaries *)

Lemma rbind_Ok {A B} (r : result A) (k : A → result B) (b : B) :
  rbind r k = Ok b ↔ ∃ a, r = Ok a ∧ k a = Ok b.
Proof.
  destruct r as [a|e]; simpl; split.
  - intros Hk. by exists a.
  - by intros (a' & [= <-] & Hk).
  - discriminate.
  - by intros (a' & Ha & _).
Qed.

Lemma rbind_Raise {A B} (r : result A) (k : A → result B) (e : exn) :
  rbind r k = Raise e ↔ r = Raise e ∨ ∃ a, r = Ok a ∧ k a = Raise e.
Proof.
  destruct r as [a|e0]; simpl; split.
  - intros Hk. right. by exists a.
  - intros [Hr | (a' & [= <-] & Hk)]; [discriminate | done].
  - intros [= <-]. by left.
  - intros [[= ->] | (a' & Ha & _)]; [done | discriminate].
Qed.

Lemma getitem_Ok d key v : getitem d key = Ok v ↔ d !! key = Some v.
Proof. unfold getitem. destruct (d !! key); split; congruence. Qed.

Lemma getitem_Raise d key e :
  getitem d key = Raise e ↔ d !! key = None ∧ e = KeyError key.
Proof.
  unfold getitem. destruct (d !! key); split;
    [discriminate | intros [? _]; discriminate
    | intros [= <-]; done | intros [_ ->]; done].
Qed.

Lemma getitems_Ok d rts vs :
  getitems d rts = Ok vs ↔ Forall2 (λ r x, d !! r = Some x) rts vs.
Proof.
  revert vs. induction rts as [|r rts IH]; intros vs; simpl.
  - split; [intros [= <-]; constructor | by inversion 1].
  - rewrite rbind_Ok. split.
    + intros (v & Hv%getitem_Ok & Hrest%rbind_Ok).
      destruct Hrest as (vs' & Hvs & [= <-]).
      constructor; [done | by apply IH].
    + inversion 1 as [|r' x rts' vs' Hr Hrest]; subst.
      exists x. split; [by apply getitem_Ok |].
      apply rbind_Ok. exists vs'. split; [by apply IH | done].
Qed.

Lemma getitems_Raise d rts e :
  getitems d rts = Raise e →
  ∃ r, e = KeyError r ∧ r ∈ rts ∧ d !! r = None.
Proof.
  induction rts as [|r rts IH]; simpl; [discriminate |].
  rewrite rbind_Raise.
  intros [Hr%getitem_Raise | (v & Hv & Hrest%rbind_Raise)].
  - destruct Hr as [Hnone ->]. exists r. set_solver.
  - destruct Hrest as [Hrest%IH | (vs & _ & ?)]; [| discriminate].
    destruct Hrest as (r' & -> & Hin & Hnone). exists r'. set_solver.
Qed.

Lemma getitems_present d rts :
  Forall (λ r, is_Some (d !! r)) rts → ∃ vs, getitems d rts = Ok vs.
Proof.
  induction 1 as [|r rts [v Hv] _ [vs IH]]; simpl; [by eexists |].
  exists (v :: vs). apply getitem_Ok in Hv. by rewrite Hv, IH.
Qed.

Lemma PlainHandler_finish_Ok d rts v :
  PlainHandler_finish d rts = Ok v → requested_values (λ r, d !! r) rts v.
Proof.
  unfold PlainHandler_finish. intros Hf. split.
  - intros r ->. by apply getitem_Ok.
  - intros Hlen. destruct rts as [|r1 [|r2 rts]]; simpl in Hlen; [lia | lia |].
    apply rbind_Ok in Hf as (vs & Hvs & [= <-]).
    exists vs. split; [done | by apply getitems_Ok].
Qed.

Lemma PlainHandler_finish_Raise d rts e :
  PlainHandler_finish d rts = Raise e →
  ∃ r, e = KeyError r ∧ r ∈ rts ∧ d !! r = None.
Proof.
  unfold PlainHandler_finish. intros Hf.
  assert (getitems d rts = Raise e) as Hg.
  { destruct rts as [|r1 [|r2 rts]].
    - discriminate.
    - simpl. apply getitem_Raise in Hf as [Hnone ->].
      unfold getitem. by rewrite Hnone.
    - apply rbind_Raise in Hf as [Hf | (vs & _ & ?)]; [done | discriminate]. }
  by apply getitems_Raise.
Qed.

Lemma PlainHandler_finish_present d rts :
  Forall (λ r, is_Some (d !! r)) rts → ∃ v, PlainHandler_finish d rts = Ok v.
Proof.
  intros Hall. destruct (getitems_present d rts Hall) as [vs Hvs].
  unfold PlainHandler_finish. destruct rts as [|r1 [|r2 rts]].
  - by eexists.
  - inversion Hall as [|? ? [v Hv] _]; subst. exists v. by apply getitem_Ok.
  - rewrite Hvs. by eexists.
Qed.

Lemma PlainHandler_finish_missing d rts r :
  r ∈ rts → d !! r = None → is_ok (PlainHandler_finish d rts) = false.
Proof.
  intros Hin Hr.
  destruct (PlainHandler_finish d rts) as [v|e] eqn:Hf; [| done].
  exfalso. apply PlainHandler_finish_Ok in Hf as [Hone Hmany].
  destruct rts as [|r1 [|r2 rts]].
  - by inversion Hin.
  - apply list_elem_of_singleton in Hin as ->.
    specialize (Hone r1 eq_refl). simpl in Hone. congruence.
  - destruct Hmany as (vs & _ & Hall); [simpl; lia |].
    apply list_elem_of_lookup in Hin as [i Hi].
    destruct (Forall2_lookup_l _ _ _ _ _ Hall Hi) as (x & _ & Hx).
    congruence.
Qed.

Lemma MemHandler_finish_eq d c rts :
  MemHandler_finish (d, c) rts = PlainHandler_finish d rts.
Proof. reflexivity. Qed.

(** ** C8 *)

(** C8: in the Retain-All and Counted-Eviction strategies [finish]
    raises exactly when a requested name is absent from the mapping
    (the error is Python's [KeyError] for an absent name); when every
    requested name is present it returns their values. *)
Theorem finish_fails_iff_missing (d : gmap string value) (c : gmap string Z)
    (rts : list string) :
  (is_ok (PlainHandler_finish d rts) = false ↔ ∃ r, r ∈ rts ∧ d !! r = None)
  ∧ (is_ok (MemHandler_finish (d, c) rts) = false
       ↔ ∃ r, r ∈ rts ∧ d !! r = None)
  ∧ (∀ e, PlainHandler_finish d rts = Raise e →
       ∃ r, e = KeyError r ∧ r ∈ rts ∧ d !! r = None)
  ∧ (∀ e, MemHandler_finish (d, c) rts = Raise e →
       ∃ r, e = KeyError r ∧ r ∈ rts ∧ d !! r = None)
  ∧ (Forall (λ r, is_Some (d !! r)) rts →
       ∃ v, PlainHandler_finish d rts = Ok v
            ∧ MemHandler_finish (d, c) rts = Ok v
            ∧ requested_values (λ r, d !! r) rts v).
Proof.
  rewrite MemHandler_finish_eq.
  assert (is_ok (PlainHandler_finish d rts) = false
          ↔ ∃ r, r ∈ rts ∧ d !! r = None) as Hiff.
  { split.
    - destruct (PlainHandler_finish d rts) as [v|e] eqn:Hf; [discriminate |].
      intros _. apply PlainHandler_finish_Raise in Hf as (r & _ & Hin & Hr).
      by exists r.
    - intros (r & Hin & Hr). by eapply PlainHandler_finish_missing. }
  split_and!; try done.
  - apply PlainHandler_finish_Raise.
  - apply PlainHandler_finish_Raise.
  - intros Hall. destruct (PlainHandler_finish_present d rts Hall) as [v Hv].
    exists v. split_and!; [done | done |]. by apply PlainHandler_finish_Ok.
Qed.

(** ** C3 *)

Lemma sorted_Sorted l : Sorted str_le (sorted l).
Proof. apply Sorted_merge_sort, _. Qed.

Lemma sorted_Permutation l : sorted l ≡ₚ l.
Proof. apply merge_sort_Permutation. Qed.

(** C3 as stated fails: with helpers that succeed on the example graph,
    the requested output ["zzz"] is returned by no node and is no
    external input, and construction succeeds all the same. *)
Lemma construction_accepts_unproducible_output :
  let init := TopologicalHandler_init (graph := unit)
                (λ _, Ok ["a"; "b"; "d"]) (λ _, Ok ["e"])
                (λ _, Ok example_order) (λ _, Ok ()) in
  producible ["a"; "b"; "d"] example_order "zzz" = false
  ∧ ∃ self, init () ["zzz"] = Ok self
            ∧ "zzz" ∈ returns self
            ∧ order self = example_order.
Proof.
  split; [by vm_compute |].
  eexists. split; [reflexivity |]. split; [| reflexivity].
  simpl. rewrite sorted_Permutation. set_solver.
Qed.

(** C3, amended: construction checks nothing about the requested
    outputs.  Whenever the graph helpers succeed on the graph, each of
    the three constructors succeeds for every list of additional
    returns, producible or not, and the requested outputs are the sorted
    concatenation of the graph's returns and the additional ones. *)
Theorem construction_succeeds {graph : Type}
    (model_signature : graph → result (list string))
    (model_returns : graph → result (list string))
    (graph_topological_sort : graph → result (list (node * node_attr)))
    (graph_copy : graph → result graph)
    (param_counter : graph → list string → result (gmap string Z))
    (g cp : graph) (sg rts : list string) (ord : list (node * node_attr)) :
  model_signature g = Ok sg →
  model_returns g = Ok rts →
  graph_topological_sort g = Ok ord →
  graph_copy g = Ok cp →
  ∀ additional_returns : list string,
    let base := {| __signature__ := sg;
                   returns := sorted (rts ++ additional_returns);
                   order := ord; handler_graph := cp |} in
    PlainHandler_init model_signature model_returns graph_topological_sort
      graph_copy g additional_returns = Ok base
    ∧ (∀ cnt, param_counter g additional_returns = Ok cnt →
         MemHandler_init model_signature model_returns graph_topological_sort
           graph_copy param_counter g additional_returns
         = Ok {| mem_base := base; counter := cnt |})
    ∧ (∀ ident filename,
         H5Handler_init model_signature model_returns graph_topological_sort
           graph_copy ident g additional_returns filename
         = Ok {| h5_base := base; h5_filename := filename; self_id := ident |}).
Proof.
  intros Hsg Hrts Hord Hcp additional_returns base.
  assert (TopologicalHandler_init model_signature model_returns
            graph_topological_sort graph_copy g additional_returns = Ok base)
    as Hbase.
  { unfold TopologicalHandler_init. by rewrite Hsg, Hrts, Hord, Hcp. }
  split_and!.
  - exact Hbase.
  - intros cnt Hcnt. unfold MemHandler_init. by rewrite Hbase, Hcnt.
  - intros ident filename. unfold H5Handler_init. by rewrite Hbase.
Qed.

Lemma construction_succeeds_witness :
  PlainHandler_init (graph := unit)
    (λ _, Ok ["a"; "b"; "d"]) (λ _, Ok ["e"])
    (λ _, Ok example_order) (λ _, Ok ()) () ["zzz"]
  = Ok {| __signature__ := ["a"; "b"; "d"];
          returns := sorted (["e"] ++ ["zzz"]);
          order := example_order; handler_graph := () |}.
Proof.
  exact (proj1 (construction_succeeds (graph := unit)
    (λ _, Ok ["a"; "b"; "d"]) (λ _, Ok ["e"])
    (λ _, Ok example_order) (λ _, Ok ()) (λ _ _, Ok ∅)
    () () ["a"; "b"; "d"] ["e"] example_order
    eq_refl eq_refl eq_refl eq_refl ["zzz"])).
Defined.

(** ** C5 *)

Lemma dict_update_cons d kv items :
  dict_update d (kv :: items) = dict_update (<[kv.1 := kv.2]> d) items.
Proof. reflexivity. Qed.

Lemma dict_update_lookup_notin d items key :
  key ∉ items.*1 → dict_update d items !! key = d !! key.
Proof.
  revert d. induction items as [|[k v] items IH]; intros d Hnot; [done |].
  rewrite dict_update_cons, IH by set_solver.
  simpl. apply lookup_insert_ne. set_solver.
Qed.

Lemma dict_update_lookup_in d items key v :
  NoDup items.*1 → (key, v) ∈ items → dict_update d items !! key = Some v.
Proof.
  revert d. induction items as [|[k v'] items IH]; intros d Hnd Hin.
  - by inversion Hin.
  - rewrite dict_update_cons. simpl in *.
    apply NoDup_cons in Hnd as [Hk Hnd].
    apply list_elem_of_In in Hin. simpl in Hin.
    destruct Hin as [[= -> ->] | Hin%list_elem_of_In].
    + rewrite dict_update_lookup_notin by done. apply lookup_insert_eq.
    + by apply IH.
Qed.

(** Two dictionaries that agree on a key still agree on it after the
    same update. *)
Lemma dict_update_lookup_agree d1 d2 items key :
  d1 !! key = d2 !! key →
  dict_update d1 items !! key = dict_update d2 items !! key.
Proof.
  revert d1 d2. induction items as [|[k v] items IH]; intros d1 d2 Heq; [done |].
  rewrite !dict_update_cons. apply IH. simpl.
  destruct (decide (k = key)) as [->|Hne].
  - by rewrite !lookup_insert_eq.
  - by rewrite !lookup_insert_ne.
Qed.

Lemma setitem_fresh key v items :
  key ∉ items.*1 → setitem key v items = items ++ [(key, v)].
Proof.
  induction items as [|[k v'] items IH]; intros Hnot; simpl; [done |].
  rewrite decide_False by set_solver. f_equal. apply IH. set_solver.
Qed.

Lemma py_dict_NoDup pairs : NoDup pairs.*1 → py_dict pairs = pairs.
Proof.
  unfold py_dict. intros Hnd.
  enough (∀ acc, NoDup (acc ++ pairs).*1 →
            foldl (λ items kv, setitem kv.1 kv.2 items) acc pairs = acc ++ pairs)
    as Hgen by exact (Hgen [] Hnd).
  clear Hnd. induction pairs as [|[k v] pairs IH]; intros acc Hnd; simpl.
  - by rewrite app_nil_r.
  - rewrite setitem_fresh.
    + rewrite IH; rewrite <- app_assoc; done.
    + rewrite fmap_app in Hnd. apply NoDup_app in Hnd as (_ & Hdisj & _).
      intros Hin. apply (Hdisj k Hin). simpl. set_solver.
Qed.

Lemma zip_fst_NoDup {A} (rts : list string) (vs : list A) :
  NoDup rts → NoDup (zip rts vs).*1.
Proof.
  revert vs. induction rts as [|r rts IH]; intros vs Hnd; simpl; [constructor |].
  destruct vs as [|x vs]; simpl; [constructor |].
  apply NoDup_cons in Hnd as [Hr Hnd]. apply NoDup_cons. split; [| by apply IH].
  intros Hin. apply Hr.
  apply list_elem_of_fmap in Hin as ([r' x'] & -> & Hin).
  apply elem_of_zip_l in Hin. done.
Qed.

Lemma zip_lookup_elem {A} (rts : list string) (vs : list A) i r x :
  rts !! i = Some r → vs !! i = Some x → (r, x) ∈ zip rts vs.
Proof.
  intros Hr Hx. apply list_elem_of_lookup. exists i.
  apply lookup_zip_with_Some. by exists r, x.
Qed.

(** The names of a multi-output node receive the elements of the result
    position by position. *)
Lemma dict_update_zip_positional d (rts : list string) (vs : list value) i r x :
  NoDup rts → rts !! i = Some r → vs !! i = Some x →
  dict_update d (py_dict (zip rts vs)) !! r = Some x.
Proof.
  intros Hnd Hr Hx. rewrite py_dict_NoDup by by apply zip_fst_NoDup.
  apply dict_update_lookup_in; [by apply zip_fst_NoDup |].
  by eapply zip_lookup_elem.
Qed.

Section H5_facts.
Context {H : Type} `{H5Backend H}.

Lemma lib_call_trace ev op (st : h5_state H) :
  trace (lib_call ev op st).2 = trace st ++ [ev].
Proof. unfold lib_call. simpl. by destruct (op (h5 st)). Qed.

Lemma lib_call_exe_count ev op (st : h5_state H) :
  exe_count (lib_call ev op st).2 = exe_count st.
Proof. unfold lib_call. simpl. by destruct (op (h5 st)). Qed.

Lemma H5Handler_write_Ok_trace items g (st st' : h5_state H) u :
  H5Handler_write items g st = (Ok u, st') →
  trace st' = trace st ++ map (dataset_event g) items.
Proof.
  revert st. induction items as [|[k v] items IH]; intros st; simpl.
  - intros [= _ <-]. by rewrite app_nil_r.
  - pose proof (lib_call_trace (EvCreateDataset g k v)
                  (h5py_create_dataset g k v) st) as Htr.
    destruct (lib_call _ _ st) as [[[]|e] st1]; [| discriminate].
    intros Hw%IH. rewrite Hw. simpl in Htr. rewrite Htr.
    by rewrite <- app_assoc.
Qed.

Lemma H5Handler_write_single_trace k v g (st : h5_state H) :
  trace (H5Handler_write [(k, v)] g st).2 = trace st ++ [EvCreateDataset g k v].
Proof.
  simpl.
  pose proof (lib_call_trace (EvCreateDataset g k v)
                (h5py_create_dataset g k v) st) as Htr.
  by destruct (lib_call _ _ st) as [[[]|e] st1].
Qed.
End H5_facts.

(** C5: with the parameters gathered and the callable returning
    [func_output], a node with exactly one return name stores the raw
    result under that name, and a node with more than one stores the
    elements of the result under the return names position by position.
    [MemHandler] evicts only after storing; [H5Handler] stores through
    [create_dataset], one call per name. *)
Theorem run_node_stores_outputs {H : Type} `{H5Backend H}
    (d kwargs : gmap string value) (c : gmap string Z) (n : node)
    (attr : node_attr) (func_output : value)
    (f g : string) (st st1 : h5_state H) :
  obj attr kwargs = Ok func_output →
  (dict_comp d (parameters attr) = Ok kwargs →
     (∀ r, node_returns attr = [r] →
        PlainHandler_run_node d n attr = Ok (<[r := func_output]> d)
        ∧ MemHandler_run_node (d, c) n attr
          = evict (parameters attr) (<[r := func_output]> d) c)
     ∧ ((1 < length (node_returns attr))%nat →
        ∀ vs, py_iter func_output = Ok vs →
          let d' := dict_update d (py_dict (zip (node_returns attr) vs)) in
          PlainHandler_run_node d n attr = Ok d'
          ∧ MemHandler_run_node (d, c) n attr = evict (parameters attr) d' c
          ∧ (NoDup (node_returns attr) →
             ∀ i r x, node_returns attr !! i = Some r → vs !! i = Some x →
                      d' !! r = Some x)))
  ∧ (read_comp (parameters attr) g st = (Ok kwargs, st1) →
     (∀ r, node_returns attr = [r] →
        trace (H5Handler_run_node (f, g) n attr st).2
        = trace st1 ++ [EvCreateDataset g r func_output])
     ∧ ((1 < length (node_returns attr))%nat →
        ∀ vs di st', py_iter func_output = Ok vs →
          H5Handler_run_node (f, g) n attr st = (Ok di, st') →
          trace st' = trace st1
            ++ map (dataset_event g) (py_dict (zip (node_returns attr) vs)))).
Proof.
  intros Hobj. split.
  - intros Hkw. unfold PlainHandler_run_node, MemHandler_run_node.
    rewrite Hkw. simpl. rewrite Hobj. simpl. split.
    + intros r ->. done.
    + intros Hlen vs Hvs.
      set (d' := dict_update d (py_dict (zip (node_returns attr) vs))).
      assert (store_output (node_returns attr) func_output d = Ok d') as ->.
      { unfold store_output. destruct (node_returns attr) as [|r1 [|r2 rts]];
          simpl in Hlen; [lia | lia |]. by rewrite Hvs. }
      split_and!; [done | done |].
      intros Hnd i r x Hr Hx. by eapply dict_update_zip_positional.
  - intros Hread. unfold H5Handler_run_node. simpl. rewrite Hread, Hobj. split.
    + intros r ->. unfold output_items.
      pose proof (H5Handler_write_single_trace r func_output g st1) as Htr.
      by destruct (H5Handler_write [(r, func_output)] g st1) as [[[]|e] st2].
    + intros Hlen vs di st' Hvs.
      assert (output_items (node_returns attr) func_output
              = Ok (py_dict (zip (node_returns attr) vs))) as ->.
      { unfold output_items. destruct (node_returns attr) as [|r1 [|r2 rts]];
          simpl in Hlen; [lia | lia |]. by rewrite Hvs. }
      destruct (H5Handler_write _ g st1) as [[[]|e] st2] eqn:Hw; [| discriminate].
      intros [= <- <-]. by eapply H5Handler_write_Ok_trace.
Qed.

(** ** Eviction *)

Lemma occurrences_nonneg key l : 0 ≤ occurrences key l.
Proof. induction l as [|x l IH]; simpl; [lia |]. case_decide; lia. Qed.

Lemma occurrences_app key l1 l2 :
  occurrences key (l1 ++ l2) = occurrences key l1 + occurrences key l2.
Proof. induction l1 as [|x l1 IH]; simpl; [done |]. rewrite IH. lia. Qed.

Lemma occurrences_notin key l : key ∉ l → occurrences key l = 0.
Proof.
  induction l as [|x l IH]; intros Hnot; simpl; [done |].
  rewrite decide_False by set_solver. rewrite IH by set_solver. done.
Qed.

Lemma occurrences_pos key l : key ∈ l ↔ 0 < occurrences key l.
Proof.
  split.
  - induction l as [|x l IH]; intros Hin; [by inversion Hin |]. simpl.
    pose proof (occurrences_nonneg key l).
    case_decide; [lia |]. assert (key ∈ l) as Hl by set_solver.
    specialize (IH Hl). lia.
  - intros Hpos. destruct (decide (key ∈ l)) as [|Hnot]; [done |].
    rewrite occurrences_notin in Hpos by done. lia.
Qed.

(** [evict] only deletes, decrements each counter once per occurrence
    of its key, and keeps "a zero counter has no entry" true of every
    key of which it was true. *)
Lemma evict_spec ps d c d' c' :
  evict ps d c = Ok (d', c') →
  ∀ k, c' !! k = (λ z, z - occurrences k ps) <$> c !! k
       ∧ (d' !! k = None ∨ d' !! k = d !! k)
       ∧ (k ∉ ps → d' !! k = d !! k)
       ∧ ((c !! k = Some 0 → d !! k = None) →
          c' !! k = Some 0 → d' !! k = None).
Proof.
  revert d c. induction ps as [|key ps IH]; intros d c; simpl.
  - intros [= <- <-] k. split_and!; auto.
    destruct (c !! k); simpl; [f_equal; lia | done].
  - destruct (c !! key) as [z|] eqn:Hz; [| discriminate].
    assert (∀ k, <[key := z - 1]> c !! k
                 = if decide (k = key) then Some (z - 1) else c !! k) as Hcnt.
    { intros k. case_decide as Hk; [subst; apply lookup_insert_eq |].
      by apply lookup_insert_ne. }
    case_decide as Hzero.
    + destruct (d !! key) as [v|] eqn:Hv; [| discriminate].
      intros Hev k. destruct (IH _ _ Hev k) as (Hc & Hd & Hnotin & Hinv).
      rewrite Hcnt in Hc, Hinv.
      destruct (decide (k = key)) as [->|Hne].
      * rewrite lookup_delete_eq in Hd, Hinv.
        assert (d' !! key = None) as Hgone by (by destruct Hd).
        split; [| split; [| split]].
        -- rewrite Hc, Hz. simpl. f_equal. lia.
        -- by left.
        -- intros Hnot. exfalso. apply Hnot. set_solver.
        -- done.
      * rewrite lookup_delete_ne in Hd, Hnotin, Hinv by done.
        split; [| split; [| split]].
        -- rewrite Hc. destruct (c !! k); simpl; [f_equal; lia | done].
        -- done.
        -- intros Hnot. apply Hnotin. set_solver.
        -- done.
    + intros Hev k. destruct (IH _ _ Hev k) as (Hc & Hd & Hnotin & Hinv).
      rewrite Hcnt in Hc, Hinv.
      destruct (decide (k = key)) as [->|Hne].
      * split; [| split; [| split]].
        -- rewrite Hc, Hz. simpl. f_equal. lia.
        -- done.
        -- intros Hnot. exfalso. apply Hnot. set_solver.
        -- intros _. apply Hinv. intros [=]. lia.
      * split; [| split; [| split]].
        -- rewrite Hc. destruct (c !! k); simpl; [f_equal; lia | done].
        -- done.
        -- intros Hnot. apply Hnotin. set_solver.
        -- done.
Qed.

(** A counter that reaches zero within the loop leaves no entry. *)
Lemma evict_reaches_zero ps d c d' c' key cnt :
  evict ps d c = Ok (d', c') →
  c !! key = Some cnt → 1 ≤ cnt ≤ occurrences key ps →
  d' !! key = None.
Proof.
  revert d c cnt. induction ps as [|k ps IH]; intros d c cnt; simpl; [lia |].
  intros Hev Hcnt Hrange.
  destruct (c !! k) as [z|] eqn:Hz; [| discriminate].
  destruct (decide (key = k)) as [<-|Hne].
  - assert (z = cnt) as -> by congruence.
    case_decide as Hzero.
    + destruct (d !! key) as [v|]; [| discriminate].
      destruct (evict_spec _ _ _ _ _ Hev key) as (_ & [Hd | Hd] & _); [done |].
      by rewrite Hd, lookup_delete_eq.
    + apply (IH _ _ (cnt - 1) Hev); [apply lookup_insert_eq | lia].
  - assert (<[k := z - 1]> c !! key = Some cnt) as Hcnt'
      by (by rewrite lookup_insert_ne).
    case_decide as Hzero.
    + destruct (d !! k) as [v|]; [| discriminate].
      apply (IH _ _ cnt Hev Hcnt'). lia.
    + apply (IH _ _ cnt Hev Hcnt'). lia.
Qed.

Lemma dict_comp_missing d ps key :
  key ∈ ps → d !! key = None → ∃ k, dict_comp d ps = Raise (KeyError k).
Proof.
  induction ps as [|p ps IH]; intros Hin Hnone; [by inversion Hin |]. simpl.
  destruct (d !! p) as [v|] eqn:Hp.
  - apply getitem_Ok in Hp. rewrite Hp. simpl.
    destruct IH as [k Hk]; [| done |].
    + apply list_elem_of_In in Hin. simpl in Hin.
      destruct Hin as [-> | Hin%list_elem_of_In]; [| done].
      apply getitem_Ok in Hp. congruence.
    + exists k. by rewrite Hk.
  - exists p. unfold getitem. by rewrite Hp.
Qed.

Lemma store_output_single r out d : store_output [r] out d = Ok (<[r := out]> d).
Proof. reflexivity. Qed.

Lemma MemHandler_run_node_Ok d c n attr d' c' :
  MemHandler_run_node (d, c) n attr = Ok (d', c') →
  ∃ kwargs func_output d1,
    dict_comp d (parameters attr) = Ok kwargs
    ∧ obj attr kwargs = Ok func_output
    ∧ store_output (node_returns attr) func_output d = Ok d1
    ∧ evict (parameters attr) d1 c = Ok (d', c').
Proof.
  unfold MemHandler_run_node.
  intros (kw & Hkw & (out & Hout & (d1 & Hd1 & Hev)%rbind_Ok)%rbind_Ok)%rbind_Ok.
  by exists kw, out, d1.
Qed.

(** ** C10 *)

(** C10: [MemHandler.run_node] stores the results before it decrements
    the counters of the parameters.  When a return name is also a
    parameter name and its counter reaches zero in this node, the entry
    just stored is deleted: it is absent after the node, so a later
    consumer and [finish] raise [KeyError]. *)
Theorem eviction_deletes_fresh_output (d d' : gmap string value)
    (c c' : gmap string Z) (n : node) (attr : node_attr)
    (key : string) (cnt : Z) :
  MemHandler_run_node (d, c) n attr = Ok (d', c') →
  key ∈ parameters attr →
  key ∈ node_returns attr →
  c !! key = Some cnt →
  1 ≤ cnt ≤ occurrences key (parameters attr) →
  (∃ kwargs func_output d1,
     dict_comp d (parameters attr) = Ok kwargs
     ∧ obj attr kwargs = Ok func_output
     ∧ store_output (node_returns attr) func_output d = Ok d1
     ∧ (node_returns attr = [key] → d1 !! key = Some func_output)
     ∧ evict (parameters attr) d1 c = Ok (d', c'))
  ∧ d' !! key = None
  ∧ (∀ rts, key ∈ rts → ∃ k, MemHandler_finish (d', c') rts = Raise (KeyError k))
  ∧ (∀ n2 attr2, key ∈ parameters attr2 →
       ∃ k, MemHandler_run_node (d', c') n2 attr2 = Raise (KeyError k)).
Proof.
  intros Hrun Hparam Hret Hcnt Hrange.
  destruct (MemHandler_run_node_Ok _ _ _ _ _ _ Hrun)
    as (kw & out & d1 & Hkw & Hout & Hd1 & Hev).
  assert (d' !! key = None) as Hgone by (by eapply evict_reaches_zero).
  split_and!.
  - exists kw, out, d1. split_and!; try done.
    intros Hsingle. rewrite Hsingle, store_output_single in Hd1.
    injection Hd1 as <-. apply lookup_insert_eq.
  - done.
  - intros rts Hin. rewrite MemHandler_finish_eq.
    destruct (PlainHandler_finish d' rts) as [v|e] eqn:Hf.
    + exfalso.
      assert (is_ok (PlainHandler_finish d' rts) = false) as Hfalse
        by (by eapply PlainHandler_finish_missing).
      by rewrite Hf in Hfalse.
    + apply PlainHandler_finish_Raise in Hf as (r & -> & _). by exists r.
  - intros n2 attr2 Hin.
    destruct (dict_comp_missing d' _ key Hin Hgone) as [k Hk].
    exists k. unfold MemHandler_run_node. by rewrite Hk.
Qed.

(** ** The driver *)

Section Driver_facts.
Context {W D : Type} (m : methods W D).

Lemma run_order_app pre post d w :
  run_order m (pre ++ post) d w =
  match run_order m pre d w with
  | (Ok d', w') => run_order m post d' w'
  | (Raise e, w') => (Raise e, w')
  end.
Proof.
  revert d w. induction pre as [|[n attr] pre IH]; intros d w; simpl; [done |].
  destruct (run_node m d n attr w) as [[d'|e] w']; [apply IH |].
  destruct (is_Exception e); [| done].
  destruct (raise_node_exception m d n attr e w') as [[d'|e'] w'']; [apply IH | done].
Qed.


(** A node whose [run_node] raises an [Exception], in a handler whose
    [raise_node_exception] raises, ends the loop with that error. *)
Lemma run_order_raise pre n attr post d0 w0 d w e w' e' w'' :
  run_order m pre d0 w0 = (Ok d, w) →
  run_node m d n attr w = (Raise e, w') →
  is_Exception e = true →
  raise_node_exception m d n attr e w' = (Raise e', w'') →
  run_order m (pre ++ (n, attr) :: post) d0 w0 = (Raise e', w'').
Proof.
  intros Hpre Hrun Hexc Hraise. rewrite run_order_app, Hpre. simpl.
  rewrite Hrun, Hexc. simpl. by rewrite Hraise.
Qed.

(** A node whose [run_node] raises anything else ends the loop with
    what it raised; [raise_node_exception] is not called. *)
Lemma run_order_uncaught pre n attr post d0 w0 d w e w' :
  run_order m pre d0 w0 = (Ok d, w) →
  run_node m d n attr w = (Raise e, w') →
  is_Exception e = false →
  run_order m (pre ++ (n, attr) :: post) d0 w0 = (Raise e, w').
Proof.
  intros Hpre Hrun Hexc. rewrite run_order_app, Hpre. simpl.
  by rewrite Hrun, Hexc.
Qed.

Lemma call_raise ord rts kwargs w0 d0 w1 e w2 :
  initiate m kwargs w0 = (Ok d0, w1) →
  run_order m ord d0 w1 = (Raise e, w2) →
  call m ord rts kwargs w0 = (Raise e, w2).
Proof. intros Hinit Hrun. unfold call. rewrite Hinit. simpl. by rewrite Hrun. Qed.

Lemma call_finish ord rts kwargs w0 d0 w1 d w2 :
  initiate m kwargs w0 = (Ok d0, w1) →
  run_order m ord d0 w1 = (Ok d, w2) →
  call m ord rts kwargs w0 = finish m d rts w2.
Proof. intros Hinit Hrun. unfold call. rewrite Hinit. simpl. by rewrite Hrun. Qed.

Lemma call_Ok ord rts kwargs w0 v w3 :
  call m ord rts kwargs w0 = (Ok v, w3) →
  ∃ d0 w1 d w2,
    initiate m kwargs w0 = (Ok d0, w1)
    ∧ run_order m ord d0 w1 = (Ok d, w2)
    ∧ finish m d rts w2 = (Ok v, w3).
Proof.
  unfold call.
  destruct (initiate m kwargs w0) as [[d0|e] w1] eqn:Hinit; [| discriminate].
  destruct (run_order m ord d0 w1) as [[d|e] w2] eqn:Hrun; [| discriminate].
  intros Hf. exists d0, w1, d, w2. split_and!; done.
Qed.
End Driver_facts.

Lemma unit_state {A} (p : result A * unit) : p = (p.1, ()).
Proof. by destruct p as [r []]. Qed.

(** ** The fail path of [H5Handler] *)

Section H5_fail_path.
Context {H : Type} `{H5Backend H}.
Variable fmt : node → node_attr → string.

Lemma H5Handler_raise_node_exception_noted f g n attr e (st : h5_state H)
    lib1 lib2 :
  h5py_attrs_setitem g "note" (note_message fmt n attr e) (h5 st) = Ok lib1 →
  h5py_close f lib1 = Ok lib2 →
  H5Handler_raise_node_exception fmt (f, g) n attr e st
  = (Raise (Chained (node_message fmt n attr) e),
     {| exe_count := exe_count st; h5 := lib2;
        trace := (trace st ++ [EvSetAttr g "note" (note_message fmt n attr e)])
                 ++ [EvClose f] |}).
Proof.
  intros Hnote Hclose.
  unfold H5Handler_raise_node_exception, H5Handler_close, lib_call. simpl.
  rewrite Hnote. simpl. by rewrite Hclose.
Qed.

Lemma H5Handler_raise_node_exception_note_refused f g n attr e
    (st : h5_state H) e' :
  h5py_attrs_setitem g "note" (note_message fmt n attr e) (h5 st) = Raise e' →
  H5Handler_raise_node_exception fmt (f, g) n attr e st
  = (Raise e', log (EvSetAttr g "note" (note_message fmt n attr e)) st).
Proof.
  intros Hnote. unfold H5Handler_raise_node_exception, lib_call. simpl.
  by rewrite Hnote.
Qed.

Lemma H5Handler_raise_node_exception_close_refused f g n attr e
    (st : h5_state H) lib1 e' :
  h5py_attrs_setitem g "note" (note_message fmt n attr e) (h5 st) = Ok lib1 →
  h5py_close f lib1 = Raise e' →
  H5Handler_raise_node_exception fmt (f, g) n attr e st
  = (Raise e',
     {| exe_count := exe_count st; h5 := lib1;
        trace := (trace st ++ [EvSetAttr g "note" (note_message fmt n attr e)])
                 ++ [EvClose f] |}).
Proof.
  intros Hnote Hclose.
  unfold H5Handler_raise_node_exception, H5Handler_close, lib_call. simpl.
  rewrite Hnote. simpl. by rewrite Hclose.
Qed.

Lemma H5Handler_raise_node_exception_raises d n attr e (st : h5_state H) :
  is_ok (H5Handler_raise_node_exception fmt d n attr e st).1 = false.
Proof.
  destruct d as [f g].
  destruct (h5py_attrs_setitem g "note" (note_message fmt n attr e) (h5 st))
    as [lib1|e1] eqn:Hnote.
  - destruct (h5py_close f lib1) as [lib2|e2] eqn:Hclose.
    + by erewrite H5Handler_raise_node_exception_noted.
    + by erewrite H5Handler_raise_node_exception_close_refused.
  - by erewrite H5Handler_raise_node_exception_note_refused.
Qed.

Lemma H5Handler_raise_node_exception_exe_count d n attr e (st : h5_state H) :
  exe_count (H5Handler_raise_node_exception fmt d n attr e st).2 = exe_count st.
Proof.
  destruct d as [f g].
  destruct (h5py_attrs_setitem g "note" (note_message fmt n attr e) (h5 st))
    as [lib1|e1] eqn:Hnote.
  - destruct (h5py_close f lib1) as [lib2|e2] eqn:Hclose.
    + by erewrite H5Handler_raise_node_exception_noted.
    + by erewrite H5Handler_raise_node_exception_close_refused.
  - by erewrite H5Handler_raise_node_exception_note_refused.
Qed.
End H5_fail_path.

(** ** C4 *)

(** A callable that raises [SystemExit] ends the call with that very
    exception: no exception chained from it is raised. *)
Lemma exit_in_a_node_is_not_wrapped :
  PlainHandler_call example_fmt stop_handler stop_inputs
  = Raise (RaisedBase "SystemExit" "")
  ∧ MemHandler_call example_fmt stop_mem stop_inputs
    = Raise (RaisedBase "SystemExit" "")
  ∧ (H5Handler_call (H0 := once_backend) example_fmt stop_h5 stop_inputs
       (h5_state_init keyed_empty)).1
    = Raise (RaisedBase "SystemExit" "")
  ∧ ∀ msg cause,
      PlainHandler_call example_fmt stop_handler stop_inputs
      ≠ Raise (Chained msg cause).
Proof. split; [| split; [| split]]; by vm_compute. Qed.

(** C4: in each of the three strategies, when the callable of a node
    raises [e] (the earlier nodes having run and the parameters of the
    node being available) and [e] is an [Exception], the call raises
    [Exception("Exception occurred for node " + rendering of the node)]
    chained from [e], in [H5Handler] once the library has taken the note
    and closed the file; the message determines the rendering.  When [e]
    is not an [Exception] the call raises [e] itself.  When every node
    runs, the call is [finish] on the resulting data instance, and in
    the in-memory strategies raises no chained exception. *)
Theorem node_exception_is_wrapped {H : Type} `{H5Backend H} {graph : Type}
    (fmt : node → node_attr → string)
    (base : TopologicalHandler graph) (cnt : gmap string Z)
    (filename : string) (ident : Z)
    (kwargs : list (string * value))
    (pre post : list (node * node_attr)) (n : node) (attr : node_attr) (e : exn) :
  let mem := {| mem_base := base; counter := cnt |} in
  let h5h := {| h5_base := base; h5_filename := filename; self_id := ident |} in
  let wrapped := Chained ("Exception occurred for node " +:+ fmt n attr) e in
  let outcome := if is_Exception e then wrapped else e in
  order base = pre ++ (n, attr) :: post →
  (∀ d kw,
     run_order (PlainHandler_methods fmt) pre (PlainHandler_initiate kwargs) ()
       = (Ok d, ()) →
     dict_comp d (parameters attr) = Ok kw →
     obj attr kw = Raise e →
     PlainHandler_call fmt base kwargs = Raise outcome)
  ∧ (∀ d c kw,
       run_order (MemHandler_methods fmt mem) pre (MemHandler_initiate mem kwargs) ()
         = (Ok (d, c), ()) →
       dict_comp d (parameters attr) = Ok kw →
       obj attr kw = Raise e →
       MemHandler_call fmt mem kwargs = Raise outcome)
  ∧ (∀ (st st1 st2 st3 : h5_state H) d0 d kw,
       H5Handler_initiate h5h kwargs st = (Ok d0, st1) →
       run_order (H5Handler_methods fmt h5h) pre d0 st1 = (Ok d, st2) →
       read_comp (parameters attr) d.2 st2 = (Ok kw, st3) →
       obj attr kw = Raise e →
       (is_Exception e = false →
          H5Handler_call fmt h5h kwargs st = (Raise e, st3))
       ∧ (∀ lib1 lib2,
            is_Exception e = true →
            h5py_attrs_setitem d.2 "note" (note_message fmt n attr e) (h5 st3)
              = Ok lib1 →
            h5py_close d.1 lib1 = Ok lib2 →
            (H5Handler_call fmt h5h kwargs st).1 = Raise wrapped))
  ∧ (∀ n' attr',
       "Exception occurred for node " +:+ fmt n attr
       = "Exception occurred for node " +:+ fmt n' attr' →
       fmt n attr = fmt n' attr')
  ∧ (∀ d,
       run_order (PlainHandler_methods fmt) (order base)
         (PlainHandler_initiate kwargs) () = (Ok d, ()) →
       PlainHandler_call fmt base kwargs = PlainHandler_finish d (returns base)
       ∧ ∀ msg cause, PlainHandler_call fmt base kwargs ≠ Raise (Chained msg cause))
  ∧ (∀ d c,
       run_order (MemHandler_methods fmt mem) (order base)
         (MemHandler_initiate mem kwargs) () = (Ok (d, c), ()) →
       MemHandler_call fmt mem kwargs = MemHandler_finish (d, c) (returns base)
       ∧ ∀ msg cause, MemHandler_call fmt mem kwargs ≠ Raise (Chained msg cause))
  ∧ (∀ (st st1 st2 : h5_state H) d0 d,
       H5Handler_initiate h5h kwargs st = (Ok d0, st1) →
       run_order (H5Handler_methods fmt h5h) (order base) d0 st1 = (Ok d, st2) →
       H5Handler_call fmt h5h kwargs st = H5Handler_finish d (returns base) st2).
Proof.
  intros mem h5h wrapped outcome Hord.
  assert (∀ d rts msg cause, PlainHandler_finish d rts ≠ Raise (Chained msg cause))
    as Hfin.
  { intros d rts msg cause Hf.
    apply PlainHandler_finish_Raise in Hf as (r & Hr & _). discriminate. }
  split; [| split; [| split; [| split; [| split; [| split]]]]].
  - intros d kw Hpre Hkw Hobj. unfold PlainHandler_call.
    assert (run_node (PlainHandler_methods fmt) d n attr () = (Raise e, ()))
      as Hrun.
    { simpl. unfold pure_method, PlainHandler_run_node. rewrite Hkw. simpl.
      by rewrite Hobj. }
    erewrite call_raise; [done | reflexivity |]. rewrite Hord. unfold outcome.
    destruct (is_Exception e) eqn:Hexc.
    + eapply run_order_raise; [exact Hpre | exact Hrun | exact Hexc | reflexivity].
    + eapply run_order_uncaught; [exact Hpre | exact Hrun | exact Hexc].
  - intros d c kw Hpre Hkw Hobj. unfold MemHandler_call.
    assert (run_node (MemHandler_methods fmt mem) (d, c) n attr ()
            = (Raise e, ())) as Hrun.
    { simpl. unfold pure_method. rewrite Hkw. simpl. by rewrite Hobj. }
    erewrite call_raise; [done | reflexivity |]. simpl. rewrite Hord.
    unfold outcome. destruct (is_Exception e) eqn:Hexc.
    + eapply run_order_raise; [exact Hpre | exact Hrun | exact Hexc | reflexivity].
    + eapply run_order_uncaught; [exact Hpre | exact Hrun | exact Hexc].
  - intros st st1 st2 st3 d0 d kw Hinit Hpre Hread Hobj.
    destruct d as [f g]. simpl in Hread.
    assert (run_node (H5Handler_methods fmt h5h) (f, g) n attr st2
            = (Raise e, st3)) as Hrun.
    { simpl. unfold H5Handler_run_node. simpl. by rewrite Hread, Hobj. }
    split.
    + intros Hexc. unfold H5Handler_call.
      eapply call_raise; [exact Hinit |]. simpl. rewrite Hord.
      eapply run_order_uncaught; [exact Hpre | exact Hrun | exact Hexc].
    + intros lib1 lib2 Hexc Hnote Hclose. unfold H5Handler_call.
      erewrite call_raise; [done | exact Hinit |]. simpl. rewrite Hord.
      eapply run_order_raise; [exact Hpre | exact Hrun | exact Hexc |].
      simpl. by apply (H5Handler_raise_node_exception_noted fmt f g n attr e
                         st3 lib1 lib2).
  - intros n' attr' Heq. by apply String.app_inj in Heq.
  - intros d Hrun. unfold PlainHandler_call.
    erewrite call_finish; [| reflexivity | exact Hrun]. simpl. split; [done |].
    apply Hfin.
  - intros d c Hrun. unfold MemHandler_call.
    erewrite call_finish; [| reflexivity | exact Hrun]. simpl. split; [done |].
    apply Hfin.
  - intros st st1 st2 d0 d Hinit Hrun. unfold H5Handler_call.
    by erewrite call_finish.
Qed.

(** ** The Durable-Persisted strategy *)

Lemma handle_open_closed f tr : handle_open f (tr ++ [EvClose f]) = false.
Proof. unfold handle_open. rewrite foldl_app. simpl. by rewrite decide_True. Qed.

Lemma exe_group_name_inj ident : Inj (=) (=) (exe_group_name ident).
Proof.
  intros i j Heq. unfold exe_group_name in Heq.
  apply String.app_inj in Heq. apply String.app_inj in Heq.
  by apply (inj pretty) in Heq.
Qed.

Section H5_run_facts.
Context {H : Type} `{H5Backend H} {graph : Type}.
Variable fmt : node → node_attr → string.
Variable self : H5Handler graph.

Lemma H5Handler_write_exe_count items g (st : h5_state H) :
  exe_count (H5Handler_write items g st).2 = exe_count st.
Proof.
  revert st. induction items as [|[k v] items IH]; intros st; simpl; [done |].
  pose proof (lib_call_exe_count (EvCreateDataset g k v)
                (h5py_create_dataset g k v) st) as Hc.
  destruct (lib_call _ _ st) as [[[]|e] st1]; simpl in *; [| done].
  by rewrite IH.
Qed.

Lemma read_comp_exe_count ps g (st : h5_state H) :
  exe_count (read_comp ps g st).2 = exe_count st.
Proof.
  revert st. induction ps as [|p ps IH]; intros st; simpl; [done |].
  destruct (h5py_getitem g p (h5 st)) as [v|e]; simpl; [| done].
  specialize (IH (log (EvRead g p) st)).
  destruct (read_comp ps g _) as [[kw|e] st2]; simpl in *; done.
Qed.

Lemma read_all_exe_count rts g (st : h5_state H) :
  exe_count (read_all rts g st).2 = exe_count st.
Proof.
  revert st. induction rts as [|r rts IH]; intros st; simpl; [done |].
  destruct (h5py_getitem g r (h5 st)) as [v|e]; simpl; [| done].
  specialize (IH (log (EvRead g r) st)).
  destruct (read_all rts g _) as [[vs|e] st2]; simpl in *; done.
Qed.

Lemma H5Handler_run_node_exe_count d n attr (st : h5_state H) :
  exe_count (H5Handler_run_node d n attr st).2 = exe_count st.
Proof.
  unfold H5Handler_run_node.
  pose proof (read_comp_exe_count (parameters attr) d.2 st) as Hr.
  destruct (read_comp _ _ st) as [[kw|e] st1]; simpl in *; [| done].
  destruct (obj attr kw) as [out|e]; [| done].
  destruct (output_items (node_returns attr) out) as [items|e]; [| done].
  assert (exe_count (H5Handler_write items d.2 st1).2 = exe_count st) as Hw
    by (by rewrite H5Handler_write_exe_count).
  destruct (H5Handler_write items d.2 st1) as [[[]|e] st2]; done.
Qed.

Lemma H5Handler_run_node_data d n attr (st st' : h5_state H) d' :
  H5Handler_run_node d n attr st = (Ok d', st') → d' = d.
Proof.
  unfold H5Handler_run_node.
  destruct (read_comp _ _ st) as [[kw|e] st1]; [| discriminate].
  destruct (obj attr kw) as [out|e]; [| discriminate].
  destruct (output_items (node_returns attr) out) as [items|e]; [| discriminate].
  destruct (H5Handler_write items d.2 st1) as [[[]|e] st2]; congruence.
Qed.

Lemma H5_run_order_data ord d (st st' : h5_state H) d' :
  run_order (H5Handler_methods fmt self) ord d st = (Ok d', st') → d' = d.
Proof.
  revert d st. induction ord as [|[n attr] ord IH]; intros d st;
    cbn [run_order run_node raise_node_exception H5Handler_methods].
  - congruence.
  - destruct (H5Handler_run_node d n attr st) as [[d1|e] st1] eqn:Hrun.
    + apply H5Handler_run_node_data in Hrun as ->. apply IH.
    + destruct (is_Exception e); [| discriminate].
      pose proof (H5Handler_raise_node_exception_raises fmt d n attr e st1) as Hr.
      destruct (H5Handler_raise_node_exception fmt d n attr e st1)
        as [[d2|e2] st2]; discriminate.
Qed.

Lemma H5_run_order_exe_count ord d (st : h5_state H) :
  exe_count (run_order (H5Handler_methods fmt self) ord d st).2 = exe_count st.
Proof.
  revert d st. induction ord as [|[n attr] ord IH]; intros d st;
    cbn [run_order run_node raise_node_exception H5Handler_methods]; [done |].
  pose proof (H5Handler_run_node_exe_count d n attr st) as Hc.
  destruct (H5Handler_run_node d n attr st) as [[d1|e] st1]; simpl in Hc.
  - by rewrite IH.
  - destruct (is_Exception e); [| done].
    pose proof (H5Handler_raise_node_exception_raises fmt d n attr e st1) as Hr.
    pose proof (H5Handler_raise_node_exception_exe_count fmt d n attr e st1) as Hx.
    destruct (H5Handler_raise_node_exception fmt d n attr e st1)
      as [[d2|e2] st2]; simpl in *; [discriminate | congruence].
Qed.

Lemma H5Handler_finish_exe_count d rts (st : h5_state H) :
  exe_count (H5Handler_finish d rts st).2 = exe_count st.
Proof.
  destruct d as [f g]. unfold H5Handler_finish.
  assert (∀ st1 : h5_state H,
            exe_count (H5Handler_close f st1).2 = exe_count st1) as Hclose
    by (intros st1; apply lib_call_exe_count).
  pose proof (read_all_exe_count rts g st) as Hall.
  destruct rts as [|r1 [|r2 rts]].
  - cbn [read_all]. specialize (Hclose st).
    by destruct (H5Handler_close f st) as [[[]|e] st2].
  - unfold H5Handler_read.
    destruct (h5py_getitem g r1 (h5 (log (EvRead g r1) st))); [| done].
    specialize (Hclose (log (EvRead g r1) st)).
    by destruct (H5Handler_close f _) as [[[]|e] st2].
  - destruct (read_all (r1 :: r2 :: rts) g st) as [[vs|e] st1]; [| done].
    specialize (Hclose st1).
    destruct (H5Handler_close f st1) as [[[]|e] st2]; simpl in *; congruence.
Qed.

Lemma H5Handler_initiate_exe_count kwargs (st : h5_state H) :
  exe_count (H5Handler_initiate self kwargs st).2 = exe_count st + 1.
Proof.
  unfold H5Handler_initiate.
  set (st0 := {| exe_count := exe_count st + 1; h5 := h5 st; trace := trace st |}).
  pose proof (lib_call_exe_count (EvFile (h5_filename self) "a")
                (h5py_File (h5_filename self) "a") st0) as H1.
  destruct (lib_call _ _ st0) as [[[]|e] st1]; simpl in H1; [| done].
  set (g := exe_group_name (self_id self) (exe_count st1)).
  pose proof (lib_call_exe_count (EvCreateGroup (h5_filename self) g)
                (h5py_create_group (h5_filename self) g) st1) as H2.
  destruct (lib_call _ _ st1) as [[[]|e] st2]; simpl in H2;
    [| simpl; congruence].
  pose proof (H5Handler_write_exe_count kwargs g st2) as H3.
  destruct (H5Handler_write kwargs g st2) as [[[]|e] st3]; simpl in *; congruence.
Qed.

Lemma H5Handler_initiate_Ok kwargs (st st' : h5_state H) d :
  H5Handler_initiate self kwargs st = (Ok d, st') →
  d = (h5_filename self, exe_group_name (self_id self) (exe_count st + 1))
  ∧ EvCreateGroup (h5_filename self)
      (exe_group_name (self_id self) (exe_count st + 1)) ∈ trace st'.
Proof.
  unfold H5Handler_initiate.
  set (st0 := {| exe_count := exe_count st + 1; h5 := h5 st; trace := trace st |}).
  pose proof (lib_call_exe_count (EvFile (h5_filename self) "a")
                (h5py_File (h5_filename self) "a") st0) as H1.
  destruct (lib_call _ _ st0) as [[[]|e] st1]; simpl in H1; [| discriminate].
  rewrite H1.
  set (g := exe_group_name (self_id self) (exe_count st + 1)).
  pose proof (lib_call_trace (EvCreateGroup (h5_filename self) g)
                (h5py_create_group (h5_filename self) g) st1) as H2.
  destruct (lib_call _ _ st1) as [[[]|e] st2]; simpl in H2; [| discriminate].
  destruct (H5Handler_write kwargs g st2) as [[[]|e] st3] eqn:Hw; [| discriminate].
  intros [= <- <-]. split; [done |].
  rewrite (H5Handler_write_Ok_trace _ _ _ _ _ Hw), H2. set_solver.
Qed.

Lemma H5Handler_write_trace_extends items g (st : h5_state H) :
  ∃ evs, trace (H5Handler_write items g st).2 = trace st ++ evs.
Proof.
  revert st. induction items as [|[k v] items IH]; intros st; simpl.
  - exists []. by rewrite app_nil_r.
  - pose proof (lib_call_trace (EvCreateDataset g k v)
                  (h5py_create_dataset g k v) st) as Htr.
    destruct (lib_call _ _ st) as [[[]|e] st1]; simpl in Htr.
    + destruct (IH st1) as [evs Hevs]. eexists.
      by rewrite Hevs, Htr, <- app_assoc.
    + by eexists.
Qed.

(** Once the file is open, the group of the call is created under the
    name built from the identity and the incremented counter. *)
Lemma H5Handler_initiate_creates_group kwargs (st : h5_state H) lib :
  h5py_File (h5_filename self) "a" (h5 st) = Ok lib →
  ∃ evs, trace (H5Handler_initiate self kwargs st).2
         = trace st ++ EvFile (h5_filename self) "a"
             :: EvCreateGroup (h5_filename self)
                  (exe_group_name (self_id self) (exe_count st + 1)) :: evs.
Proof.
  intros Hfile. unfold H5Handler_initiate.
  set (st0 := {| exe_count := exe_count st + 1; h5 := h5 st; trace := trace st |}).
  set (st1 := set_h5 lib (log (EvFile (h5_filename self) "a") st0)).
  assert (lib_call (EvFile (h5_filename self) "a")
            (h5py_File (h5_filename self) "a") st0 = (Ok (), st1)) as ->.
  { unfold lib_call. simpl. by rewrite Hfile. }
  change (exe_count st1) with (exe_count st + 1).
  set (g := exe_group_name (self_id self) (exe_count st + 1)).
  pose proof (lib_call_trace (EvCreateGroup (h5_filename self) g)
                (h5py_create_group (h5_filename self) g) st1) as H2.
  destruct (lib_call _ _ st1) as [[[]|e] st2]; simpl in H2.
  - destruct (H5Handler_write_trace_extends kwargs g st2) as [evs Hevs].
    exists evs.
    assert (trace st2 ++ evs = trace st ++ EvFile (h5_filename self) "a"
              :: EvCreateGroup (h5_filename self) g :: evs) as <-.
    { rewrite H2. simpl. by rewrite <- !app_assoc. }
    rewrite <- Hevs. by destruct (H5Handler_write kwargs g st2) as [[[]|e] st3].
  - exists []. simpl. rewrite H2. simpl. by rewrite <- app_assoc.
Qed.

Lemma H5Handler_call_exe_count kwargs (st : h5_state H) :
  exe_count (H5Handler_call fmt self kwargs st).2 = exe_count st + 1.
Proof.
  unfold H5Handler_call, call. simpl.
  pose proof (H5Handler_initiate_exe_count kwargs st) as Hi.
  destruct (H5Handler_initiate self kwargs st) as [[d0|e] st1]; simpl in Hi; [| done].
  pose proof (H5_run_order_exe_count (order (h5_base self)) d0 st1) as Hr.
  destruct (run_order _ _ d0 st1) as [[d|e] st2]; simpl in Hr;
    [| simpl; congruence].
  rewrite H5Handler_finish_exe_count. congruence.
Qed.
End H5_run_facts.

(** ** C6 *)



(** ** C9 *)

Lemma H5Handler_calls_exe_count {H : Type} `{H5Backend H} {graph : Type}
    (fmt : node → node_attr → string) (self : H5Handler graph)
    (calls : list (list (string * value))) (st : h5_state H) :
  exe_count (H5Handler_calls fmt self calls st)
  = exe_count st + Z.of_nat (length calls).
Proof.
  revert st. induction calls as [|kw calls IH]; intros st; simpl; [lia |].
  change (foldl _ ?s calls) with (H5Handler_calls fmt self calls s).
  rewrite IH, H5Handler_call_exe_count. lia.
Qed.

(** C9: [exe_count] is [0] in a new handler and every call adds one to
    it, whatever the outcome of the call; the call that follows [k]
    earlier calls uses the counter value [k + 1], names its group
    ["{id(self)}_{k + 1}"] and issues [create_group] with that name as
    soon as the file is open; different counter values give different
    group names. *)
Theorem exe_group_names_count_calls {H : Type} `{H5Backend H} {graph : Type}
    (fmt : node → node_attr → string) (self : H5Handler graph) (lib : H)
    (calls : list (list (string * value))) (kwargs : list (string * value)) :
  let st := H5Handler_calls fmt self calls (h5_state_init lib) in
  let nth := Z.of_nat (length calls) + 1 in
  let name := pretty (self_id self) +:+ "_" +:+ pretty nth in
  exe_count (h5_state_init lib) = 0
  ∧ exe_count st = Z.of_nat (length calls)
  ∧ exe_count (H5Handler_call fmt self kwargs st).2 = nth
  ∧ (∀ d st', H5Handler_initiate self kwargs st = (Ok d, st') →
       d = (h5_filename self, name)
       ∧ EvCreateGroup (h5_filename self) name ∈ trace st')
  ∧ (∀ lib', h5py_File (h5_filename self) "a" (h5 st) = Ok lib' →
       ∃ evs, trace (H5Handler_initiate self kwargs st).2
              = trace st ++ EvFile (h5_filename self) "a"
                  :: EvCreateGroup (h5_filename self) name :: evs)
  ∧ (∀ i j : Z,
       pretty (self_id self) +:+ "_" +:+ pretty i
       = pretty (self_id self) +:+ "_" +:+ pretty j → i = j).
Proof.
  intros st nth name.
  assert (exe_count st = Z.of_nat (length calls)) as Hcount.
  { unfold st. rewrite H5Handler_calls_exe_count. simpl. lia. }
  assert (name = exe_group_name (self_id self) (exe_count st + 1)) as Hname.
  { unfold name, nth, exe_group_name. by rewrite Hcount. }
  split_and!.
  - done.
  - done.
  - rewrite H5Handler_call_exe_count. unfold nth. lia.
  - intros d st' Hinit. rewrite Hname. by eapply H5Handler_initiate_Ok.
  - intros lib' Hfile. rewrite Hname.
    by eapply H5Handler_initiate_creates_group.
  - intros i j Heq. by apply (exe_group_name_inj (self_id self)).
Qed.

(** ** C7 *)

Section H5_finish_facts.
Context {H : Type} `{H5Backend H}.

Lemma read_all_Ok rts g (st st' : h5_state H) vs :
  read_all rts g st = (Ok vs, st') →
  Forall2 (λ r x, stored (h5 st) g r = Some x) rts vs ∧ h5 st' = h5 st.
Proof.
  revert st vs. induction rts as [|r rts IH]; intros st vs; simpl.
  - intros [= <- <-]. split; [constructor | done].
  - destruct (h5py_getitem g r (h5 st)) as [v|e] eqn:Hv; [| discriminate].
    destruct (read_all rts g (log (EvRead g r) st)) as [[vs'|e] st2] eqn:Hrest;
      [| discriminate].
    intros [= <- <-]. destruct (IH _ _ Hrest) as [Hall Hlib]. split; [| done].
    constructor; [| done]. unfold stored. by rewrite Hv.
Qed.

Lemma H5Handler_close_Ok f (st st' : h5_state H) u :
  H5Handler_close f st = (Ok u, st') →
  trace st' = trace st ++ [EvClose f] ∧ h5py_close f (h5 st) = Ok (h5 st').
Proof.
  unfold H5Handler_close, lib_call. simpl.
  destruct (h5py_close f (h5 st)) as [lib|e]; [| discriminate].
  by intros [= _ <-].
Qed.

(** [finish] returns a value when its reads and then [close] succeed. *)
Lemma H5Handler_finish_Ok_inv f g rts (st st' : h5_state H) v :
  H5Handler_finish (f, g) rts st = (Ok v, st') →
  ∃ st1,
    match rts with
    | [r] => H5Handler_read r g st
    | _ =>
        match read_all rts g st with
        | (Raise e, s) => (Raise e, s)
        | (Ok vs, s) => (Ok (VTuple vs), s)
        end
    end = (Ok v, st1)
    ∧ H5Handler_close f st1 = (Ok (), st').
Proof.
  unfold H5Handler_finish.
  destruct (match rts with
            | [r] => H5Handler_read r g st
            | _ =>
                match read_all rts g st with
                | (Raise e, s) => (Raise e, s)
                | (Ok vs, s) => (Ok (VTuple vs), s)
                end
            end) as [[rt|e] st1]; [| discriminate].
  destruct (H5Handler_close f st1) as [[[]|e] st2] eqn:Hclose; [| discriminate].
  intros [= <- <-]. by exists st1.
Qed.

Lemma H5Handler_finish_Ok f g rts (st st' : h5_state H) v :
  H5Handler_finish (f, g) rts st = (Ok v, st') →
  requested_values (stored (h5 st) g) rts v.
Proof.
  intros Hf. apply H5Handler_finish_Ok_inv in Hf as (st1 & Hf & _). split.
  - intros r ->. unfold H5Handler_read in Hf. simpl in Hf. unfold stored.
    destruct (h5py_getitem g r (h5 st)); [| discriminate]. congruence.
  - intros Hlen. destruct rts as [|r1 [|r2 rts]]; simpl in Hlen; [lia | lia |].
    destruct (read_all (r1 :: r2 :: rts) g st) as [[vs|e] st2] eqn:Hall;
      [| discriminate].
    injection Hf as <- _. exists vs. split; [done |].
    by apply read_all_Ok in Hall as [Hall _].
Qed.
End H5_finish_facts.

(** C7: the requested outputs of a constructed handler are the sorted
    concatenation of the graph's returns and the additional returns; a
    call that succeeds returns, of the values held after the last node,
    the single requested one when exactly one is requested, and the
    tuple of the requested ones in that sorted order when more than one
    is. *)
Theorem call_returns_requested_values {H : Type} `{H5Backend H} {graph : Type}
    (model_signature : graph → result (list string))
    (model_returns : graph → result (list string))
    (graph_topological_sort : graph → result (list (node * node_attr)))
    (graph_copy : graph → result graph)
    (g : graph) (additional_returns : list string)
    (base : TopologicalHandler graph)
    (fmt : node → node_attr → string) (cnt : gmap string Z)
    (filename : string) (ident : Z) (kwargs : list (string * value)) :
  let mem := {| mem_base := base; counter := cnt |} in
  let h5h := {| h5_base := base; h5_filename := filename; self_id := ident |} in
  TopologicalHandler_init model_signature model_returns graph_topological_sort
    graph_copy g additional_returns = Ok base →
  (Sorted str_le (returns base)
   ∧ ∃ rts, model_returns g = Ok rts
            ∧ returns base ≡ₚ rts ++ additional_returns)
  ∧ (∀ v, PlainHandler_call fmt base kwargs = Ok v →
       ∃ d, run_order (PlainHandler_methods fmt) (order base)
              (PlainHandler_initiate kwargs) () = (Ok d, ())
            ∧ requested_values (λ r, d !! r) (returns base) v)
  ∧ (∀ v, MemHandler_call fmt mem kwargs = Ok v →
       ∃ d c, run_order (MemHandler_methods fmt mem) (order base)
                (MemHandler_initiate mem kwargs) () = (Ok (d, c), ())
              ∧ requested_values (λ r, d !! r) (returns base) v)
  ∧ (∀ (st st' : h5_state H) v,
       H5Handler_call fmt h5h kwargs st = (Ok v, st') →
       ∃ d0 st1 d st2,
         H5Handler_initiate h5h kwargs st = (Ok d0, st1)
         ∧ run_order (H5Handler_methods fmt h5h) (order base) d0 st1 = (Ok d, st2)
         ∧ requested_values (stored (h5 st2) d.2) (returns base) v).
Proof.
  intros mem h5h Hinit. split; [| split; [| split]].
  - unfold TopologicalHandler_init in Hinit.
    apply rbind_Ok in Hinit as (sg & _ & Hinit).
    apply rbind_Ok in Hinit as (rts & Hrts & Hinit).
    apply rbind_Ok in Hinit as (ord & _ & Hinit).
    apply rbind_Ok in Hinit as (cp & _ & [= <-]). simpl.
    split; [apply sorted_Sorted |]. exists rts. split; [done |].
    apply sorted_Permutation.
  - intros v Hcall. unfold PlainHandler_call in Hcall.
    set (r := call _ _ _ _ _) in Hcall.
    assert (r = (Ok v, ())) as Hr by (rewrite (unit_state r); by rewrite Hcall).
    apply call_Ok in Hr as (d0 & [] & d & [] & [= <-] & Hrun & Hfin).
    exists d. split; [done |].
    apply PlainHandler_finish_Ok. simpl in Hfin. by injection Hfin.
  - intros v Hcall. unfold MemHandler_call in Hcall.
    set (r := call _ _ _ _ _) in Hcall.
    assert (r = (Ok v, ())) as Hr by (rewrite (unit_state r); by rewrite Hcall).
    apply call_Ok in Hr as (d0 & [] & [d c] & [] & [= <-] & Hrun & Hfin).
    exists d, c. split; [done |].
    apply PlainHandler_finish_Ok. simpl in Hfin. by injection Hfin.
  - intros st st' v Hcall. unfold H5Handler_call in Hcall.
    apply call_Ok in Hcall as (d0 & st1 & [f gname] & st2 & Hi & Hrun & Hfin).
    exists d0, st1, (f, gname), st2. split; [done |]. split; [done |].
    simpl in Hfin. simpl. by eapply H5Handler_finish_Ok.
Qed.

(** ** The usage counter and its invariant *)

Lemma foldr_incr_lookup l c key :
  foldr incr c l !! key =
  if decide (key ∈ l) then Some (default 0 (c !! key) + occurrences key l)
  else c !! key.
Proof.
  induction l as [|x l IH]; cbn [foldr occurrences].
  - rewrite decide_False; [done | set_solver].
  - unfold incr at 1. destruct (decide (key = x)) as [->|Hne].
    + rewrite lookup_insert_eq, decide_True by set_solver. rewrite IH.
      case_decide as Hin; simpl; [f_equal; lia |].
      rewrite (occurrences_notin x l) by done. f_equal; lia.
    + rewrite lookup_insert_ne by done. rewrite IH.
      destruct (decide (key ∈ l)) as [Hin|Hnot].
      * rewrite decide_True by set_solver. f_equal; lia.
      * rewrite decide_False by set_solver. done.
Qed.

Lemma occurrences_NoDup key l : NoDup l → key ∈ l → occurrences key l = 1.
Proof.
  induction 1 as [|x l Hx Hnd IH]; intros Hin; [by inversion Hin |]. simpl.
  destruct (decide (key = x)) as [->|Hne].
  - rewrite (occurrences_notin x l) by done. lia.
  - rewrite IH; [lia | set_solver].
Qed.

Lemma references_nonneg key ord : 0 ≤ references key ord.
Proof. apply occurrences_nonneg. Qed.

Lemma references_app key ord1 ord2 :
  references key (ord1 ++ ord2) = references key ord1 + references key ord2.
Proof.
  unfold references, all_parameters. by rewrite flat_map_app, occurrences_app.
Qed.

Lemma references_cons key n attr ord :
  references key ((n, attr) :: ord)
  = occurrences key (parameters attr) + references key ord.
Proof. unfold references, all_parameters. simpl. apply occurrences_app. Qed.

(** The counter the spec describes: references plus one for a requested
    output, for the names where this is positive. *)
Lemma usage_count_lookup ord rts key :
  usage_count ord rts !! key =
  if decide (0 < references key ord + requested key rts)
  then Some (references key ord + requested key rts) else None.
Proof.
  unfold usage_count. rewrite !foldr_incr_lookup, lookup_empty. simpl.
  fold (references key ord). unfold requested.
  pose proof (references_nonneg key ord) as Hnn.
  assert (key ∈ all_parameters ord ↔ 0 < references key ord) as Hpos
    by apply occurrences_pos.
  assert (key ∉ all_parameters ord → references key ord = 0) as Hzero
    by apply occurrences_notin.
  destruct (decide (key ∈ remove_dups rts)) as [Hin|Hnot].
  - rewrite (occurrences_NoDup key (remove_dups rts))
      by (done || apply NoDup_remove_dups).
    rewrite elem_of_remove_dups in Hin.
    destruct (decide (key ∈ rts)); [| done].
    destruct (decide (key ∈ all_parameters ord)) as [Hp|Hp]; simpl.
    + rewrite decide_True by lia. f_equal; lia.
    + rewrite (Hzero Hp). done.
  - rewrite elem_of_remove_dups in Hnot.
    destruct (decide (key ∈ rts)); [done |].
    destruct (decide (key ∈ all_parameters ord)) as [Hp|Hp]; simpl.
    + apply Hpos in Hp. rewrite decide_True by lia. f_equal; lia.
    + rewrite (Hzero Hp). done.
Qed.

Lemma setitem_keys key v items k :
  k ∈ (setitem key v items).*1 → k = key ∨ k ∈ items.*1.
Proof.
  induction items as [|[k' v'] items IH]; simpl.
  - set_solver.
  - case_decide; simpl; set_solver.
Qed.

Lemma py_dict_keys pairs k : k ∈ (py_dict pairs).*1 → k ∈ pairs.*1.
Proof.
  unfold py_dict.
  enough (∀ acc, k ∈ (foldl (λ items kv, setitem kv.1 kv.2 items) acc pairs).*1
                 → k ∈ acc.*1 ∨ k ∈ pairs.*1) as Hgen.
  { intros Hin. destruct (Hgen [] Hin) as [Hnil|]; [by inversion Hnil | done]. }
  induction pairs as [|[k' v'] pairs IH]; intros acc; simpl; [by left |].
  intros Hin. destruct (IH _ Hin) as [Hacc | Hrest]; [| set_solver].
  apply setitem_keys in Hacc. set_solver.
Qed.

(** [store_output] touches only return names of the node. *)
Lemma store_output_other rts out d d1 k :
  store_output rts out d = Ok d1 → k ∉ rts → d1 !! k = d !! k.
Proof.
  intros Hstore Hnot.
  assert (∀ vs, dict_update d (py_dict (zip rts vs)) !! k = d !! k) as Hupd.
  { intros vs. apply dict_update_lookup_notin. intros Hin%py_dict_keys.
    apply Hnot. apply list_elem_of_fmap in Hin as ([r x] & -> & Hin).
    by apply elem_of_zip_l in Hin. }
  unfold store_output in Hstore. destruct rts as [|r1 [|r2 rts]].
  - apply rbind_Ok in Hstore as (vs & _ & [= <-]). exact (Hupd vs).
  - injection Hstore as <-. apply lookup_insert_ne. set_solver.
  - apply rbind_Ok in Hstore as (vs & _ & [= <-]). exact (Hupd vs).
Qed.

Lemma dependency_ordered_app pre post key :
  dependency_ordered (pre ++ post) →
  key ∈ all_parameters pre →
  key ∉ flat_map (λ na, node_returns na.2) post.
Proof.
  induction pre as [|[n attr] pre IH]; simpl; intros Hdep Hin.
  - by inversion Hin.
  - destruct Hdep as [Hhere Hdep].
    unfold all_parameters in Hin. simpl in Hin.
    apply elem_of_app in Hin as [Hin | Hin].
    + specialize (Hhere key Hin). rewrite flat_map_app in Hhere.
      intros Hpost. apply Hhere. apply elem_of_app. by right.
    + by apply IH.
Qed.

Lemma Mem_run_order_snoc {graph} fmt (self : MemHandler graph) pre n attr dc0 dc :
  run_order (MemHandler_methods fmt self) (pre ++ [(n, attr)]) dc0 () = (Ok dc, ()) →
  ∃ dc1, run_order (MemHandler_methods fmt self) pre dc0 () = (Ok dc1, ())
         ∧ MemHandler_run_node dc1 n attr = Ok dc.
Proof.
  rewrite run_order_app.
  destruct (run_order _ pre dc0 ()) as [[dc1|e] []]; [| discriminate].
  simpl. unfold pure_method.
  destruct (MemHandler_run_node dc1 n attr) as [dc'|e] eqn:Hnode;
    [| by destruct (is_Exception e)].
  intros [= <-]. by exists dc1.
Qed.

(** After any prefix of a dependency-ordered plan, the working counter
    is the usage counter less the references consumed, and no name with
    a zero counter has an entry. *)
Lemma Mem_invariant {graph} fmt (self : MemHandler graph) rts pre post d0 d c :
  dependency_ordered (pre ++ post) →
  counter self = usage_count (pre ++ post) rts →
  run_order (MemHandler_methods fmt self) pre (d0, counter self) ()
    = (Ok (d, c), ()) →
  (∀ k, c !! k = (λ z, z - references k pre) <$> counter self !! k)
  ∧ (∀ k, c !! k = Some 0 → d !! k = None).
Proof.
  revert post d c. induction pre as [|[n attr] pre IH] using rev_ind;
    intros post d c Hdep Hcnt Hrun.
  - simpl in Hrun. injection Hrun as <- <-. split.
    + intros k. unfold references. simpl.
      destruct (counter self !! k); simpl; [f_equal; lia | done].
    + intros k Hk. simpl in Hcnt. rewrite Hcnt, usage_count_lookup in Hk.
      case_decide; [| done]. injection Hk as Hk. lia.
  - apply Mem_run_order_snoc in Hrun as ([d1 c1] & Hpre & Hnode).
    rewrite <- app_assoc in Hdep, Hcnt. simpl in Hdep, Hcnt.
    destruct (IH _ _ _ Hdep Hcnt Hpre) as [Hc1 Hzero1].
    destruct (MemHandler_run_node_Ok _ _ _ _ _ _ Hnode)
      as (kw & out & d2 & _ & _ & Hstore & Hev).
    pose proof (evict_spec _ _ _ _ _ Hev) as Hspec. split.
    + intros k. destruct (Hspec k) as (Hc & _).
      rewrite Hc, Hc1, references_app, references_cons.
      unfold references at 3. simpl.
      destruct (counter self !! k); simpl; [f_equal; lia | done].
    + intros k Hk. destruct (Hspec k) as (_ & _ & _ & Hinv).
      apply Hinv; [| done]. intros Hk1.
      rewrite (store_output_other _ _ _ _ k Hstore); [by apply Hzero1 |].
      (* a zero counter means every reference came earlier *)
      rewrite Hc1, Hcnt, usage_count_lookup in Hk1.
      case_decide as Hpos; [| done]. simpl in Hk1. injection Hk1 as Hk1.
      rewrite references_app, references_cons in Hk1, Hpos.
      pose proof (references_nonneg k pre).
      pose proof (references_nonneg k post).
      pose proof (occurrences_nonneg k (parameters attr)).
      assert (0 ≤ requested k rts) by (unfold requested; case_decide; lia).
      assert (k ∈ all_parameters pre) as Hin by (apply occurrences_pos;
        fold (references k pre); lia).
      pose proof (dependency_ordered_app _ _ _ Hdep Hin) as Hnot.
      simpl in Hnot. intros Hret. apply Hnot. apply elem_of_app. by left.
Qed.

(** ** C2 *)

(** C2: in the Counted-Eviction strategy, for a plan in dependency order
    and the usage counter of the spec, after every prefix of the plan
    has run the mapping holds no entry whose working counter is zero;
    and a name some node of the prefix consumes, that no later node
    consumes and that is not a requested output, has counter zero and is
    absent from the mapping. *)
Theorem eviction_invariant {graph : Type} (fmt : node → node_attr → string)
    (self : MemHandler graph) (kwargs : list (string * value))
    (pre post : list (node * node_attr))
    (d : gmap string value) (c : gmap string Z) :
  order (mem_base self) = pre ++ post →
  dependency_ordered (order (mem_base self)) →
  counter self = usage_count (order (mem_base self)) (returns (mem_base self)) →
  run_order (MemHandler_methods fmt self) pre (MemHandler_initiate self kwargs) ()
    = (Ok (d, c), ()) →
  (∀ k, c !! k = Some 0 → d !! k = None)
  ∧ (∀ k, k ∈ all_parameters pre → k ∉ all_parameters post →
          k ∉ returns (mem_base self) →
          c !! k = Some 0 ∧ d !! k = None).
Proof.
  intros Hord Hdep Hcnt Hrun. rewrite Hord in Hdep, Hcnt.
  destruct (Mem_invariant fmt self _ _ _ _ _ _ Hdep Hcnt Hrun) as [Hc Hzero].
  split; [done |]. intros k Hpre Hpost Hreq.
  assert (c !! k = Some 0) as Hk; [| by auto].
  rewrite Hc, Hcnt, usage_count_lookup, references_app.
  assert (references k post = 0) as -> by (by apply occurrences_notin).
  assert (requested k (returns (mem_base self)) = 0) as ->
    by (unfold requested; by rewrite decide_False).
  apply occurrences_pos in Hpre. fold (references k pre) in Hpre.
  rewrite decide_True by lia. simpl. f_equal. lia.
Qed.

(** ** C1 *)

Lemma dict_comp_agree d1 d2 ps :
  (∀ k, k ∈ ps → d1 !! k = d2 !! k) → dict_comp d1 ps = dict_comp d2 ps.
Proof.
  induction ps as [|p ps IH]; intros Hagree; simpl; [done |].
  unfold getitem. rewrite (Hagree p) by set_solver.
  rewrite IH; [done |]. intros k Hk. apply Hagree. set_solver.
Qed.

Lemma dict_comp_present d ps kw :
  dict_comp d ps = Ok kw → ∀ k, k ∈ ps → is_Some (d !! k).
Proof.
  revert kw. induction ps as [|p ps IH]; intros kw Hkw k Hin; [by inversion Hin |].
  simpl in Hkw. apply rbind_Ok in Hkw as (v & Hv%getitem_Ok & Hrest).
  apply rbind_Ok in Hrest as (kw' & Hkw' & _).
  apply list_elem_of_In in Hin. simpl in Hin.
  destruct Hin as [<- | Hin%list_elem_of_In]; [by eexists | by eapply IH].
Qed.

Lemma getitems_agree d1 d2 rts :
  (∀ k, k ∈ rts → d1 !! k = d2 !! k) → getitems d1 rts = getitems d2 rts.
Proof.
  induction rts as [|r rts IH]; intros Hagree; simpl; [done |].
  unfold getitem. rewrite (Hagree r) by set_solver.
  rewrite IH; [done |]. intros k Hk. apply Hagree. set_solver.
Qed.

Lemma PlainHandler_finish_agree d1 d2 rts :
  (∀ k, k ∈ rts → d1 !! k = d2 !! k) →
  PlainHandler_finish d1 rts = PlainHandler_finish d2 rts.
Proof.
  intros Hagree. unfold PlainHandler_finish. destruct rts as [|r1 [|r2 rts]].
  - done.
  - unfold getitem. rewrite (Hagree r1) by set_solver. done.
  - by rewrite (getitems_agree d1 d2).
Qed.

Lemma store_output_items rts out d :
  store_output rts out d = (items ←! output_items rts out; Ok (dict_update d items)).
Proof. unfold store_output, output_items. by destruct rts as [|r1 [|r2 rts]], (py_iter out). Qed.

(** The same outputs stored into two dictionaries: both stores succeed
    or both raise the same error, and a key the dictionaries agreed on
    they still agree on. *)
Lemma store_output_agree rts out d1 d2 :
  match store_output rts out d1, store_output rts out d2 with
  | Ok d1', Ok d2' =>
      (∀ k, d1 !! k = d2 !! k → d1' !! k = d2' !! k)
      ∧ (∀ k, is_Some (d1 !! k) → is_Some (d1' !! k))
  | Raise e1, Raise e2 => e1 = e2
  | _, _ => False
  end.
Proof.
  rewrite !store_output_items. destruct (output_items rts out) as [items|e]; simpl;
    [| done].
  split.
  - intros k Hk. by apply dict_update_lookup_agree.
  - intros k. revert d1. clear d2.
    induction items as [|[k' v'] items IH]; intros d1 Hk; [done |].
    rewrite dict_update_cons. apply IH. simpl.
    destruct (decide (k' = k)) as [->|Hne].
    + rewrite lookup_insert_eq. by eexists.
    + by rewrite lookup_insert_ne.
Qed.

(** Eviction against a counter that holds the remaining uses: with
    [later k] uses of [k] after this node, the loop succeeds and keeps
    every entry that is still to be used. *)
Lemma evict_agree (later : string → Z) ps (dP dM : gmap string value)
    (c : gmap string Z) :
  (∀ k, 0 ≤ later k) →
  (∀ k, k ∈ ps → is_Some (dP !! k)) →
  (∀ k, 0 < occurrences k ps + later k →
        c !! k = Some (occurrences k ps + later k) ∧ dM !! k = dP !! k) →
  ∃ dM' c', evict ps dM c = Ok (dM', c')
            ∧ ∀ k, 0 < later k → c' !! k = Some (later k) ∧ dM' !! k = dP !! k.
Proof.
  intros Hnn. revert dM c. induction ps as [|key ps IH]; intros dM c Hpres Hagree.
  - exists dM, c. split; [done |]. intros k Hk.
    specialize (Hagree k). simpl in Hagree. apply Hagree. lia.
  - simpl.
    pose proof (occurrences_nonneg key ps) as Hocc.
    destruct (Hagree key) as [Hc Hd].
    { simpl. rewrite decide_True by done. specialize (Hnn key). lia. }
    simpl in Hc. rewrite decide_True in Hc by done. rewrite Hc.
    destruct (Hpres key) as [v Hv]; [set_solver |].
    assert (∀ k, k ≠ key →
              occurrences k (key :: ps) = occurrences k ps) as Hother.
    { intros k Hne. simpl. by rewrite decide_False. }
    case_decide as Hzero.
    + rewrite Hd, Hv. apply IH; [intros k Hk; apply Hpres; set_solver |].
      intros k Hk. destruct (decide (k = key)) as [->|Hne]; [lia |].
      rewrite lookup_insert_ne, lookup_delete_ne by done.
      rewrite <- (Hother k Hne). apply Hagree. rewrite (Hother k Hne). done.
    + apply IH; [intros k Hk; apply Hpres; set_solver |].
      intros k Hk. destruct (decide (k = key)) as [->|Hne].
      * rewrite lookup_insert_eq. split; [f_equal; lia | done].
      * rewrite lookup_insert_ne by done.
        rewrite <- (Hother k Hne). apply Hagree. rewrite (Hother k Hne). done.
Qed.

(** Counted eviction against retain-all, node by node: while the counter
    holds the remaining uses of every name still to be used, and the two
    mappings agree on those names, a node does the same in both. *)
Lemma Mem_Plain_run_node (later : string → Z) n attr dP dM c :
  (∀ k, 0 ≤ later k) →
  (∀ k, 0 < occurrences k (parameters attr) + later k →
        c !! k = Some (occurrences k (parameters attr) + later k)
        ∧ dM !! k = dP !! k) →
  match PlainHandler_run_node dP n attr, MemHandler_run_node (dM, c) n attr with
  | Ok dP', Ok (dM', c') =>
      ∀ k, 0 < later k → c' !! k = Some (later k) ∧ dM' !! k = dP' !! k
  | Raise e1, Raise e2 => e1 = e2
  | _, _ => False
  end.
Proof.
  intros Hnn Hagree. unfold PlainHandler_run_node, MemHandler_run_node.
  assert (dict_comp dM (parameters attr) = dict_comp dP (parameters attr)) as ->.
  { apply dict_comp_agree. intros k Hk. apply Hagree.
    apply occurrences_pos in Hk. specialize (Hnn k). lia. }
  destruct (dict_comp dP (parameters attr)) as [kw|e] eqn:Hkw; simpl; [| done].
  destruct (obj attr kw) as [out|e]; simpl; [| done].
  pose proof (store_output_agree (node_returns attr) out dP dM) as Hstore.
  destruct (store_output _ out dP) as [dP1|e1], (store_output _ out dM) as [dM1|e2];
    simpl; try done.
  destruct Hstore as [Hsame Hkeep].
  destruct (evict_agree later (parameters attr) dP1 dM1 c Hnn)
    as (dM' & c' & -> & Hafter).
  - intros k Hk. apply Hkeep. by eapply dict_comp_present.
  - intros k Hk. destruct (Hagree k Hk) as [Hc Hd]. split; [done |].
    symmetry. by apply Hsame.
  - done.
Qed.

Arguments MemHandler_run_node : simpl never.
Arguments PlainHandler_run_node : simpl never.

Lemma Mem_Plain_run_order {graph} fmt (self : MemHandler graph) rts ord dP dM c :
  (∀ k, 0 < references k ord + requested k rts →
        c !! k = Some (references k ord + requested k rts)
        ∧ dM !! k = dP !! k) →
  match (run_order (PlainHandler_methods fmt) ord dP ()).1,
        (run_order (MemHandler_methods fmt self) ord (dM, c) ()).1 with
  | Ok dP', Ok (dM', c') => ∀ k, k ∈ rts → dM' !! k = dP' !! k
  | Raise e1, Raise e2 => e1 = e2
  | _, _ => False
  end.
Proof.
  revert dP dM c. induction ord as [|[n attr] ord IH]; intros dP dM c Hagree.
  - simpl. intros k Hk. apply Hagree. unfold references, requested. simpl.
    rewrite decide_True by done. lia.
  - simpl. unfold pure_method.
    assert (∀ k, 0 ≤ references k ord + requested k rts) as Hnn.
    { intros k. pose proof (references_nonneg k ord). unfold requested.
      case_decide; lia. }
    pose proof (Mem_Plain_run_node
                  (λ k, references k ord + requested k rts) n attr dP dM c Hnn)
      as Hnode.
    cbv beta in Hnode.
    assert (∀ k, 0 < occurrences k (parameters attr)
                     + (references k ord + requested k rts) →
                 c !! k = Some (occurrences k (parameters attr)
                                + (references k ord + requested k rts))
                 ∧ dM !! k = dP !! k) as Hhere.
    { intros k Hk. specialize (Hagree k). rewrite references_cons in Hagree.
      rewrite Z.add_assoc. apply Hagree. lia. }
    specialize (Hnode Hhere).
    destruct (PlainHandler_run_node dP n attr) as [dP1|e1],
             (MemHandler_run_node (dM, c) n attr) as [[dM1 c1]|e2]; simpl;
      try done.
    + by apply IH.
    + subst e2. by destruct (is_Exception e1).
Qed.

Lemma MemHandler_call_eq_Plain {graph} fmt (base : TopologicalHandler graph)
    (kwargs : list (string * value)) :
  MemHandler_call fmt
    {| mem_base := base; counter := usage_count (order base) (returns base) |}
    kwargs
  = PlainHandler_call fmt base kwargs.
Proof.
  unfold MemHandler_call, PlainHandler_call, call. simpl. unfold pure_method.
  set (self := {| mem_base := base; counter := _ |}).
  pose proof (Mem_Plain_run_order fmt self (returns base) (order base)
                (PlainHandler_initiate kwargs) (PlainHandler_initiate kwargs)
                (usage_count (order base) (returns base))) as Hrun.
  unfold MemHandler_initiate. simpl.
  destruct (run_order (PlainHandler_methods fmt) _ _ ()) as [[dP|e1] []],
           (run_order (MemHandler_methods fmt self) _ _ ()) as [[[dM c]|e2] []];
    simpl in *.
  - unfold MemHandler_finish. simpl. apply PlainHandler_finish_agree.
    apply Hrun. intros k Hk. rewrite usage_count_lookup.
    by rewrite decide_True by done.
  - exfalso. apply Hrun. intros k Hk. rewrite usage_count_lookup.
    by rewrite decide_True by done.
  - exfalso. apply Hrun. intros k Hk. rewrite usage_count_lookup.
    by rewrite decide_True by done.
  - f_equal. symmetry. apply Hrun. intros k Hk. rewrite usage_count_lookup.
    by rewrite decide_True by done.
Qed.

(** The items a node hands to [write] are named by return names of the
    node, each once when the return names are distinct. *)
Lemma output_items_keys rts out items :
  output_items rts out = Ok items →
  NoDup rts →
  NoDup items.*1 ∧ ∀ k, k ∈ items.*1 → k ∈ rts.
Proof.
  intros Hitems Hnd.
  assert (∀ vs : list value,
            NoDup (py_dict (zip rts vs)).*1
            ∧ ∀ k, k ∈ (py_dict (zip rts vs)).*1 → k ∈ rts) as Hzip.
  { intros vs. rewrite py_dict_NoDup by (by apply zip_fst_NoDup).
    split; [by apply zip_fst_NoDup |].
    intros k Hk. apply list_elem_of_fmap in Hk as ([k' x] & -> & Hin).
    by apply elem_of_zip_l in Hin. }
  unfold output_items in Hitems. destruct rts as [|r1 [|r2 rts]].
  - apply rbind_Ok in Hitems as (vs & _ & [= <-]). apply (Hzip vs).
  - injection Hitems as <-. simpl. split; [apply NoDup_singleton | done].
  - apply rbind_Ok in Hitems as (vs & _ & [= <-]). apply (Hzip vs).
Qed.

(** The Durable-Persisted strategy follows retain-all step by step as
    long as the store accepts the writes: the datasets of the group of
    the call are the dictionary of [PlainHandler]. *)
Section H5_simulation.
Context {H : Type} `{H5Backend H} {graph : Type}.
Variable view : H → string → option (gmap string value).
Variable storable : value → Prop.
Hypothesis laws : write_once_store view storable.

Lemma H5Handler_write_sim items g (st : h5_state H) d :
  view (h5 st) g = Some d →
  NoDup items.*1 →
  (∀ k, k ∈ items.*1 → d !! k = None) →
  Forall (λ kv, storable kv.2) items →
  ∃ st', H5Handler_write items g st = (Ok (), st')
         ∧ view (h5 st') g = Some (dict_update d items).
Proof using laws.
  destruct laws as (_ & Hwrite & _ & _).
  revert st d. induction items as [|[k v] items IH];
    intros st d Hview Hnd Hfresh Hst; simpl.
  - by exists st.
  - simpl in Hnd. apply NoDup_cons in Hnd as [Hk Hnd].
    apply Forall_cons in Hst as [Hv Hst]. unfold lib_call. simpl.
    assert (d !! k = None) as Hnone by (apply Hfresh; simpl; set_solver).
    destruct (Hwrite g k v (h5 st) d Hview Hnone Hv) as (lib' & -> & Hview').
    apply IH; [by simpl | done | | done].
    intros k' Hk'. rewrite lookup_insert_ne by (intros ->; done).
    apply Hfresh. simpl. set_solver.
Qed.

Lemma read_comp_sim ps g (st : h5_state H) d :
  view (h5 st) g = Some d →
  (read_comp ps g st).1 = dict_comp d ps
  ∧ h5 (read_comp ps g st).2 = h5 st.
Proof using laws.
  destruct laws as (_ & _ & Hread & _).
  revert st. induction ps as [|p ps IH]; intros st Hview; simpl; [done |].
  rewrite (Hread g p (h5 st) d Hview).
  destruct (getitem d p) as [v|e]; simpl; [| done].
  destruct (IH (log (EvRead g p) st) Hview) as [Hres Hlib].
  destruct (read_comp ps g (log (EvRead g p) st)) as [[kw|e] st2];
    simpl in *; by rewrite <- Hres.
Qed.

Lemma read_all_sim rts g (st : h5_state H) d :
  view (h5 st) g = Some d → (read_all rts g st).1 = getitems d rts.
Proof using laws.
  destruct laws as (_ & _ & Hread & _).
  revert st. induction rts as [|r rts IH]; intros st Hview; simpl; [done |].
  rewrite (Hread g r (h5 st) d Hview).
  destruct (getitem d r) as [v|e]; simpl; [| done].
  specialize (IH (log (EvRead g r) st) Hview).
  destruct (read_all rts g (log (EvRead g r) st)) as [[vs|e] st2];
    simpl in *; by rewrite <- IH.
Qed.

Lemma H5Handler_run_node_sim f g n attr (st : h5_state H) d :
  view (h5 st) g = Some d →
  NoDup (node_returns attr) →
  (∀ k, k ∈ node_returns attr → d !! k = None) →
  storable_outputs storable attr →
  match PlainHandler_run_node d n attr with
  | Ok d' =>
      (∃ st', H5Handler_run_node (f, g) n attr st = (Ok (f, g), st')
              ∧ view (h5 st') g = Some d')
      ∧ ∀ k, is_Some (d' !! k) → is_Some (d !! k) ∨ k ∈ node_returns attr
  | Raise e => ∃ st', H5Handler_run_node (f, g) n attr st = (Raise e, st')
  end.
Proof using laws.
  intros Hview Hnd Hfresh Hst. unfold PlainHandler_run_node, H5Handler_run_node.
  simpl.
  destruct (read_comp_sim (parameters attr) g st d Hview) as [Hres Hlib].
  destruct (read_comp (parameters attr) g st) as [r st1]. simpl in Hres, Hlib.
  subst r. destruct (dict_comp d (parameters attr)) as [kw|e]; simpl;
    [| by eexists].
  destruct (obj attr kw) as [out|e] eqn:Hobj; simpl; [| by eexists].
  rewrite store_output_items.
  destruct (output_items (node_returns attr) out) as [items|e] eqn:Hitems; simpl;
    [| by eexists].
  destruct (output_items_keys _ _ _ Hitems Hnd) as [Hnd' Hkeys].
  rewrite <- Hlib in Hview.
  destruct (H5Handler_write_sim items g st1 d Hview Hnd')
    as (st2 & -> & Hview2).
  - intros k Hk. apply Hfresh. by apply Hkeys.
  - by eapply Hst.
  - split; [by exists st2 |].
    intros k Hk. destruct (decide (k ∈ items.*1)) as [Hin|Hnot].
    + right. by apply Hkeys.
    + left. by rewrite dict_update_lookup_notin in Hk.
Qed.

Lemma H5Handler_finish_sim f g rts (st : h5_state H) d :
  view (h5 st) g = Some d →
  (H5Handler_finish (f, g) rts st).1 = PlainHandler_finish d rts.
Proof using laws.
  intros Hview. unfold H5Handler_finish, PlainHandler_finish.
  pose proof (read_all_sim rts g st d Hview) as Hall.
  destruct laws as (_ & _ & Hread & Hclose).
  assert (∀ st1 : h5_state H, ∃ st2, H5Handler_close f st1 = (Ok (), st2))
    as Hcloses.
  { intros st1. unfold H5Handler_close, lib_call. simpl.
    specialize (Hclose f (h5 st1)).
    destruct (h5py_close f (h5 st1)); [by eexists | discriminate]. }
  destruct rts as [|r1 [|r2 rts]].
  - cbn [read_all]. by destruct (Hcloses st) as [st2 ->].
  - unfold H5Handler_read. simpl. rewrite (Hread g r1 (h5 st) d Hview).
    destruct (getitem d r1); [| done].
    by destruct (Hcloses (log (EvRead g r1) st)) as [st2 ->].
  - destruct (read_all (r1 :: r2 :: rts) g st) as [[vs|e] st1];
      cbn [fst] in Hall; rewrite <- Hall; [| done].
    by destruct (Hcloses st1) as [st2 ->].
Qed.

Variable fmt : node → node_attr → string.
Variable self : H5Handler graph.

Lemma H5_run_order_sim ord f g (st : h5_state H) d (names : list string) :
  view (h5 st) g = Some d →
  (∀ k, is_Some (d !! k) → k ∈ names) →
  NoDup (names ++ flat_map (λ na, node_returns na.2) ord) →
  Forall (λ na, storable_outputs storable na.2) ord →
  match (run_order (PlainHandler_methods fmt) ord d ()).1 with
  | Ok d' => ∃ st', run_order (H5Handler_methods fmt self) ord (f, g) st
                      = (Ok (f, g), st')
                    ∧ view (h5 st') g = Some d'
  | Raise e => is_ok (run_order (H5Handler_methods fmt self) ord (f, g) st).1
               = false
  end.
Proof using laws.
  revert st d names. induction ord as [|[n attr] ord IH];
    intros st d names Hview Hdom Hnd Hst;
    cbn [run_order run_node raise_node_exception PlainHandler_methods
         H5Handler_methods]; unfold pure_method.
  - by exists st.
  - cbn [flat_map snd] in Hnd. apply Forall_cons in Hst as [Hattr Hst].
    pose proof Hnd as Hnd0.
    apply NoDup_app in Hnd as (_ & Hdisj & Hnd).
    apply NoDup_app in Hnd as (Hrets & _ & _).
    assert (∀ k, k ∈ node_returns attr → d !! k = None) as Hfresh.
    { intros k Hk. destruct (d !! k) as [v|] eqn:Hdk; [| done].
      exfalso. apply (Hdisj k); [| set_solver].
      apply Hdom. by rewrite Hdk. }
    pose proof (H5Handler_run_node_sim f g n attr st d Hview Hrets Hfresh Hattr)
      as Hnode.
    destruct (PlainHandler_run_node d n attr) as [d1|e].
    + destruct Hnode as [(st1 & -> & Hview1) Hdom1].
      apply (IH st1 d1 (names ++ node_returns attr)); [done | | | done].
      * intros k Hk. destruct (Hdom1 k Hk); set_solver.
      * by rewrite <- app_assoc.
    + destruct Hnode as (st1 & ->). destruct (is_Exception e); [| done].
      pose proof (H5Handler_raise_node_exception_raises fmt (f, g) n attr e st1)
        as Hraises.
      unfold PlainHandler_raise_node_exception. cbn [fst].
      by destruct (H5Handler_raise_node_exception fmt (f, g) n attr e st1)
        as [[d2|e2] st2].
Qed.

Lemma H5Handler_initiate_sim kwargs (st : h5_state H) lib1 lib2 :
  let g := exe_group_name (self_id self) (exe_count st + 1) in
  h5py_File (h5_filename self) "a" (h5 st) = Ok lib1 →
  h5py_create_group (h5_filename self) g lib1 = Ok lib2 →
  NoDup kwargs.*1 →
  Forall (λ kv, storable kv.2) kwargs →
  ∃ st1, H5Handler_initiate self kwargs st = (Ok (h5_filename self, g), st1)
         ∧ view (h5 st1) g = Some (PlainHandler_initiate kwargs).
Proof using laws.
  intros g Hfile Hgroup Hnd Hst. unfold H5Handler_initiate, lib_call. simpl.
  rewrite Hfile. simpl. fold g. rewrite Hgroup. simpl.
  destruct laws as (Hempty & _ & _ & _).
  pose proof (Hempty _ _ _ _ Hgroup) as Hview.
  set (st2 := set_h5 lib2 _).
  destruct (H5Handler_write_sim kwargs g st2 ∅ Hview Hnd) as (st3 & -> & Hview3);
    [by intros | done |].
  by exists st3.
Qed.

Lemma H5Handler_call_sim kwargs (st : h5_state H) lib1 lib2 :
  h5py_File (h5_filename self) "a" (h5 st) = Ok lib1 →
  h5py_create_group (h5_filename self)
    (exe_group_name (self_id self) (exe_count st + 1)) lib1 = Ok lib2 →
  NoDup (written_names kwargs (order (h5_base self))) →
  Forall (λ kv, storable kv.2) kwargs →
  Forall (λ na, storable_outputs storable na.2) (order (h5_base self)) →
  match PlainHandler_call fmt (h5_base self) kwargs with
  | Ok v => (H5Handler_call fmt self kwargs st).1 = Ok v
  | Raise e => is_ok (H5Handler_call fmt self kwargs st).1 = false
  end.
Proof using laws.
  intros Hfile Hgroup Hnd Hin Hout.
  unfold H5Handler_call, PlainHandler_call, call.
  cbn [initiate finish PlainHandler_methods H5Handler_methods].
  unfold pure_method.
  assert (NoDup kwargs.*1) as Hnd1 by (by apply NoDup_app in Hnd as (? & _)).
  destruct (H5Handler_initiate_sim kwargs st lib1 lib2 Hfile Hgroup Hnd1 Hin)
    as (st1 & -> & Hview).
  pose proof (H5_run_order_sim (order (h5_base self)) (h5_filename self) _
                st1 _ kwargs.*1 Hview) as Hrun.
  destruct (run_order (PlainHandler_methods fmt) _ _ ()) as [[d|e] []];
    cbn [fst] in *.
  - destruct Hrun as (st2 & -> & Hview2); [| done | done |].
    { intros k Hk. destruct (decide (k ∈ kwargs.*1)) as [|Hnot]; [done |].
      unfold PlainHandler_initiate in Hk.
      rewrite dict_update_lookup_notin, lookup_empty in Hk by done.
      by destruct Hk. }
    rewrite (H5Handler_finish_sim _ _ _ _ _ Hview2).
    by destruct (PlainHandler_finish d (returns (h5_base self))).
  - assert (is_ok (run_order (H5Handler_methods fmt self) (order (h5_base self))
                     (h5_filename self,
                      exe_group_name (self_id self) (exe_count st + 1)) st1).1
            = false) as Hraise.
    { apply Hrun; [| done | done].
      intros k Hk. destruct (decide (k ∈ kwargs.*1)) as [|Hnot]; [done |].
      unfold PlainHandler_initiate in Hk.
      rewrite dict_update_lookup_notin, lookup_empty in Hk by done.
      by destruct Hk. }
    by destruct (run_order (H5Handler_methods fmt self) _ _ st1)
      as [[d'|e'] st2].
Qed.
End H5_simulation.



(** * The properties on the example *)

(** The backend that refuses an existing name is a store of the kind
    assumed above, whatever the values. *)
Lemma once_backend_laws :
  write_once_store (H0 := once_backend) keyed_view (λ _, True).
Proof.
  unfold write_once_store, keyed_view. split; [| split; [| split]].
  - intros f g lib lib'. simpl. unfold once_create_group.
    destruct (groups lib !! g); [discriminate |].
    intros [= <-]. simpl. apply lookup_insert_eq.
  - intros g key v lib d Hd Hnone _. eexists. simpl.
    unfold once_create_dataset. rewrite Hd, Hnone.
    split; [reflexivity |]. simpl. apply lookup_insert_eq.
  - intros g key lib d Hd. simpl. unfold keyed_getitem. by rewrite Hd.
  - done.
Qed.

(** The scenario of the documentation: [c = 5] is consumed by
    [multiply] and evicted, [e = 50] is returned. *)
Example example_call_plain :
  PlainHandler_call example_fmt example_handler example_inputs = Ok (VInt 50).
Proof. by vm_compute. Qed.

Example example_call_mem :
  MemHandler_call example_fmt example_mem example_inputs = Ok (VInt 50)
  ∧ (run_order (MemHandler_methods example_fmt example_mem) example_order
       (MemHandler_initiate example_mem example_inputs) ()).1
    = Ok (dict_update ∅ [("e", VInt 50)],
          list_to_map [("a", 0); ("b", 0); ("c", 0); ("d", 0); ("e", 1)]).
Proof. split; by vm_compute. Qed.

Example example_call_h5 :
  let r := H5Handler_call example_fmt example_h5 example_inputs
             (h5_state_init keyed_empty) in
  r.1 = Ok (VInt 50)
  ∧ exe_count r.2 = 1
  ∧ trace r.2
    = [EvFile "model.h5" "a"; EvCreateGroup "model.h5" "140_1";
       EvCreateDataset "140_1" "a" (VInt 2);
       EvCreateDataset "140_1" "b" (VInt 3);
       EvCreateDataset "140_1" "d" (VInt 10);
       EvRead "140_1" "a"; EvRead "140_1" "b";
       EvCreateDataset "140_1" "c" (VInt 5);
       EvRead "140_1" "c"; EvRead "140_1" "d";
       EvCreateDataset "140_1" "e" (VInt 50);
       EvRead "140_1" "e"; EvClose "model.h5"].
Proof. split_and!; by vm_compute. Qed.

(** The second call on the same handler works in the group ["140_2"]. *)
Example example_second_call_h5 :
  let st := H5Handler_calls example_fmt example_h5 [example_inputs]
              (h5_state_init keyed_empty) in
  (H5Handler_initiate example_h5 example_inputs st).1
  = Ok ("model.h5", "140_2").
Proof. by vm_compute. Qed.

(** A callable that raises [KeyboardInterrupt] is not caught either:
    the call of [PlainHandler] ends with the interrupt itself. *)
Example interrupt_is_not_caught :
  let interrupt_attr :=
    {| obj kwargs := Raise (Raised "KeyboardInterrupt" "");
       parameters := ["a"]; node_returns := ["c"] |} in
  (call (PlainHandler_methods example_fmt) [("interrupt", interrupt_attr)]
     ["c"] example_inputs ()).1
  = Raise (Raised "KeyboardInterrupt" "").
Proof. by vm_compute. Qed.

(** When the library refuses the note, the call raises the error of
    the library in place of the chained one, [close] is not called and
    the file stays open. *)
Example refused_note_skips_close :
  let r := H5Handler_call (H0 := noteless_backend) example_fmt divide_h5
             zero_inputs (h5_state_init keyed_empty) in
  r.1 = Raise (Raised "OSError" "unable to create attribute")
  ∧ last (trace r.2)
    = Some (EvSetAttr "140_1" "note"
              "ZeroDivisionError occurred for node ('divide', {...}): integer division or modulo by zero")
  ∧ handle_open "model.h5" (trace r.2) = true.
Proof. intros r. split; [| split]; by vm_compute. Qed.


Lemma eviction_invariant_witness :
  let dc := match (run_order (MemHandler_methods example_fmt example_mem)
                     [("add", add_attr)]
                     (MemHandler_initiate example_mem example_inputs) ()).1 with
            | Ok dc => dc
            | Raise _ => (∅, ∅)
            end in
  (∀ k, dc.2 !! k = Some 0 → dc.1 !! k = None)
  ∧ (∀ k, k ∈ all_parameters [("add", add_attr)] →
          k ∉ all_parameters [("multiply", multiply_attr)] →
          k ∉ returns (mem_base example_mem) →
          dc.2 !! k = Some 0 ∧ dc.1 !! k = None).
Proof.
  apply (eviction_invariant example_fmt example_mem example_inputs
           [("add", add_attr)] [("multiply", multiply_attr)]).
  - reflexivity.
  - simpl. split_and!; try done; intros key Hkey; set_solver.
  - reflexivity.
  - by vm_compute.
Defined.

Lemma node_exception_is_wrapped_witness :
  PlainHandler_call example_fmt divide_handler zero_inputs
  = Raise (Chained "Exception occurred for node ('divide', {...})"
             (Raised "ZeroDivisionError" "integer division or modulo by zero")).
Proof.
  refine (proj1 (node_exception_is_wrapped (H := keyed_file) example_fmt
            divide_handler ∅ "model.h5" 140 zero_inputs
            [("add", add_attr)] [] "divide" divide_attr
            (Raised "ZeroDivisionError" "integer division or modulo by zero")
            eq_refl)
          (dict_update ∅ [("a", VInt 2); ("b", VInt 3); ("d", VInt 0);
                          ("c", VInt 5)])
          (dict_update ∅ [("d", VInt 0); ("c", VInt 5)]) _ _ _).
  - by vm_compute.
  - by vm_compute.
  - by vm_compute.
Defined.

Lemma run_node_stores_outputs_witness :
  PlainHandler_run_node (dict_update ∅ [("a", VInt 2); ("b", VInt 3)])
    "add" add_attr
  = Ok (<["c" := VInt 5]> (dict_update ∅ [("a", VInt 2); ("b", VInt 3)])).
Proof.
  refine (proj1 (proj1 (proj1 (run_node_stores_outputs (H := keyed_file)
            (dict_update ∅ [("a", VInt 2); ("b", VInt 3)])
            (dict_update ∅ [("b", VInt 3); ("a", VInt 2)])
            ∅ "add" add_attr (VInt 5) "model.h5" "140_1"
            (h5_state_init keyed_empty) (h5_state_init keyed_empty) _) _)
          "c" eq_refl)).
  - by vm_compute.
  - by vm_compute.
Defined.


Lemma call_returns_requested_values_witness :
  Sorted str_le (sorted (["e"] ++ ["c"]))
  ∧ ∃ rts, Ok ["e"] = Ok rts ∧ sorted (["e"] ++ ["c"]) ≡ₚ rts ++ ["c"].
Proof.
  exact (proj1 (call_returns_requested_values (H := keyed_file) (graph := unit)
           (λ _, Ok ["a"; "b"; "d"]) (λ _, Ok ["e"])
           (λ _, Ok example_order) (λ _, Ok ()) () ["c"]
           {| __signature__ := ["a"; "b"; "d"];
              returns := sorted (["e"] ++ ["c"]);
              order := example_order; handler_graph := () |}
           example_fmt ∅ "model.h5" 140 example_inputs eq_refl)).
Defined.

Lemma eviction_deletes_fresh_output_witness :
  let d := dict_update ∅ [("x", VInt 1)] in
  let c : gmap string Z := <["x" := 1]> ∅ in
  MemHandler_run_node (d, c) "bump" bump_attr = Ok (∅, <["x" := 0]> ∅)
  ∧ (∅ : gmap string value) !! "x" = None
  ∧ ∃ k, MemHandler_finish (∅, <["x" := 0]> ∅) ["x"] = Raise (KeyError k).
Proof.
  intros d c.
  assert (MemHandler_run_node (d, c) "bump" bump_attr = Ok (∅, <["x" := 0]> ∅))
    as Hrun by (by vm_compute).
  destruct (eviction_deletes_fresh_output d ∅ c (<["x" := 0]> ∅) "bump"
              bump_attr "x" 1 Hrun) as (_ & Hgone & Hfinish & _).
  - set_solver.
  - set_solver.
  - by vm_compute.
  - by vm_compute.
  - split; [exact Hrun |]. split; [exact Hgone |]. apply Hfinish. set_solver.
Defined.

(** * Further properties of the handlers *)

(** ** Eviction is sound for every counter *)

Lemma dict_comp_subseteq (dM dP : gmap string value) ps kw :
  dM ⊆ dP → dict_comp dM ps = Ok kw → dict_comp dP ps = Ok kw.
Proof.
  intros Hsub. revert kw. induction ps as [|p ps IH]; intros kw; simpl; [done |].
  intros (v & Hv%getitem_Ok & Hrest)%rbind_Ok.
  apply rbind_Ok in Hrest as (kw' & Hkw' & [= <-]).
  assert (getitem dP p = Ok v) as ->.
  { apply getitem_Ok. by eapply lookup_weaken. }
  simpl. by rewrite (IH kw').
Qed.

Lemma dict_update_subseteq (dM dP : gmap string value) items :
  dM ⊆ dP → dict_update dM items ⊆ dict_update dP items.
Proof.
  revert dM dP. induction items as [|[k v] items IH]; intros dM dP Hsub; [done |].
  rewrite !dict_update_cons. apply IH. simpl. by apply insert_mono.
Qed.

Lemma store_output_subseteq rts out (dM dP dM1 : gmap string value) :
  dM ⊆ dP → store_output rts out dM = Ok dM1 →
  ∃ dP1, store_output rts out dP = Ok dP1 ∧ dM1 ⊆ dP1.
Proof.
  intros Hsub. rewrite !store_output_items.
  intros (items & -> & [= <-])%rbind_Ok. simpl.
  eexists. split; [done |]. by apply dict_update_subseteq.
Qed.

Lemma evict_subseteq ps (d d' : gmap string value) (c c' : gmap string Z) :
  evict ps d c = Ok (d', c') → d' ⊆ d.
Proof.
  intros Hev. apply map_subseteq_spec. intros k v Hk.
  destruct (evict_spec _ _ _ _ _ Hev k) as (_ & [Hnone | Heq] & _); congruence.
Qed.

Lemma Mem_run_node_subseteq n attr (dM dP dM' : gmap string value)
    (c c' : gmap string Z) :
  dM ⊆ dP → MemHandler_run_node (dM, c) n attr = Ok (dM', c') →
  ∃ dP', PlainHandler_run_node dP n attr = Ok dP' ∧ dM' ⊆ dP'.
Proof.
  intros Hsub Hrun.
  destruct (MemHandler_run_node_Ok _ _ _ _ _ _ Hrun)
    as (kw & out & dM1 & Hkw & Hout & Hstore & Hev).
  destruct (store_output_subseteq _ _ _ _ _ Hsub Hstore) as (dP1 & HP & Hsub1).
  exists dP1. split.
  - unfold PlainHandler_run_node.
    rewrite (dict_comp_subseteq _ _ _ _ Hsub Hkw). simpl. by rewrite Hout.
  - etrans; [by eapply evict_subseteq | done].
Qed.

Lemma Mem_run_order_subseteq {graph} fmt (self : MemHandler graph) ord
    (dM dP dM' : gmap string value) (c c' : gmap string Z) :
  dM ⊆ dP →
  (run_order (MemHandler_methods fmt self) ord (dM, c) ()).1 = Ok (dM', c') →
  ∃ dP', (run_order (PlainHandler_methods fmt) ord dP ()).1 = Ok dP' ∧ dM' ⊆ dP'.
Proof.
  revert dM dP c. induction ord as [|[n attr] ord IH]; intros dM dP c Hsub; simpl.
  - intros [= <- <-]. by exists dP.
  - unfold pure_method.
    destruct (MemHandler_run_node (dM, c) n attr) as [[dM1 c1]|e] eqn:Hnode;
      [| by destruct (is_Exception e)].
    destruct (Mem_run_node_subseteq _ _ _ _ _ _ _ Hsub Hnode) as (dP1 & -> & Hsub1).
    by apply IH.
Qed.

Lemma PlainHandler_finish_subseteq (dM dP : gmap string value) rts v :
  dM ⊆ dP → PlainHandler_finish dM rts = Ok v → PlainHandler_finish dP rts = Ok v.
Proof.
  intros Hsub Hfin.
  rewrite <- Hfin. symmetry. apply PlainHandler_finish_agree.
  intros k Hk. destruct (dM !! k) as [x|] eqn:Hx.
  - symmetry. by eapply lookup_weaken.
  - exfalso.
    assert (is_ok (PlainHandler_finish dM rts) = false) as Hno
      by (by eapply PlainHandler_finish_missing).
    by rewrite Hfin in Hno.
Qed.

(** X1: whatever counter a [MemHandler] holds, eviction never changes a
    result: when its call returns a value, the call of [PlainHandler] on
    the same plan, requested outputs and inputs returns that value. *)
Theorem eviction_never_changes_a_result {graph : Type}
    (fmt : node → node_attr → string) (self : MemHandler graph)
    (kwargs : list (string * value)) (v : value) :
  MemHandler_call fmt self kwargs = Ok v →
  PlainHandler_call fmt (mem_base self) kwargs = Ok v.
Proof.
  unfold MemHandler_call, PlainHandler_call, call. simpl. unfold pure_method.
  destruct (run_order (MemHandler_methods fmt self) _ _ ()) as [[[dM c]|e] []]
    eqn:Hrun; [| discriminate].
  intros Hfin. simpl in Hfin.
  destruct (Mem_run_order_subseteq fmt self (order (mem_base self))
              (PlainHandler_initiate kwargs) (PlainHandler_initiate kwargs)
              dM (counter self) c) as (dP & HP & Hsub).
  - done.
  - unfold MemHandler_initiate, PlainHandler_initiate in *. by rewrite Hrun.
  - destruct (run_order (PlainHandler_methods fmt) _ _ ()) as [[dP0|e] []];
      simpl in HP; [| discriminate].
    injection HP as ->. simpl.
    by eapply PlainHandler_finish_subseteq.
Qed.

Lemma eviction_never_changes_a_result_witness :
  PlainHandler_call example_fmt (mem_base example_mem) example_inputs
  = Ok (VInt 50).
Proof.
  apply (eviction_never_changes_a_result example_fmt example_mem example_inputs).
  by vm_compute.
Defined.

(** ** The counter and the plan must agree *)

Lemma evict_untracked ps (d : gmap string value) (c : gmap string Z) key :
  key ∈ ps → c !! key = None →
  ∃ k, evict ps d c = Raise (KeyError k) ∧ k ∈ ps.
Proof.
  revert d c. induction ps as [|p ps IH]; intros d c Hin Hnone;
    [by inversion Hin |]. simpl.
  destruct (c !! p) as [z|] eqn:Hz; [| exists p; split; [done | set_solver]].
  assert (p ≠ key) as Hne by congruence.
  assert (key ∈ ps) as Hin' by set_solver.
  assert (<[p := z - 1]> c !! key = None) as Hnone'
    by (by rewrite lookup_insert_ne).
  case_decide.
  - destruct (d !! p); [| exists p; split; [done | set_solver]].
    destruct (IH (delete p d) _ Hin' Hnone') as (k & -> & Hk).
    exists k. split; [done | set_solver].
  - destruct (IH d _ Hin' Hnone') as (k & -> & Hk).
    exists k. split; [done | set_solver].
Qed.

(** X2: a parameter of a node that the working counter does not track
    makes [MemHandler.run_node] fail: the node never succeeds, and once
    the callable has returned and its outputs are stored, the decrement
    loop raises [KeyError] on a parameter name. *)
Theorem untracked_parameter_fails_the_node (d : gmap string value)
    (c : gmap string Z) (n : node) (attr : node_attr) (key : string) :
  key ∈ parameters attr →
  c !! key = None →
  is_ok (MemHandler_run_node (d, c) n attr) = false
  ∧ (∀ kwargs func_output d1,
       dict_comp d (parameters attr) = Ok kwargs →
       obj attr kwargs = Ok func_output →
       store_output (node_returns attr) func_output d = Ok d1 →
       ∃ k, MemHandler_run_node (d, c) n attr = Raise (KeyError k)
            ∧ k ∈ parameters attr).
Proof.
  intros Hin Hnone.
  assert (∀ kwargs func_output d1,
            dict_comp d (parameters attr) = Ok kwargs →
            obj attr kwargs = Ok func_output →
            store_output (node_returns attr) func_output d = Ok d1 →
            ∃ k, MemHandler_run_node (d, c) n attr = Raise (KeyError k)
                 ∧ k ∈ parameters attr) as Hraise.
  { intros kw out d1 Hkw Hout Hstore.
    destruct (evict_untracked (parameters attr) d1 c key Hin Hnone)
      as (k & Hev & Hk).
    exists k. split; [| done]. unfold MemHandler_run_node.
    rewrite Hkw. simpl. rewrite Hout. simpl. by rewrite Hstore. }
  split; [| exact Hraise].
  destruct (MemHandler_run_node (d, c) n attr) as [[d' c']|e] eqn:Hrun; [| done].
  destruct (MemHandler_run_node_Ok _ _ _ _ _ _ Hrun)
    as (kw & out & d1 & Hkw & Hout & Hstore & _).
  destruct (Hraise kw out d1 Hkw Hout Hstore) as (k & Hk & _). congruence.
Qed.

Lemma untracked_parameter_fails_the_node_witness :
  is_ok (MemHandler_run_node
           (dict_update ∅ [("a", VInt 2); ("b", VInt 3)], ∅) "add" add_attr)
  = false.
Proof.
  refine (proj1 (untracked_parameter_fails_the_node
            (dict_update ∅ [("a", VInt 2); ("b", VInt 3)]) ∅ "add" add_attr
            "a" _ _)).
  - set_solver.
  - done.
Defined.

(** ** What a run changes *)

Lemma Mem_run_order_cons_Ok {graph} fmt (self : MemHandler graph) n attr ord
    dc0 dc :
  (run_order (MemHandler_methods fmt self) ((n, attr) :: ord) dc0 ()).1 = Ok dc →
  ∃ dc1, MemHandler_run_node dc0 n attr = Ok dc1
         ∧ (run_order (MemHandler_methods fmt self) ord dc1 ()).1 = Ok dc.
Proof.
  simpl. unfold pure_method.
  destruct (MemHandler_run_node dc0 n attr) as [dc1|e] eqn:Hnode;
    [| by destruct (is_Exception e)].
  intros Hrest. by exists dc1.
Qed.

(** X3: a successful run of [MemHandler] over a plan lowers the counter
    of every name by exactly the number of parameter references to it in
    the plan, adds and removes no counter, and leaves untouched the
    entry of a name that no node takes as parameter or returns. *)
Theorem mem_run_decrements_once_per_reference {graph : Type}
    (fmt : node → node_attr → string) (self : MemHandler graph)
    (ord : list (node * node_attr))
    (d0 d : gmap string value) (c0 c : gmap string Z) :
  (run_order (MemHandler_methods fmt self) ord (d0, c0) ()).1 = Ok (d, c) →
  (∀ k, c !! k = (λ z, z - references k ord) <$> c0 !! k)
  ∧ dom c = dom c0
  ∧ (∀ k, k ∉ all_parameters ord →
          k ∉ flat_map (λ na, node_returns na.2) ord →
          d !! k = d0 !! k).
Proof.
  intros Hrun.
  assert ((∀ k, c !! k = (λ z, z - references k ord) <$> c0 !! k)
          ∧ (∀ k, k ∉ all_parameters ord →
                  k ∉ flat_map (λ na, node_returns na.2) ord →
                  d !! k = d0 !! k)) as [Hc Hd].
  { revert d0 c0 Hrun. induction ord as [|[n attr] ord IH]; intros d0 c0 Hrun.
    - simpl in Hrun. injection Hrun as <- <-. split; [| done].
      intros k. unfold references. simpl.
      destruct (c0 !! k); simpl; [f_equal; lia | done].
    - apply Mem_run_order_cons_Ok in Hrun as ([d1 c1] & Hnode & Hrest).
      destruct (IH _ _ Hrest) as [Hc Hd].
      destruct (MemHandler_run_node_Ok _ _ _ _ _ _ Hnode)
        as (kw & out & d2 & _ & _ & Hstore & Hev).
      pose proof (evict_spec _ _ _ _ _ Hev) as Hspec. split.
      + intros k. destruct (Hspec k) as (Hc1 & _).
        rewrite Hc, Hc1, references_cons.
        destruct (c0 !! k); simpl; [f_equal; lia | done].
      + intros k Hpar Hret. unfold all_parameters in Hpar. simpl in Hpar, Hret.
        rewrite Hd by set_solver.
        destruct (Hspec k) as (_ & _ & Hother & _).
        rewrite Hother by set_solver.
        apply (store_output_other _ _ _ _ k Hstore). set_solver. }
  split; [done |]. split; [| done].
  apply set_eq. intros k. rewrite !elem_of_dom, Hc.
  by rewrite fmap_is_Some.
Qed.

Lemma mem_run_decrements_once_per_reference_witness :
  let dc := match (run_order (MemHandler_methods example_fmt example_mem)
                     example_order
                     (dict_update ∅ (("z", VInt 9) :: example_inputs),
                      counter example_mem) ()).1 with
            | Ok dc => dc
            | Raise _ => (∅, ∅)
            end in
  (∀ k, dc.2 !! k
        = (λ z, z - references k example_order) <$> counter example_mem !! k)
  ∧ dom dc.2 = dom (counter example_mem)
  ∧ (∀ k, k ∉ all_parameters example_order →
          k ∉ flat_map (λ na, node_returns na.2) example_order →
          dc.1 !! k = dict_update ∅ (("z", VInt 9) :: example_inputs) !! k).
Proof.
  apply (mem_run_decrements_once_per_reference example_fmt example_mem).
  by vm_compute.
Defined.

Lemma PlainHandler_run_node_Ok d n attr d' :
  PlainHandler_run_node d n attr = Ok d' →
  ∃ kwargs func_output,
    dict_comp d (parameters attr) = Ok kwargs
    ∧ obj attr kwargs = Ok func_output
    ∧ store_output (node_returns attr) func_output d = Ok d'.
Proof.
  unfold PlainHandler_run_node.
  intros (kw & Hkw & (out & Hout & Hstore)%rbind_Ok)%rbind_Ok.
  by exists kw, out.
Qed.

Lemma store_output_keeps rts out (d d' : gmap string value) k :
  store_output rts out d = Ok d' → is_Some (d !! k) → is_Some (d' !! k).
Proof.
  intros Hstore. pose proof (store_output_agree rts out d d) as Hagree.
  rewrite Hstore in Hagree. by apply Hagree.
Qed.

(** X4: [PlainHandler] retains everything: over a successful run of a
    plan no name leaves the mapping, so every input is still present at
    the end, and a name that no node returns keeps the value it had. *)
Theorem plain_run_retains_every_entry (fmt : node → node_attr → string)
    (ord : list (node * node_attr)) (kwargs : list (string * value))
    (d : gmap string value) :
  (run_order (PlainHandler_methods fmt) ord (PlainHandler_initiate kwargs) ()).1
    = Ok d →
  (∀ k, k ∈ kwargs.*1 → is_Some (d !! k))
  ∧ (∀ k, is_Some (PlainHandler_initiate kwargs !! k) → is_Some (d !! k))
  ∧ (∀ k, k ∉ flat_map (λ na, node_returns na.2) ord →
          d !! k = PlainHandler_initiate kwargs !! k).
Proof.
  intros Hrun.
  assert (∀ d0, (run_order (PlainHandler_methods fmt) ord d0 ()).1 = Ok d →
            (∀ k, is_Some (d0 !! k) → is_Some (d !! k))
            ∧ (∀ k, k ∉ flat_map (λ na, node_returns na.2) ord →
                    d !! k = d0 !! k)) as Hgen.
  { clear Hrun. induction ord as [|[n attr] ord IH]; intros d0; simpl.
    - intros [= <-]. done.
    - unfold pure_method.
      destruct (PlainHandler_run_node d0 n attr) as [d1|e] eqn:Hnode;
        [| by destruct (is_Exception e)].
      intros Hrest. destruct (IH _ Hrest) as [Hkeep Hsame].
      apply PlainHandler_run_node_Ok in Hnode as (kw & out & _ & _ & Hstore).
      split.
      + intros k Hk. apply Hkeep. by eapply store_output_keeps.
      + intros k Hk. rewrite Hsame by set_solver.
        apply (store_output_other _ _ _ _ k Hstore). set_solver. }
  destruct (Hgen _ Hrun) as [Hkeep Hsame]. split; [| done].
  intros k Hk. apply Hkeep. unfold PlainHandler_initiate.
  clear -Hk. revert Hk. generalize (∅ : gmap string value).
  induction kwargs as [|[k' v'] kwargs IH]; intros d0 Hk; [by inversion Hk |].
  rewrite dict_update_cons. simpl in *.
  destruct (decide (k ∈ kwargs.*1)) as [Hin|Hnot]; [by apply IH |].
  rewrite dict_update_lookup_notin by done.
  assert (k = k') as -> by set_solver. rewrite lookup_insert_eq. by eexists.
Qed.

Lemma plain_run_retains_every_entry_witness :
  let d := match (run_order (PlainHandler_methods example_fmt) example_order
                    (PlainHandler_initiate example_inputs) ()).1 with
           | Ok d => d
           | Raise _ => ∅
           end in
  (∀ k, k ∈ example_inputs.*1 → is_Some (d !! k))
  ∧ (∀ k, is_Some (PlainHandler_initiate example_inputs !! k) → is_Some (d !! k))
  ∧ (∀ k, k ∉ flat_map (λ na, node_returns na.2) example_order →
          d !! k = PlainHandler_initiate example_inputs !! k).
Proof.
  apply (plain_run_retains_every_entry example_fmt example_order example_inputs).
  by vm_compute.
Defined.

(** ** The arguments of a callable *)

Lemma dict_comp_lookup (d : gmap string value) ps kw :
  dict_comp d ps = Ok kw →
  ∀ k, kw !! k = if decide (k ∈ ps) then d !! k else None.
Proof.
  revert kw. induction ps as [|p ps IH]; intros kw; simpl.
  - intros [= <-] k. apply lookup_empty.
  - intros (v & Hv%getitem_Ok & Hrest)%rbind_Ok.
    apply rbind_Ok in Hrest as (kw' & Hkw' & [= <-]). intros k.
    destruct (decide (k = p)) as [->|Hne].
    + rewrite lookup_insert_eq, decide_True by set_solver. done.
    + rewrite lookup_insert_ne, (IH _ Hkw') by done.
      destruct (decide (k ∈ ps)).
      * rewrite decide_True by set_solver. done.
      * rewrite decide_False by set_solver. done.
Qed.

Section H5_arguments.
Context {H : Type} `{H5Backend H}.

Lemma read_comp_Ok ps g (st st' : h5_state H) kw :
  read_comp ps g st = (Ok kw, st') →
  (∀ k, kw !! k = if decide (k ∈ ps) then stored (h5 st) g k else None)
  ∧ h5 st' = h5 st
  ∧ trace st' = trace st ++ map (EvRead g) ps.
Proof.
  revert st kw. induction ps as [|p ps IH]; intros st kw; simpl.
  - intros [= <- <-]. split_and!; [| done | by rewrite app_nil_r].
    intros k. apply lookup_empty.
  - destruct (h5py_getitem g p (h5 st)) as [v|e] eqn:Hv; [| discriminate].
    destruct (read_comp ps g (log (EvRead g p) st)) as [[kw'|e] st2] eqn:Hrest;
      [| discriminate].
    intros [= <- <-]. destruct (IH _ _ Hrest) as (Hkw & Hlib & Htr).
    split_and!; [| done | rewrite Htr; simpl; by rewrite <- app_assoc].
    intros k. destruct (decide (k = p)) as [->|Hne].
    + rewrite lookup_insert_eq, decide_True by set_solver.
      unfold stored. by rewrite Hv.
    + rewrite lookup_insert_ne, Hkw by done. simpl.
      destruct (decide (k ∈ ps)).
      * rewrite decide_True by set_solver. done.
      * rewrite decide_False by set_solver. done.
Qed.
End H5_arguments.

(** X5: the callable of a node is applied to exactly the parameters of
    the node: in a [run_node] that succeeds, its keyword arguments map
    each parameter name to the value the mapping (the group, for
    [H5Handler]) holds for it, and hold no other name. *)
Theorem callable_receives_exactly_its_parameters {H : Type} `{H5Backend H}
    (d d' : gmap string value) (n : node) (attr : node_attr)
    (f g : string) (st st' : h5_state H) (di : string * string) :
  PlainHandler_run_node d n attr = Ok d' →
  H5Handler_run_node (f, g) n attr st = (Ok di, st') →
  (∃ kwargs func_output,
     (∀ k, kwargs !! k = if decide (k ∈ parameters attr) then d !! k else None)
     ∧ obj attr kwargs = Ok func_output
     ∧ store_output (node_returns attr) func_output d = Ok d')
  ∧ (∃ kwargs func_output,
       (∀ k, kwargs !! k
             = if decide (k ∈ parameters attr) then stored (h5 st) g k else None)
       ∧ obj attr kwargs = Ok func_output).
Proof.
  intros HP HH. split.
  - apply PlainHandler_run_node_Ok in HP as (kw & out & Hkw & Hout & Hstore).
    exists kw, out. split_and!; [| done | done]. by apply dict_comp_lookup.
  - unfold H5Handler_run_node in HH. simpl in HH.
    destruct (read_comp (parameters attr) g st) as [[kw|e] st1] eqn:Hread;
      [| discriminate].
    destruct (obj attr kw) as [out|e] eqn:Hout; [| discriminate].
    exists kw, out. split; [| done]. by apply read_comp_Ok in Hread as (Hkw & _).
Qed.

Lemma callable_receives_exactly_its_parameters_witness :
  ∃ kwargs func_output,
    (∀ k, kwargs !! k
          = if decide (k ∈ parameters add_attr)
            then dict_update ∅ (("z", VInt 9) :: example_inputs) !! k
            else None)
    ∧ obj add_attr kwargs = Ok func_output
    ∧ store_output (node_returns add_attr) func_output
        (dict_update ∅ (("z", VInt 9) :: example_inputs))
      = Ok (dict_update ∅ (("z", VInt 9) :: example_inputs ++ [("c", VInt 5)])).
Proof.
  set (st := (H5Handler_initiate example_h5 example_inputs
                (h5_state_init keyed_empty)).2).
  refine (proj1 (callable_receives_exactly_its_parameters (H := keyed_file)
            (dict_update ∅ (("z", VInt 9) :: example_inputs)) _
            "add" add_attr "model.h5" "140_1" st
            (H5Handler_run_node ("model.h5", "140_1") "add" add_attr st).2
            ("model.h5", "140_1") _ _)).
  - by vm_compute.
  - by vm_compute.
Defined.

(** ** Missing and malformed values *)

Lemma dict_comp_first_missing (d : gmap string value) pre key post :
  (∀ k, k ∈ pre → is_Some (d !! k)) → d !! key = None →
  dict_comp d (pre ++ key :: post) = Raise (KeyError key).
Proof.
  induction pre as [|p pre IH]; intros Hpre Hkey; simpl.
  - unfold getitem. by rewrite Hkey.
  - destruct (Hpre p) as [v Hv]; [set_solver |].
    unfold getitem at 1. rewrite Hv. simpl. rewrite IH; [done | | done].
    intros k Hk. apply Hpre. set_solver.
Qed.

(** X6: when a parameter of a node is absent from the mapping, the
    in-memory strategies raise [KeyError] for the first absent
    parameter, in parameter order, and the call raises the exception of
    the node chained from that [KeyError]. *)
Theorem missing_parameter_raises_KeyError {graph : Type}
    (fmt : node → node_attr → string) (base : TopologicalHandler graph)
    (cnt : gmap string Z) (kwargs : list (string * value))
    (n : node) (attr : node_attr) (rest : list (node * node_attr))
    (pre post : list string) (key : string) :
  order base = (n, attr) :: rest →
  parameters attr = pre ++ key :: post →
  (∀ k, k ∈ pre → k ∈ kwargs.*1) →
  key ∉ kwargs.*1 →
  let wrapped := Chained (node_message fmt n attr) (KeyError key) in
  PlainHandler_run_node (PlainHandler_initiate kwargs) n attr
    = Raise (KeyError key)
  ∧ MemHandler_run_node (PlainHandler_initiate kwargs, cnt) n attr
    = Raise (KeyError key)
  ∧ PlainHandler_call fmt base kwargs = Raise wrapped
  ∧ MemHandler_call fmt {| mem_base := base; counter := cnt |} kwargs
    = Raise wrapped.
Proof.
  intros Hord Hparams Hpre Hkey wrapped.
  assert (∀ k, PlainHandler_initiate kwargs !! k = None ↔ k ∉ kwargs.*1) as Hdom.
  { intros k. unfold PlainHandler_initiate. split.
    - intros Hnone Hin.
      enough (is_Some (dict_update ∅ kwargs !! k)) as [v Hv] by congruence.
      clear -Hin. revert Hin. generalize (∅ : gmap string value).
      induction kwargs as [|[k' v'] kwargs IH]; intros d0 Hk; [by inversion Hk |].
      rewrite dict_update_cons. simpl in *.
      destruct (decide (k ∈ kwargs.*1)) as [Hin|Hnot]; [by apply IH |].
      rewrite dict_update_lookup_notin by done.
      assert (k = k') as -> by set_solver. rewrite lookup_insert_eq. by eexists.
    - intros Hnot. by rewrite dict_update_lookup_notin. }
  assert (dict_comp (PlainHandler_initiate kwargs) (parameters attr)
          = Raise (KeyError key)) as Hcomp.
  { rewrite Hparams. apply dict_comp_first_missing; [| by apply Hdom].
    intros k Hk. specialize (Hpre k Hk).
    destruct (PlainHandler_initiate kwargs !! k) eqn:Hk'; [by eexists |].
    by apply Hdom in Hk'. }
  assert (PlainHandler_run_node (PlainHandler_initiate kwargs) n attr
          = Raise (KeyError key)) as HP
    by (unfold PlainHandler_run_node; by rewrite Hcomp).
  assert (MemHandler_run_node (PlainHandler_initiate kwargs, cnt) n attr
          = Raise (KeyError key)) as HM
    by (unfold MemHandler_run_node; by rewrite Hcomp).
  split_and!; [done | done | |].
  - unfold PlainHandler_call, call. simpl. rewrite Hord. simpl.
    unfold pure_method. by rewrite HP.
  - unfold MemHandler_call, call. simpl. rewrite Hord. simpl.
    unfold pure_method, MemHandler_initiate. simpl.
    unfold PlainHandler_initiate in HM. by rewrite HM.
Qed.

Lemma missing_parameter_raises_KeyError_witness :
  PlainHandler_call example_fmt example_handler [("a", VInt 2); ("d", VInt 10)]
  = Raise (Chained (node_message example_fmt "add" add_attr) (KeyError "b")).
Proof.
  refine (proj1 (proj2 (proj2 (missing_parameter_raises_KeyError example_fmt
            example_handler ∅ [("a", VInt 2); ("d", VInt 10)]
            "add" add_attr [("multiply", multiply_attr)] ["a"] [] "b"
            eq_refl eq_refl _ _)))).
  - intros k Hk. set_solver.
  - set_solver.
Defined.

Lemma zip_fst_index {A} (rts : list string) (vs : list A) r :
  r ∈ (zip rts vs).*1 → ∃ i, rts !! i = Some r ∧ (i < length vs)%nat.
Proof.
  revert vs. induction rts as [|r' rts IH]; intros vs; simpl;
    [by inversion 1 |].
  destruct vs as [|x vs]; simpl; [by inversion 1 |].
  intros Hin. apply list_elem_of_In in Hin. simpl in Hin.
  destruct Hin as [<- | Hin%list_elem_of_In].
  - exists 0%nat. split; [done | lia].
  - destruct (IH vs Hin) as (i & Hi & Hlt). exists (S i). split; [done | lia].
Qed.

(** X7: a node with several distinct return names whose callable
    returns a sequence of another length still succeeds: the names are
    paired with the elements position by position, a name beyond the end
    of the sequence keeps the entry it had (none, if it had none), and
    elements beyond the last name are dropped. *)
Theorem output_length_mismatch_is_silent (d kwargs : gmap string value)
    (c : gmap string Z) (n : node) (attr : node_attr) (vs : list value)
    (func_output : value) :
  dict_comp d (parameters attr) = Ok kwargs →
  obj attr kwargs = Ok func_output →
  py_iter func_output = Ok vs →
  length (node_returns attr) ≠ 1%nat →
  NoDup (node_returns attr) →
  ∃ d', PlainHandler_run_node d n attr = Ok d'
        ∧ MemHandler_run_node (d, c) n attr = evict (parameters attr) d' c
        ∧ (∀ i r, node_returns attr !! i = Some r →
                  d' !! r = if decide (i < length vs)%nat then vs !! i else d !! r)
        ∧ (∀ k, k ∉ node_returns attr → d' !! k = d !! k).
Proof.
  intros Hkw Hout Hvs Hlen Hnd.
  set (d' := dict_update d (py_dict (zip (node_returns attr) vs))).
  assert (store_output (node_returns attr) func_output d = Ok d') as Hstore.
  { unfold store_output. destruct (node_returns attr) as [|r1 [|r2 rts]];
      simpl in Hlen; [| lia |]; by rewrite Hvs. }
  exists d'. split_and!.
  - unfold PlainHandler_run_node. rewrite Hkw. simpl. by rewrite Hout.
  - unfold MemHandler_run_node. rewrite Hkw. simpl. rewrite Hout. simpl.
    by rewrite Hstore.
  - intros i r Hr. case_decide as Hi.
    + destruct (lookup_lt_is_Some_2 vs i Hi) as [x Hx]. rewrite Hx.
      by eapply dict_update_zip_positional.
    + apply dict_update_lookup_notin. intros Hin%py_dict_keys.
      apply zip_fst_index in Hin as (j & Hj & Hlt).
      assert (i = j) as -> by (by eapply NoDup_lookup). lia.
  - intros k Hk. by apply (store_output_other _ _ _ _ k Hstore).
Qed.

Lemma output_length_mismatch_is_silent_witness :
  ∃ d', PlainHandler_run_node (dict_update ∅ [("a", VInt 2)]) "short" short_attr
        = Ok d'
        ∧ d' !! "q" = Some (VInt 7)
        ∧ d' !! "r" = None.
Proof.
  destruct (output_length_mismatch_is_silent (dict_update ∅ [("a", VInt 2)])
              (dict_update ∅ [("a", VInt 2)]) ∅ "short" short_attr
              [VInt 7] (VTuple [VInt 7]))
    as (d' & Hrun & _ & Hpos & _).
  - by vm_compute.
  - done.
  - done.
  - simpl. lia.
  - simpl. apply NoDup_cons. split; [set_solver |]. apply NoDup_singleton.
  - exists d'. split; [done |]. split.
    + by rewrite (Hpos 0%nat "q" eq_refl).
    + by rewrite (Hpos 1%nat "r" eq_refl).
Defined.

(** X8: a node whose number of return names is not one, zero included,
    must return an iterable: when the result is not iterable, [run_node]
    raises the [TypeError] of the iteration in every strategy, after the
    callable has run and before anything is stored ([H5Handler] has only
    read the parameters). *)
Theorem non_iterable_output_raises {H : Type} `{H5Backend H}
    (d kwargs : gmap string value) (c : gmap string Z) (n : node)
    (attr : node_attr) (func_output : value) (e : exn)
    (f g : string) (st st1 : h5_state H) :
  length (node_returns attr) ≠ 1%nat →
  obj attr kwargs = Ok func_output →
  py_iter func_output = Raise e →
  (dict_comp d (parameters attr) = Ok kwargs →
     PlainHandler_run_node d n attr = Raise e
     ∧ MemHandler_run_node (d, c) n attr = Raise e)
  ∧ (read_comp (parameters attr) g st = (Ok kwargs, st1) →
       H5Handler_run_node (f, g) n attr st = (Raise e, st1)
       ∧ h5 st1 = h5 st
       ∧ trace st1 = trace st ++ map (EvRead g) (parameters attr)).
Proof.
  intros Hlen Hout Hiter.
  assert (∀ d0, store_output (node_returns attr) func_output d0 = Raise e) as Hs.
  { intros d0. unfold store_output.
    destruct (node_returns attr) as [|r1 [|r2 rts]]; simpl in Hlen; [| lia |];
      by rewrite Hiter. }
  split.
  - intros Hkw. unfold PlainHandler_run_node, MemHandler_run_node.
    rewrite Hkw. simpl. rewrite Hout. simpl. by rewrite Hs.
  - intros Hread. destruct (read_comp_Ok _ _ _ _ _ Hread) as (_ & Hlib & Htr).
    split_and!; [| done | done].
    unfold H5Handler_run_node. simpl. rewrite Hread, Hout.
    assert (output_items (node_returns attr) func_output = Raise e) as ->; [| done].
    unfold output_items.
    destruct (node_returns attr) as [|r1 [|r2 rts]]; simpl in Hlen; [| lia |];
      by rewrite Hiter.
Qed.

Lemma non_iterable_output_raises_witness :
  PlainHandler_run_node (dict_update ∅ [("a", VInt 2)]) "silent" silent_attr
  = Raise (TypeError "'NoneType' object is not iterable").
Proof.
  refine (proj1 (proj1 (non_iterable_output_raises (H := keyed_file)
            (dict_update ∅ [("a", VInt 2)]) (dict_update ∅ [("a", VInt 2)])
            ∅ "silent" silent_attr VNone
            (TypeError "'NoneType' object is not iterable")
            "model.h5" "140_1" (h5_state_init keyed_empty)
            (h5_state_init keyed_empty) _ eq_refl eq_refl) _)).
  - simpl. lia.
  - by vm_compute.
Defined.

(** ** Requested outputs *)

(** X9: the requested outputs are not deduplicated: their number is the
    number of returns of the graph plus the number of additional
    returns.  When that number is not one, a call that succeeds returns
    a tuple with one element per requested name, so asking again for the
    single return of a graph turns the returned value into a pair. *)
Theorem requested_outputs_keep_duplicates {graph : Type}
    (model_signature : graph → result (list string))
    (model_returns : graph → result (list string))
    (graph_topological_sort : graph → result (list (node * node_attr)))
    (graph_copy : graph → result graph)
    (g : graph) (additional_returns rts : list string)
    (base : TopologicalHandler graph)
    (fmt : node → node_attr → string) (kwargs : list (string * value))
    (v : value) :
  TopologicalHandler_init model_signature model_returns graph_topological_sort
    graph_copy g additional_returns = Ok base →
  model_returns g = Ok rts →
  PlainHandler_call fmt base kwargs = Ok v →
  length (returns base) = (length rts + length additional_returns)%nat
  ∧ (∀ x, x ∈ rts → x ∈ additional_returns →
          ∃ l1 l2 l3, returns base ≡ₚ x :: x :: l1 ∧ rts ≡ₚ x :: l2
                      ∧ additional_returns ≡ₚ x :: l3)
  ∧ ((length rts + length additional_returns)%nat ≠ 1%nat →
       ∃ vs, v = VTuple vs
             ∧ length vs = (length rts + length additional_returns)%nat).
Proof.
  intros Hinit Hrts Hcall.
  assert (returns base ≡ₚ rts ++ additional_returns) as Hperm.
  { unfold TopologicalHandler_init in Hinit.
    apply rbind_Ok in Hinit as (sg & _ & Hinit).
    apply rbind_Ok in Hinit as (rts' & Hrts' & Hinit).
    apply rbind_Ok in Hinit as (ord & _ & Hinit).
    apply rbind_Ok in Hinit as (cp & _ & [= <-]). simpl.
    assert (rts' = rts) as -> by congruence. apply sorted_Permutation. }
  assert (length (returns base) = (length rts + length additional_returns)%nat)
    as Hlen by (by rewrite Hperm, length_app).
  split; [done |]. split.
  - intros x Hx1 Hx2.
    apply elem_of_Permutation in Hx1 as [l2 Hl2].
    apply elem_of_Permutation in Hx2 as [l3 Hl3].
    exists (l2 ++ l3), l2, l3. split_and!; [| done | done].
    rewrite Hperm, Hl2, Hl3. simpl. constructor.
    by rewrite <- Permutation_middle.
  - intros Hne. rewrite <- Hlen in *.
    unfold PlainHandler_call, call in Hcall. simpl in Hcall.
    unfold pure_method in Hcall.
    destruct (run_order (PlainHandler_methods fmt) _ _ ()) as [[d|e] []];
      [| discriminate].
    simpl in Hcall. unfold PlainHandler_finish in Hcall.
    destruct (returns base) as [|r1 [|r2 l]] eqn:Hret; simpl in Hne; [| lia |].
    + injection Hcall as <-. by exists [].
    + apply rbind_Ok in Hcall as (vs & Hvs%getitems_Ok & [= <-]).
      exists vs. split; [done |]. symmetry. by eapply Forall2_length.
Qed.

Lemma requested_outputs_keep_duplicates_witness :
  ∃ vs, VTuple [VInt 50; VInt 50] = VTuple vs ∧ length vs = 2%nat.
Proof.
  refine (proj2 (proj2 (requested_outputs_keep_duplicates (graph := unit)
            (λ _, Ok ["a"; "b"; "d"]) (λ _, Ok ["e"])
            (λ _, Ok example_order) (λ _, Ok ()) () ["e"] ["e"]
            {| __signature__ := ["a"; "b"; "d"];
               returns := sorted (["e"] ++ ["e"]);
               order := example_order; handler_graph := () |}
            example_fmt example_inputs (VTuple [VInt 50; VInt 50])
            eq_refl eq_refl _)) _).
  - by vm_compute.
  - simpl. lia.
Defined.

(** ** The library calls of the Durable-Persisted strategy *)

Lemma handle_open_after_File f mode tr evs :
  Forall not_close evs → handle_open f (tr ++ EvFile f mode :: evs) = true.
Proof.
  intros Hevs. unfold handle_open. rewrite foldl_app. simpl.
  rewrite decide_True by done.
  induction Hevs as [|ev evs Hev _ IH]; simpl; [done |].
  destruct ev; simpl in *; try done. by case_decide.
Qed.

Section H5_trace_facts.
Context {H : Type} `{H5Backend H} {graph : Type}.
Variable fmt : node → node_attr → string.
Variable self : H5Handler graph.

Lemma H5Handler_write_not_close items g (st : h5_state H) :
  ∃ evs, trace (H5Handler_write items g st).2 = trace st ++ evs
         ∧ Forall not_close evs.
Proof.
  revert st. induction items as [|[k v] items IH]; intros st; simpl.
  - exists []. by rewrite app_nil_r.
  - pose proof (lib_call_trace (EvCreateDataset g k v)
                  (h5py_create_dataset g k v) st) as Htr.
    destruct (lib_call _ _ st) as [[[]|e] st1]; simpl in Htr.
    + destruct (IH st1) as (evs & Hevs & Hnc).
      exists (EvCreateDataset g k v :: evs). split.
      * by rewrite Hevs, Htr, <- app_assoc.
      * by constructor.
    + exists [EvCreateDataset g k v]. split; [done |].
      by repeat constructor.
Qed.

Lemma read_comp_not_close ps g (st : h5_state H) :
  ∃ evs, trace (read_comp ps g st).2 = trace st ++ evs
         ∧ Forall not_close evs
         ∧ h5 (read_comp ps g st).2 = h5 st.
Proof.
  revert st. induction ps as [|p ps IH]; intros st; simpl.
  - exists []. by rewrite app_nil_r.
  - destruct (h5py_getitem g p (h5 st)) as [v|e]; simpl.
    + destruct (IH (log (EvRead g p) st)) as (evs & Hevs & Hnc & Hlib).
      exists (EvRead g p :: evs).
      destruct (read_comp ps g (log (EvRead g p) st)) as [[kw|e] st2];
        simpl in *; (split_and!; [by rewrite Hevs, <- app_assoc
                                 | by constructor | done]).
    + exists [EvRead g p]. split_and!; [done | by repeat constructor | done].
Qed.

Lemma read_all_facts rts g (st : h5_state H) :
  h5 (read_all rts g st).2 = h5 st
  ∧ (∃ evs, trace (read_all rts g st).2 = trace st ++ evs ∧ Forall not_close evs)
  ∧ (is_ok (read_all rts g st).1 = true →
     trace (read_all rts g st).2 = trace st ++ map (EvRead g) rts).
Proof.
  revert st. induction rts as [|r rts IH]; intros st; simpl.
  - split_and!; [done | exists []; by rewrite app_nil_r
                | intros _; by rewrite app_nil_r].
  - destruct (h5py_getitem g r (h5 st)) as [v|e]; simpl.
    + destruct (IH (log (EvRead g r) st)) as (Hlib & (evs & Hevs & Hnc) & Hok).
      destruct (read_all rts g (log (EvRead g r) st)) as [[vs|e] st2];
        simpl in *.
      * split_and!; [done | | intros _; rewrite Hok by done;
                                by rewrite <- app_assoc].
        exists (EvRead g r :: evs). split; [| by constructor].
        by rewrite Hevs, <- app_assoc.
      * split_and!; [done | | done].
        exists (EvRead g r :: evs). split; [| by constructor].
        by rewrite Hevs, <- app_assoc.
    + split_and!; [done | | done].
      exists [EvRead g r]. split; [done | by repeat constructor].
Qed.

Lemma H5Handler_run_node_not_close d n attr (st : h5_state H) :
  ∃ evs, trace (H5Handler_run_node d n attr st).2 = trace st ++ evs
         ∧ Forall not_close evs.
Proof.
  unfold H5Handler_run_node.
  destruct (read_comp_not_close (parameters attr) d.2 st) as (evs & Hevs & Hnc & _).
  destruct (read_comp (parameters attr) d.2 st) as [[kw|e] st1]; simpl in Hevs;
    [| by exists evs].
  destruct (obj attr kw) as [out|e]; [| by exists evs].
  destruct (output_items (node_returns attr) out) as [items|e]; [| by exists evs].
  destruct (H5Handler_write_not_close items d.2 st1) as (evs2 & Hevs2 & Hnc2).
  exists (evs ++ evs2). split.
  - destruct (H5Handler_write items d.2 st1) as [[[]|e] st2]; simpl in *;
      by rewrite Hevs2, Hevs, <- app_assoc.
  - by apply Forall_app.
Qed.

Lemma H5_run_order_Ok_not_close ord d (st st' : h5_state H) d' :
  run_order (H5Handler_methods fmt self) ord d st = (Ok d', st') →
  ∃ evs, trace st' = trace st ++ evs ∧ Forall not_close evs.
Proof.
  revert d st. induction ord as [|[n attr] ord IH]; intros d st;
    cbn [run_order run_node raise_node_exception H5Handler_methods].
  - intros [= <- <-]. exists []. by rewrite app_nil_r.
  - destruct (H5Handler_run_node_not_close d n attr st) as (evs & Hevs & Hnc).
    destruct (H5Handler_run_node d n attr st) as [[d1|e] st1]; simpl in Hevs.
    + intros (evs2 & Hevs2 & Hnc2)%IH. exists (evs ++ evs2). split.
      * by rewrite Hevs2, Hevs, <- app_assoc.
      * by apply Forall_app.
    + destruct (is_Exception e); [| discriminate].
      pose proof (H5Handler_raise_node_exception_raises fmt d n attr e st1) as Hr.
      destruct (H5Handler_raise_node_exception fmt d n attr e st1)
        as [[d2|e2] st2]; discriminate.
Qed.

Lemma H5Handler_initiate_not_close kwargs (st : h5_state H) lib :
  h5py_File (h5_filename self) "a" (h5 st) = Ok lib →
  ∃ evs, trace (H5Handler_initiate self kwargs st).2
         = trace st ++ EvFile (h5_filename self) "a" :: evs
         ∧ Forall not_close evs.
Proof.
  intros Hfile. unfold H5Handler_initiate.
  set (st0 := {| exe_count := exe_count st + 1; h5 := h5 st; trace := trace st |}).
  set (st1 := set_h5 lib (log (EvFile (h5_filename self) "a") st0)).
  assert (lib_call (EvFile (h5_filename self) "a")
            (h5py_File (h5_filename self) "a") st0 = (Ok (), st1)) as ->.
  { unfold lib_call. simpl. by rewrite Hfile. }
  set (g := exe_group_name (self_id self) (exe_count st1)).
  pose proof (lib_call_trace (EvCreateGroup (h5_filename self) g)
                (h5py_create_group (h5_filename self) g) st1) as H2.
  destruct (lib_call _ _ st1) as [[[]|e] st2]; simpl in H2.
  - destruct (H5Handler_write_not_close kwargs g st2) as (evs & Hevs & Hnc).
    exists (EvCreateGroup (h5_filename self) g :: evs). split; [| by constructor].
    assert (trace (H5Handler_write kwargs g st2).2
            = trace st ++ EvFile (h5_filename self) "a"
                :: EvCreateGroup (h5_filename self) g :: evs) as Htr.
    { rewrite Hevs, H2. simpl. by rewrite <- !app_assoc. }
    by destruct (H5Handler_write kwargs g st2) as [[[]|e] st3].
  - exists [EvCreateGroup (h5_filename self) g]. split; [| by repeat constructor].
    simpl. rewrite H2. simpl. by rewrite <- app_assoc.
Qed.
End H5_trace_facts.

(** X10: a call of [H5Handler] that returns a value ends by reading the
    requested outputs from the group of the call, in their sorted order,
    and then closing the file: these are its last library calls, a read
    changes nothing in the library, and the handle is closed. *)
Theorem successful_call_reads_outputs_then_closes {H : Type} `{H5Backend H}
    {graph : Type} (fmt : node → node_attr → string) (self : H5Handler graph)
    (kwargs : list (string * value)) (st st' : h5_state H) (v : value) :
  H5Handler_call fmt self kwargs st = (Ok v, st') →
  let f := h5_filename self in
  let g := exe_group_name (self_id self) (exe_count st + 1) in
  ∃ st1 st2,
    H5Handler_initiate self kwargs st = (Ok (f, g), st1)
    ∧ run_order (H5Handler_methods fmt self) (order (h5_base self)) (f, g) st1
      = (Ok (f, g), st2)
    ∧ trace st' = trace st2 ++ map (EvRead g) (returns (h5_base self))
                    ++ [EvClose f]
    ∧ h5py_close f (h5 st2) = Ok (h5 st')
    ∧ handle_open f (trace st') = false.
Proof.
  intros Hcall f g. unfold H5Handler_call in Hcall.
  apply call_Ok in Hcall as (d0 & st1 & d & st2 & Hinit & Hrun & Hfin).
  simpl in Hinit, Hrun, Hfin.
  destruct (H5Handler_initiate_Ok fmt _ _ _ _ _ Hinit) as [-> _].
  assert (d = (f, g)) as -> by (by eapply H5_run_order_data).
  exists st1, st2. split; [done |]. split; [done |].
  assert (trace st' = trace st2 ++ map (EvRead g) (returns (h5_base self))
                        ++ [EvClose f]
          ∧ h5py_close f (h5 st2) = Ok (h5 st')) as [Htr Hlib].
  { apply H5Handler_finish_Ok_inv in Hfin as (st3 & Hread & Hclose).
    apply H5Handler_close_Ok in Hclose as [Htr Hlib].
    assert (trace st3 = trace st2 ++ map (EvRead g) (returns (h5_base self))
            ∧ h5 st3 = h5 st2) as [Htr3 Hlib3].
    { destruct (returns (h5_base self)) as [|r1 [|r2 rts]] eqn:Hret.
      - simpl in Hread. injection Hread as _ <-. simpl. by rewrite app_nil_r.
      - unfold H5Handler_read in Hread. by injection Hread as _ <-.
      - destruct (read_all_facts (r1 :: r2 :: rts) g st2) as (Hlib3 & _ & Hok).
        destruct (read_all (r1 :: r2 :: rts) g st2) as [[vs|e] st4];
          [| discriminate].
        injection Hread as _ <-. split; [by apply Hok | done]. }
    rewrite Htr, Htr3, <- Hlib3. by rewrite <- app_assoc. }
  split; [done |]. split; [done |].
  rewrite Htr, app_assoc. apply handle_open_closed.
Qed.

Lemma successful_call_reads_outputs_then_closes_witness :
  let r := H5Handler_call example_fmt example_h5 example_inputs
             (h5_state_init keyed_empty) in
  ∃ st1 st2,
    H5Handler_initiate example_h5 example_inputs (h5_state_init keyed_empty)
      = (Ok ("model.h5", "140_1"), st1)
    ∧ run_order (H5Handler_methods example_fmt example_h5) example_order
        ("model.h5", "140_1") st1 = (Ok ("model.h5", "140_1"), st2)
    ∧ trace r.2 = trace st2 ++ [EvRead "140_1" "e"] ++ [EvClose "model.h5"]
    ∧ h5py_close "model.h5" (h5 st2) = Ok (h5 r.2)
    ∧ handle_open "model.h5" (trace r.2) = false.
Proof.
  apply (successful_call_reads_outputs_then_closes example_fmt example_h5
           example_inputs (h5_state_init keyed_empty) _ (VInt 50)).
  by vm_compute.
Defined.

(** X11: when every node has run and reading the requested outputs
    raises, [finish] and with it the call of [H5Handler] raise that
    error as it is, and the file the call opened stays open: no [close]
    is issued and the library is left in the state the last node left it
    in. *)
Theorem failed_finish_leaves_the_file_open {H : Type} `{H5Backend H}
    {graph : Type} (fmt : node → node_attr → string) (self : H5Handler graph)
    (kwargs : list (string * value)) (st st1 st2 : h5_state H)
    (d0 d : string * string) (lib : H) (e : exn) :
  h5py_File (h5_filename self) "a" (h5 st) = Ok lib →
  H5Handler_initiate self kwargs st = (Ok d0, st1) →
  run_order (H5Handler_methods fmt self) (order (h5_base self)) d0 st1
    = (Ok d, st2) →
  (read_all (returns (h5_base self)) d.2 st2).1 = Raise e →
  let r := H5Handler_call fmt self kwargs st in
  r.1 = Raise e
  ∧ h5 r.2 = h5 st2
  ∧ handle_open (h5_filename self) (trace r.2) = true.
Proof.
  intros Hfile Hinit Hrun Hread r.
  assert (r = H5Handler_finish d (returns (h5_base self)) st2) as ->.
  { unfold r, H5Handler_call. by erewrite call_finish. }
  assert ((H5Handler_finish d (returns (h5_base self)) st2).1 = Raise e
          ∧ ∃ st3, H5Handler_finish d (returns (h5_base self)) st2
                   = (Raise e, st3)
                   ∧ (read_all (returns (h5_base self)) d.2 st2).2 = st3)
    as [Hfin (st3 & Hfin3 & Hst3)].
  { destruct d as [f g]. unfold H5Handler_finish. cbn [snd] in *.
    destruct (returns (h5_base self)) as [|r1 [|r2 rts]].
    - discriminate.
    - unfold read_all, H5Handler_read in *. simpl in *.
      destruct (h5py_getitem g r1 (h5 st2)); [discriminate |].
      simpl in Hread. injection Hread as <-. split; [done | by eexists].
    - destruct (read_all (r1 :: r2 :: rts) g st2) as [[vs|e'] st3];
        [discriminate |].
      simpl in Hread. injection Hread as <-. split; [done | by eexists]. }
  split; [done |].
  destruct (H5Handler_initiate_not_close self kwargs st lib Hfile)
    as (evs1 & Htr1 & Hnc1).
  rewrite Hinit in Htr1. simpl in Htr1.
  destruct (H5_run_order_Ok_not_close fmt self _ _ _ _ _ Hrun)
    as (evs2 & Htr2 & Hnc2).
  assert (∃ evs3, trace (H5Handler_finish d (returns (h5_base self)) st2).2
                  = trace st2 ++ evs3 ∧ Forall not_close evs3
          ∧ h5 (H5Handler_finish d (returns (h5_base self)) st2).2 = h5 st2)
    as (evs3 & Htr3 & Hnc3 & Hlib).
  { rewrite Hfin3. simpl. subst st3.
    destruct (read_all_facts (returns (h5_base self)) d.2 st2)
      as (Hlib & (evs & Hevs & Hnc) & _).
    by exists evs. }
  split; [done |].
  rewrite Htr3, Htr2, Htr1, <- !app_assoc. simpl.
  apply handle_open_after_File. by rewrite !Forall_app.
Qed.

Lemma failed_finish_leaves_the_file_open_witness :
  let r := H5Handler_call example_fmt missing_output_h5 example_inputs
             (h5_state_init keyed_empty) in
  r.1 = Raise (KeyError "zzz")
  ∧ handle_open "model.h5" (trace r.2) = true.
Proof.
  intros r.
  set (st := h5_state_init keyed_empty).
  set (st1 := (H5Handler_initiate missing_output_h5 example_inputs st).2).
  set (st2 := (run_order (H5Handler_methods example_fmt missing_output_h5)
                 example_order ("model.h5", "140_1") st1).2).
  destruct (failed_finish_leaves_the_file_open example_fmt missing_output_h5
              example_inputs st st1 st2 ("model.h5", "140_1")
              ("model.h5", "140_1")
              {| groups := ∅; attrs := ∅; open_handles := ["model.h5"] |}
              (KeyError "zzz"))
    as (Hres & _ & Hopen).
  - reflexivity.
  - by vm_compute.
  - by vm_compute.
  - by vm_compute.
  - by split.
Defined.

(** X12: a [run_node] of [H5Handler] that succeeds reads every
    parameter of the node from the group, once and in parameter order,
    then calls the callable, then creates one dataset per output item;
    it makes no other library call. *)
Theorem h5_node_reads_parameters_then_writes_outputs {H : Type} `{H5Backend H}
    (f g : string) (n : node) (attr : node_attr) (st st' : h5_state H)
    (d : string * string) :
  H5Handler_run_node (f, g) n attr st = (Ok d, st') →
  ∃ kwargs func_output items st1,
    read_comp (parameters attr) g st = (Ok kwargs, st1)
    ∧ obj attr kwargs = Ok func_output
    ∧ output_items (node_returns attr) func_output = Ok items
    ∧ H5Handler_write items g st1 = (Ok (), st')
    ∧ trace st' = trace st ++ map (EvRead g) (parameters attr)
                    ++ map (dataset_event g) items.
Proof.
  unfold H5Handler_run_node. simpl.
  destruct (read_comp (parameters attr) g st) as [[kw|e] st1] eqn:Hread;
    [| discriminate].
  destruct (obj attr kw) as [out|e] eqn:Hout; [| discriminate].
  destruct (output_items (node_returns attr) out) as [items|e] eqn:Hitems;
    [| discriminate].
  destruct (H5Handler_write items g st1) as [[[]|e] st2] eqn:Hw; [| discriminate].
  intros [= <- <-]. exists kw, out, items, st1. split_and!; try done.
  rewrite (H5Handler_write_Ok_trace _ _ _ _ _ Hw).
  destruct (read_comp_Ok _ _ _ _ _ Hread) as (_ & _ & ->).
  by rewrite <- app_assoc.
Qed.

Lemma h5_node_reads_parameters_then_writes_outputs_witness :
  let st := (H5Handler_initiate example_h5 example_inputs
               (h5_state_init keyed_empty)).2 in
  let st' := (H5Handler_run_node ("model.h5", "140_1") "add" add_attr st).2 in
  ∃ kwargs func_output items st1,
    read_comp ["a"; "b"] "140_1" st = (Ok kwargs, st1)
    ∧ obj add_attr kwargs = Ok func_output
    ∧ output_items ["c"] func_output = Ok items
    ∧ H5Handler_write items "140_1" st1 = (Ok (), st')
    ∧ trace st' = trace st ++ map (EvRead "140_1") ["a"; "b"]
                    ++ map (dataset_event "140_1") items.
Proof.
  intros st st'.
  apply (h5_node_reads_parameters_then_writes_outputs "model.h5" "140_1" "add"
           add_attr st st' ("model.h5", "140_1")).
  by vm_compute.
Defined.

(** X13: [H5Handler.write] stops at the first dataset the library
    refuses: the items before it have been written and stay written, the
    refused [create_dataset] is the last library call, the error is the
    library's, and the items after it are never tried. *)
Theorem write_stops_at_first_refusal {H : Type} `{H5Backend H}
    (items : list (string * value)) (g : string) (st st' : h5_state H)
    (e : exn) :
  H5Handler_write items g st = (Raise e, st') →
  ∃ pre k v post st0,
    items = pre ++ (k, v) :: post
    ∧ H5Handler_write pre g st = (Ok (), st0)
    ∧ h5py_create_dataset g k v (h5 st0) = Raise e
    ∧ h5 st' = h5 st0
    ∧ trace st' = trace st ++ map (dataset_event g) pre
                    ++ [EvCreateDataset g k v].
Proof.
  revert st. induction items as [|[k v] items IH]; intros st; simpl;
    [discriminate |].
  unfold lib_call. simpl.
  destruct (h5py_create_dataset g k v (h5 st)) as [lib|e0] eqn:Hds.
  - intros Hrest.
    destruct (IH _ Hrest) as (pre & k' & v' & post & st0 & -> & Hpre & He & Hlib & Htr).
    exists ((k, v) :: pre), k', v', post, st0. split_and!; try done.
    + simpl. unfold lib_call. simpl. by rewrite Hds.
    + rewrite Htr. simpl. by rewrite <- !app_assoc.
  - intros [= <- <-]. exists [], k, v, items, st. by split_and!.
Qed.

Lemma write_stops_at_first_refusal_witness :
  let st := {| exe_count := 1;
               h5 := {| groups := {[ "140_1" := ∅ ]}; attrs := ∅;
                        open_handles := ["model.h5"] |};
               trace := [] |} in
  let items := [("a", VInt 1); ("b", VInt 2); ("a", VInt 3); ("c", VInt 4)] in
  ∃ pre k v post st0,
    items = pre ++ (k, v) :: post
    ∧ H5Handler_write (H0 := once_backend) pre "140_1" st = (Ok (), st0)
    ∧ once_create_dataset "140_1" k v (h5 st0)
      = Raise (Raised "ValueError" "name already exists")
    ∧ h5 (H5Handler_write (H0 := once_backend) items "140_1" st).2 = h5 st0
    ∧ trace (H5Handler_write (H0 := once_backend) items "140_1" st).2
      = trace st ++ map (dataset_event "140_1") pre
          ++ [EvCreateDataset "140_1" k v].
Proof.
  intros st items.
  apply (write_stops_at_first_refusal (H0 := once_backend) items "140_1" st
           (H5Handler_write (H0 := once_backend) items "140_1" st).2
           (Raised "ValueError" "name already exists")).
  by vm_compute.
Defined.

(** X14: an error raised while [initiate] opens the file, creates the
    group or writes the inputs is raised by the call as it is, not
    chained to a node; [exe_count] has been incremented, no node has
    run, and when the file had been opened it is left open. *)
Theorem failed_initiate_is_raised_unwrapped {H : Type} `{H5Backend H}
    {graph : Type} (fmt : node → node_attr → string) (self : H5Handler graph)
    (kwargs : list (string * value)) (st : h5_state H) (e : exn) :
  (H5Handler_initiate self kwargs st).1 = Raise e →
  let r := H5Handler_call fmt self kwargs st in
  r.1 = Raise e
  ∧ r.2 = (H5Handler_initiate self kwargs st).2
  ∧ exe_count r.2 = exe_count st + 1
  ∧ (∀ lib, h5py_File (h5_filename self) "a" (h5 st) = Ok lib →
            handle_open (h5_filename self) (trace r.2) = true)
  ∧ (∀ e0, h5py_File (h5_filename self) "a" (h5 st) = Raise e0 →
           e = e0 ∧ trace r.2 = trace st ++ [EvFile (h5_filename self) "a"]).
Proof.
  intros Hinit r.
  assert (r = (Raise e, (H5Handler_initiate self kwargs st).2)) as ->.
  { unfold r, H5Handler_call, call. simpl.
    destruct (H5Handler_initiate self kwargs st) as [[d0|e'] st1];
      [discriminate |]. simpl in Hinit. by injection Hinit as ->. }
  simpl. split_and!; [done | done | | |].
  - by apply H5Handler_initiate_exe_count.
  - intros lib Hfile.
    destruct (H5Handler_initiate_not_close self kwargs st lib Hfile)
      as (evs & -> & Hnc).
    by apply handle_open_after_File.
  - intros e0 Hfile. unfold H5Handler_initiate, lib_call in *. simpl in *.
    rewrite Hfile in *. simpl in *. by injection Hinit as ->.
Qed.

Lemma failed_initiate_is_raised_unwrapped_witness :
  let st := {| exe_count := 0;
               h5 := {| groups := {[ "140_1" := ∅ ]}; attrs := ∅;
                        open_handles := [] |};
               trace := [] |} in
  let r := H5Handler_call (H0 := once_backend) example_fmt example_h5
             example_inputs st in
  r.1 = Raise (Raised "ValueError" "name already exists")
  ∧ exe_count r.2 = 1
  ∧ handle_open "model.h5" (trace r.2) = true.
Proof.
  intros st r.
  destruct (failed_initiate_is_raised_unwrapped (H0 := once_backend)
              example_fmt example_h5 example_inputs st
              (Raised "ValueError" "name already exists"))
    as (Hres & _ & Hcount & Hopen & _).
  - by vm_compute.
  - split; [exact Hres |]. split; [exact Hcount |].
    by apply (Hopen {| groups := {[ "140_1" := ∅ ]}; attrs := ∅;
                       open_handles := ["model.h5"] |}).
Defined.
